(* ===== verification/_CoqProject ===== *)
-Q . S2P
Prelude.v
Unicode.v
PyStr.v
Regex.v
Number.v
Dict.v
Json.v
Data.v
Header.v
LineItems.v
Tables.v
Totals.v
Parser.v
App.v
Output.v
Wsgi.v
Gunicorn.v
