(* ===== verification/Prelude.v ===== *)
(** * A verification library for the PDF invoice parser (Anderzkey/PDF_parser)

    The program.  [src/pdf_parser.py] defines [InvoiceParser].
    [__init__] creates [self.data] (three header dicts, the list
    [line_items], the dict [totals] and the timestamp [parsed_at]).
    [parse] opens the PDF, and for every page appends the page's text and
    a newline to [full_text] and runs [_parse_tables] on the page's
    tables; it then scans [full_text] line by line three times: header
    fields ([_parse_header_info]), free-text line items
    ([_parse_line_items]) and totals ([_parse_totals]).  Patterns are
    Python regular expressions; amounts are read with [float()] and
    [int()], and table cells with [_parse_number].  [src/app.py] wraps
    the parser in a Flask upload endpoint ([parse_pdf]); [src/wsgi.py] and
    [src/gunicorn.conf.py] configure its deployment.

    How Python is modelled.  A [str] is a list of code points ([pystr],
    UTF-8 literals decoded by [u]).  The character classes of [re]
    ([\d], [\s]) and of [str.isdigit], [str.strip], [int()] and [float()]
    are read from a Unicode database given as a type class
    ([Unicode.UnicodeDB]).  The theorems hold for every database with the
    laws CPython's has, and the instance [Unicode.ucd] computes the
    examples.  A [float] is the exact decimal in [Q]: rounding to binary64
    is not modelled, so the theorems about values speak of the decimal
    the string denotes.  [int()] and [float()] read white space and an
    optional sign as CPython does; the exponents, [inf], [nan] and
    underscores CPython also accepts are not modelled, as no string the
    parser converts can hold them.  Dicts are association lists in insertion order
    ([Dict.v]).  Exceptions are values of the state-and-error monad [PyM]
    (this file), which keeps the state mutated before a [raise], as
    [self.data] keeps it.  [pfor] is a [for] loop that stops at the first
    exception; [ptry] is [try]/[except].

    Files, in dependency order, and what they model:
    - [Prelude.v]: [PyM], [pfor], [pfold], [ptry], the setoid [≡ₘ] of
      computations with its [Proper] instance, the loop principles
      ([pfor_graded], [pfor_invariant], [pfor_skip], [pfold_split],
      [pbind_post]), the exception sets [raises_in] with [raises_tac],
      the [pyparse] hint database and the tactics [py_case], [pym_unfold].
    - [Unicode.v]: code points, UTF-8, the [UnicodeDB] interface, [ucd].
    - [PyStr.v]: [str.split], [strip], [in], [replace], [isdigit], [int],
      [float]; the split/join round trip and the laws of [strip].
    - [Regex.v]: the fragment of [re] the patterns use (classes, groups,
      greedy and lazy repetition).  It holds the syntax, a relational
      semantics [matches], the backtracking matcher [bt] behind
      [re.match]/[re.search], and its soundness, completeness and
      leftmost-search theorems, plus [re.sub] with a one-character class.
    - [Number.v]: [_parse_number] (lines 217-240).
    - [Dict.v]: dict lookup and assignment.
    - [Json.v]: the text [json.dump(..., ensure_ascii=False, indent=2)]
      writes ([json_dumps]: [_make_iterencode] with indent 2,
      [py_encode_basestring], [int.__repr__], [float.__repr__]), and a
      reference reader [json_loads] with the theorems that it reads back
      every printed value ([json_loads_dumps]) and never runs out of fuel
      ([reader_fuel]).
    - [Data.v]: [self.data] ([invoice_data]), the line-item union, and the
      relations [grows], [appends] and [frame] that say what a scan does
      to [line_items].
    - [Header.v]: [_parse_header_info] (lines 55-87).
    - [LineItems.v]: [_parse_line_items] (lines 89-156).
    - [Tables.v]: [_parse_tables] (lines 184-215).
    - [Totals.v]: [_parse_totals] (lines 158-182).
    - [Parser.v]: [parse] (lines 24-53) on a document given as its list of
      pages, and [run_parser] for [InvoiceParser(path).parse()].
    - [App.v]: [allowed_file] and the handler [parse_pdf] of
      [src/app.py] (lines 31-34, 63-134), on a file system given as a
      finite map from paths to contents.
    - [Output.v]: [save_to_json], [print_summary] and [main] (lines
      241-303): the JSON value of [self.data] in the key order of the
      source, the strict UTF-8 file encoding, and a console record of the
      files written and the text printed.
    - [Wsgi.v]: [src/wsgi.py] with the module-level code of [src/app.py]
      it imports: a state of the [app] object (the [logging] state,
      [app.config] as a dict, the cached [app.logger]), the part of
      Python's [logging] and of Flask's [create_logger] the code relies
      on (effective levels, handlers shared between loggers, propagation
      to the root logger), [from_object], [setup_logging] and
      [create_application] (lines 19-73).
    - [Gunicorn.v]: the settings and hooks of [src/gunicorn.conf.py]
      (lines 8-66) as a record and functions on the arbiter's log.

    What is proved (each claim theorem is marked [C<n>] in its file).
    - Pipeline: table items precede text items in every outcome (C1).
      [parse] raises only the open error or a [ValueError] of a text scan
      (C2).  A document without markers or tables gives the empty result
      (C11).  A second [parse] repeats the items (C12).  [line_items] is
      exactly the table-scan items followed by the text-scan items, so
      text and table copies of a charge are both kept (C13).  Page
      boundaries are line boundaries (C14).
    - Endpoint: a request with a fresh temporary name leaves the file
      system as it was on every path (C8).  A checked upload is answered
      from the parser run on its bytes, 200 or 500 (C9).  The extension
      check (C10).
    - [_parse_number]: Russian amounts are read as their value (C3).
      Results are never negative although [float()] reads a sign (C15).
      Dotted thousands give 0 (C16).  Input with no digit gives 0 (C17).
    - Header: the last matching line wins (C4).  Stored fields keep the
      classes of their groups (C22).
    - Text items: at most one item per line, only appended (C5).
      Amounts are nonnegative (C18).  A storage line whose amount
      [float()] rejects raises [ValueError] and stops the scan, earlier
      items kept (C19).
    - Table items: every table item has a description and a positive
      total (C6).  Five-cell rows are dropped (C20).  The table scan
      never raises and only appends table items (C21).
    - Totals: when the scan returns, every key holds the value of the
      last line that sets it (C7).  An item-count line whose sum cannot
      be read stores the count, then raises and stops the scan (C23).
    - Output: the file [save_to_json] writes reads back, through UTF-8
      and the reference JSON reader, as the JSON value of [self.data]
      (C24).  What [main] returns is what the parser returned and what
      the file holds (C25).  A failure to write is reported as a parse
      error and the data is discarded (C26).  A parser error is printed
      and nothing is written (C27).
    - Deployment: every application log line of level [INFO] or more is
      written twice to the log file (C28); lower levels are dropped on
      every logger (C29).  [Gunicorn.v] proves the worker count, the
      restart bounds and that the server logs share the directory of
      the application log.
    - Library models, checked but not claims about the program: the
      matcher [bt] refines the relational semantics of the patterns and
      finds a match whenever one exists ([re_search_refines],
      [re_search_some] in [Regex.v]); the JSON printer and reader agree
      ([json_loads_dumps] in [Json.v]); UTF-8 decoding inverts encoding
      ([utf8_decode_encode] in [Unicode.v]).

    Fuel and bounds.  The matcher [bt] recurses on the pattern.  Its
    repetition loop [star_loop] takes fuel [S (length s)], where [s] is
    the remaining input.  An iteration runs only when it consumes at
    least one character, as CPython's empty-iteration check does, so
    [length s] iterations suffice.  [star_loop_fuel] proves more fuel
    changes nothing, and [re_match_complete] proves the fuelled matcher
    finds every relational match.  The reference JSON reader of
    [Json.v] is three mutually recursive fuelled parsers; every element
    is read from a strictly shorter suffix ([reader_shorter]), so fuel
    [2 * length s + 2] is enough ([reader_fuel]) and [json_loads] gives
    exactly that.  [digits_rev] takes [log2 n + 1] digits of fuel, more
    than the decimal digits of [n]; [canon] strips at most [log2 |m| + 1]
    trailing zeros, more than [m] has.  Every other loop is structural
    recursion on a list.

    Not modelled.  pdfplumber: its result is a parameter, a list of
    pages with optional text and tables of optional cells, or [None]
    when the file cannot be opened.  The progress [print]s of [parse]
    and [_parse_tables], and the logging calls of [parse_pdf].  In [Output.v], whether [open()]
    succeeds, the bytes a failed write leaves, the [:.2f] format (binary64
    rounding) and [str(e)] are parameters.
    The constant routes and error handlers of [src/app.py], and in
    [parse_pdf] the logging and the outer [except Exception], which no
    modelled operation reaches; werkzeug's [secure_filename], [uuid4] and
    pdfplumber are parameters of [App.v].  In [Wsgi.v], file
    permissions, log rotation, logger hierarchies deeper than the root's
    children, filters and [application.run]; the time stamp is a
    parameter.  Gunicorn's arbiter, workers and sockets.  binary64 rounding.  The full Unicode
    database: [ucd] covers ASCII, Latin-1, Cyrillic, the decimal digit
    blocks and the superscript digits. *)

From Stdlib Require Export NArith ZArith QArith.
From stdpp Require Export base list gmap strings.

Declare Scope py_scope.
Delimit Scope py_scope with py.
Open Scope py_scope.

Create HintDb pyparse discriminated.

(** ** Python exceptions and the state-and-error monad *)

(** The exceptions the program can raise or catch: [DocumentError] is
    pdfplumber failing to read a file, [UnicodeEncodeError] the UTF-8
    codec meeting a lone surrogate, [OSError] a file that cannot be
    opened for writing. *)
Inductive exn :=
| ValueError
| IndexError
| DocumentError
| UnicodeEncodeError
| OSError.

(** A computation on a mutable state [S] that may raise: the state is
    returned in both cases, as Python keeps the mutations done before a
    [raise]. *)
Definition PyM (S A : Type) : Type := S -> (exn + A) * S.

Definition pret {S A} (a : A) : PyM S A := fun s => (inr a, s).

Definition pbind {S A B} (m : PyM S A) (f : A -> PyM S B) : PyM S B :=
  fun s => match m s with
           | (inl e, s') => (inl e, s')
           | (inr a, s') => f a s'
           end.

Definition praise {S A} (e : exn) : PyM S A := fun s => (inl e, s).

Definition pget {S} : PyM S S := fun s => (inr s, s).

Definition pmodify {S} (f : S -> S) : PyM S unit := fun s => (inr tt, f s).

(** [try: m except: h] for the exceptions selected by [catches]. *)
Definition ptry {S A} (catches : exn -> bool) (m : PyM S A) (h : exn -> PyM S A) : PyM S A :=
  fun s => match m s with
           | (inl e, s') => if catches e then h e s' else (inl e, s')
           | r => r
           end.

(** The monad is an instance of stdpp's, so that its notations
    [x ← m; k] and [m ;; k] read as Python's sequencing. *)
#[export] Instance pym_ret {S} : MRet (PyM S) := fun A a => pret a.
#[export] Instance pym_bind {S} : MBind (PyM S) := fun A B f m => pbind m f.

(** A [for] loop whose body may raise: the loop stops at the first
    exception. *)
Fixpoint pfor {S A} (xs : list A) (body : A -> PyM S unit) : PyM S unit :=
  match xs with
  | [] => pret tt
  | x :: xs' => body x ;; pfor xs' body
  end.

(** Pointwise equality of computations, the equivalence the monad laws
    hold up to. *)
Definition meq {S A} (m1 m2 : PyM S A) : Prop := forall s, m1 s = m2 s.
Infix "≡ₘ" := meq (at level 70) : py_scope.

#[export] Instance meq_equiv {S A} : Equivalence (@meq S A).
Proof. split; repeat intro; congruence. Qed.

#[export] Instance pbind_proper {S A B} :
  Proper (meq ==> pointwise_relation A meq ==> meq) (@pbind S A B).
Proof.
  intros m1 m2 Hm f1 f2 Hf s. unfold pbind. rewrite Hm.
  destruct (m2 s) as [[e|a] s']; [done | apply Hf].
Qed.

Lemma pbind_ret_l {S A B} (a : A) (f : A -> PyM S B) : pbind (pret a) f ≡ₘ f a.
Proof. done. Qed.

Lemma pbind_ret_r {S A} (m : PyM S A) : pbind m pret ≡ₘ m.
Proof. intros s. unfold pbind. by destruct (m s) as [[e|a] s']. Qed.

Lemma pbind_assoc {S A B C} (m : PyM S A) (f : A -> PyM S B) (g : B -> PyM S C) :
  pbind (pbind m f) g ≡ₘ pbind m (fun a => pbind (f a) g).
Proof. intros s. unfold pbind. by destruct (m s) as [[e|a] s']. Qed.

Lemma pfor_app {S A} (xs ys : list A) (body : A -> PyM S unit) :
  pfor (xs ++ ys) body ≡ₘ (pfor xs body ;; pfor ys body).
Proof.
  induction xs as [|x xs IH]; intros s; simpl; [done|].
  unfold mbind, pym_bind, pbind. destruct (body x s) as [[e|[]] s']; [done|].
  exact (IH s').
Qed.

(** A loop whose body never raises and only transforms the state runs as a
    [fold_left]. *)
Lemma pfor_modify {S A} (xs : list A) (f : A -> S -> S) :
  pfor xs (fun x => pmodify (f x)) ≡ₘ pmodify (fun s => fold_left (fun s x => f x s) xs s).
Proof.
  induction xs as [|x xs IH]; intros s; [done|]. exact (IH _).
Qed.

(** ** Shared tactics *)

(** Case on every boolean test, [match] and [decide] in the goal. *)
Ltac py_case :=
  repeat (case_decide || case_match); simplify_eq/=.

(** ** Shared list lemmas *)

Lemma fold_left_ind {A B} (P : A -> Prop) (f : A -> B -> A) (l : list B) (a : A) :
  P a -> (forall a b, b ∈ l -> P a -> P (f a b)) -> P (fold_left f l a).
Proof.
  revert a. induction l as [|b l IH]; intros a Ha Hf; simpl; [done|].
  apply IH; [apply Hf; [left|]; done|].
  intros a' b' Hb'. apply Hf. by right.
Qed.

Lemma length_suffix_le {A} (l1 l2 : list A) : l1 `suffix_of` l2 -> length l1 <= length l2.
Proof. intros [k ->]. rewrite length_app. lia. Qed.
#[export] Hint Resolve length_suffix_le : pyparse.

(** The last-assignment-wins principle of a loop: if each step sets the
    observed part [p] of the state to [h y] when [g x = Some y] and keeps
    it otherwise, the loop leaves the value of the last hit. *)
Lemma fold_left_last {A B C D} (f : A -> B -> A) (g : B -> option C) (p : A -> D) (h : C -> D)
    (l : list B) (a : A) :
  (forall a x, p (f a x) = match g x with Some y => h y | None => p a end) ->
  p (fold_left f l a) = match last (omap g l) with Some y => h y | None => p a end.
Proof.
  intros Hf. induction l as [|x l IH] using rev_ind; [done|].
  rewrite fold_left_app, omap_app. simpl. rewrite Hf, IH.
  destruct (g x) as [y|]; simpl; [by rewrite last_snoc|by rewrite app_nil_r].
Qed.

(** The same for a loop whose body may raise, when the loop returns
    normally. *)
Lemma pfor_last {S A C D} (body : A -> PyM S unit) (g : A -> option C) (p : S -> D) (h : C -> D)
    (xs : list A) (s s' : S) :
  (forall x s s1, body x s = (inr tt, s1) -> p s1 = match g x with Some y => h y | None => p s end) ->
  pfor xs body s = (inr tt, s') -> p s' = match last (omap g xs) with Some y => h y | None => p s end.
Proof.
  intros Hb. revert s'. induction xs as [|x xs IH] using rev_ind; intros s' Hs; [by injection Hs as <-|].
  rewrite (pfor_app xs [x] body s) in Hs. unfold mbind, pym_bind, pbind in Hs.
  destruct (pfor xs body s) as [[e|[]] s1] eqn:E; [done|]. simpl in Hs.
  unfold mbind, pym_bind, pbind, pret in Hs.
  destruct (body x s1) as [[e|[]] s2] eqn:Ex; [done|]. injection Hs as <-.
  rewrite (Hb _ _ _ Ex), (IH _ eq_refl), omap_app. simpl.
  destruct (g x) as [y|]; simpl; [by rewrite last_snoc|by rewrite app_nil_r].
Qed.

(** A loop whose steps all leave the state unchanged. *)
Lemma fold_left_id {A B} (f : A -> B -> A) (l : list B) (a : A) :
  (forall x, x ∈ l -> f a x = a) -> fold_left f l a = a.
Proof.
  induction l as [|x l IH]; intros Hf; simpl; [done|].
  rewrite Hf by (left). apply IH. intros y Hy. apply Hf. by right.
Qed.

(** A loop whose body moves the state by a step of weight at most one of
    a graded relation [Q] moves it by at most the number of iterations,
    whether it ends normally or by an exception. *)
Lemma pfor_graded {S A} (Q : nat -> S -> S -> Prop) (xs : list A) (body : A -> PyM S unit) (s : S) :
  (forall s, Q 0 s s) ->
  (forall n m s1 s2 s3, Q n s1 s2 -> Q m s2 s3 -> Q (n + m) s1 s3) ->
  (forall n m s1 s2, n <= m -> Q n s1 s2 -> Q m s1 s2) ->
  (forall x s, Q 1 s (body x s).2) ->
  Q (length xs) s (pfor xs body s).2.
Proof.
  intros H0 Htr Hmono Hb. revert s. induction xs as [|x xs IH]; intros s; simpl; [done|].
  unfold mbind, pym_bind, pbind. specialize (Hb x s).
  destruct (body x s) as [[e|[]] s']; simpl in *.
  - apply (Hmono 1); [lia|exact Hb].
  - apply (Htr 1 (length xs) _ _ _ Hb (IH s')).
Qed.

(** An invariant of the state kept by every iteration is kept by the
    loop, also when it stops on an exception. *)
Lemma pfor_invariant {S A} (P : S -> Prop) (xs : list A) (body : A -> PyM S unit) (s : S) :
  (forall x s, P s -> P (body x s).2) -> P s -> P (pfor xs body s).2.
Proof.
  intros Hb Hs. revert Hs. apply (pfor_graded (fun _ s1 s2 => P s1 -> P s2)); auto.
Qed.

(** A loop whose iterations all do nothing does nothing. *)
Lemma pfor_skip {S A} (xs : list A) (body : A -> PyM S unit) (s : S) :
  (forall x, x ∈ xs -> body x s = (inr tt, s)) -> pfor xs body s = (inr tt, s).
Proof.
  induction xs as [|x xs IH]; intros Hb; simpl; [done|].
  unfold mbind, pym_bind, pbind. rewrite Hb by left. apply IH. intros y Hy. apply Hb. by right.
Qed.

Ltac pym_unfold := unfold mbind, pym_bind, pbind, pret, praise, pmodify in *.

(** A loop whose body never raises never raises. *)
Lemma pfor_no_raise {S A} (xs : list A) (body : A -> PyM S unit) (s : S) :
  (forall x s, (body x s).1 = inr tt) -> (pfor xs body s).1 = inr tt.
Proof.
  intros Hb. revert s. induction xs as [|x xs IH]; intros s; simpl; [done|].
  unfold mbind, pym_bind, pbind. specialize (Hb x s).
  destruct (body x s) as [[e|[]] s']; simpl in *; [done|apply IH].
Qed.

(** A [for] loop that carries an accumulator, as [full_text += ...]
    does. *)
Fixpoint pfold {S A B} (f : B -> A -> PyM S B) (xs : list A) (b : B) : PyM S B :=
  match xs with
  | [] => pret b
  | x :: xs => b' ← f b x; pfold f xs b'
  end.

(** A fold whose body never raises splits into its value and its effect. *)
Lemma pfold_split {S A B} (f : B -> A -> PyM S B) (g : B -> A -> B) (e : A -> S -> S) xs b s :
  (forall b x s, f b x s = (inr (g b x), e x s)) ->
  pfold f xs b s = (inr (fold_left g xs b), fold_left (fun s x => e x s) xs s).
Proof.
  intros Hf. revert b s. induction xs as [|x xs IH]; intros b s; simpl; [done|].
  unfold mbind, pym_bind, pbind. rewrite Hf. apply IH.
Qed.

(** What holds after [x ← m; k x]: a property [Q] of the state after
    [m], carried by [k] to [R], and implying [R] when [m] raises. *)
Lemma pbind_post {S A B} (Q R : S -> Prop) (m : PyM S A) (k : A -> PyM S B) s :
  Q (m s).2 -> (forall v s', Q s' -> R (k v s').2) -> (forall s', Q s' -> R s') ->
  R ((x ← m; k x) s).2.
Proof. pym_unfold. destruct (m s) as [[e|v] s']; simpl; auto. Qed.

(** A step that returns [v] in state [s'] hands them to the
    continuation. *)
Lemma pbind_inr {S A B} (m : PyM S A) (k : A -> PyM S B) s v s' :
  m s = (inr v, s') -> (x ← m; k x) s = k v s'.
Proof. intros Hm. pym_unfold. by rewrite Hm. Qed.

(** ** The exceptions a computation can raise *)

(** Every exception [m] raises satisfies [E]. *)
Definition raises_in {S A} (E : exn -> Prop) (m : PyM S A) : Prop :=
  forall s, match (m s).1 with inl e => E e | inr _ => True end.

Section Raises.
Context {S : Type} (E : exn -> Prop).

Lemma raises_ret {A} (a : A) : raises_in (S:=S) E (pret a).
Proof. unfold raises_in. by intros. Qed.

Lemma raises_raise {A} e : E e -> raises_in (S:=S) (A:=A) E (praise e).
Proof. unfold raises_in. by intros. Qed.

Lemma raises_modify f : raises_in (S:=S) E (pmodify f).
Proof. unfold raises_in. by intros. Qed.

Lemma raises_get : raises_in (S:=S) E pget.
Proof. unfold raises_in. by intros. Qed.

Lemma raises_bind {A B} (m : PyM S A) (k : A -> PyM S B) :
  raises_in E m -> (forall a, raises_in E (k a)) -> raises_in E (x ← m; k x).
Proof.
  intros Hm Hk s. specialize (Hm s). pym_unfold. destruct (m s) as [[e|a] s']; [done|]. apply Hk.
Qed.

Lemma raises_ptry {A} c (m : PyM S A) h :
  raises_in E m -> (forall e, raises_in E (h e)) -> raises_in E (ptry c m h).
Proof.
  intros Hm Hh s. specialize (Hm s). unfold ptry. destruct (m s) as [[e|a] s']; [|done].
  destruct (c e); [apply Hh|done].
Qed.

Lemma raises_pfor {X} (xs : list X) (body : X -> PyM S unit) :
  (forall x, raises_in E (body x)) -> raises_in E (pfor xs body).
Proof. intros Hb. induction xs; simpl; [apply raises_ret|]. by apply raises_bind. Qed.

Lemma raises_pfold {A X} (f : A -> X -> PyM S A) xs :
  (forall a x, raises_in E (f a x)) -> forall a, raises_in E (pfold f xs a).
Proof.
  intros Hf. induction xs; intros; simpl; [apply raises_ret|]. by apply raises_bind.
Qed.

End Raises.

Ltac raises_tac :=
  repeat first
    [ apply raises_ret | apply raises_modify | apply raises_get | apply raises_raise; done
    | apply raises_bind; [|intros ?] | apply raises_ptry; [|intros ?]
    | apply raises_pfor; intros ? | apply raises_pfold; intros ? ? | case_match ].
