(* ===== verification/Unicode.v ===== *)
(** * Code points, UTF-8 literals and the Unicode database

    A Python [str] is a sequence of code points: [pystr] below.  The
    literals of [src/pdf_parser.py] are Cyrillic; they are written here in
    UTF-8 and decoded by [u], as the Python interpreter decodes its UTF-8
    source file.  The character predicates that Python's [re] module and
    [str] methods read from the Unicode database ([\s] and [str.isspace],
    [\d] and the digit values used by [int()] and [float()],
    [str.isdigit], [str.lower]) form the interface [UnicodeDB]: its laws
    are facts of the Unicode Character Database that CPython uses, and the
    instance [ucd] tabulates the part of it the witnesses evaluate. *)

From S2P Require Import Prelude.
From Stdlib Require Import Ascii.

Abbreviation uchar := N.
Abbreviation pystr := (list uchar).

(** ** UTF-8 decoding of the source literals *)

(** Decode well-formed UTF-8; a malformed tail is dropped (the literals
    of the source are well formed). *)
Fixpoint utf8_decode (bs : list N) : pystr :=
  match bs with
  | [] => []
  | b0 :: r0 =>
      if (b0 <? 128)%N then b0 :: utf8_decode r0
      else if (b0 <? 224)%N then
        match r0 with
        | b1 :: r1 => ((b0 - 192) * 64 + (b1 - 128))%N :: utf8_decode r1
        | [] => []
        end
      else if (b0 <? 240)%N then
        match r0 with
        | b1 :: b2 :: r2 =>
            ((b0 - 224) * 4096 + (b1 - 128) * 64 + (b2 - 128))%N :: utf8_decode r2
        | _ => []
        end
      else
        match r0 with
        | b1 :: b2 :: b3 :: r3 =>
            ((b0 - 240) * 262144 + (b1 - 128) * 4096 + (b2 - 128) * 64 + (b3 - 128))%N
              :: utf8_decode r3
        | _ => []
        end
  end.

(** The encoder Python uses for [str.encode('utf-8')] and for files opened
    with [encoding='utf-8'] (code points below [0x110000]). *)
Definition utf8_encode_char (c : uchar) : list N :=
  if (c <? 128)%N then [c]
  else if (c <? 2048)%N then [192 + c / 64; 128 + c mod 64]%N
  else if (c <? 65536)%N then [224 + c / 4096; 128 + (c / 64) mod 64; 128 + c mod 64]%N
  else [240 + c / 262144; 128 + (c / 4096) mod 64; 128 + (c / 64) mod 64; 128 + c mod 64]%N.

Definition utf8_encode (s : pystr) : list N := s ≫= utf8_encode_char.

(** The base-64 digits [utf8_encode_char] writes. *)
Lemma utf8_digits (c : N) :
  c = (64 * (c / 64) + c mod 64)%N /\ (c / 64 = 64 * (c / 4096) + (c / 64) mod 64)%N /\
  (c / 4096 = 64 * (c / 262144) + (c / 4096) mod 64)%N /\
  (c mod 64 < 64)%N /\ ((c / 64) mod 64 < 64)%N /\ ((c / 4096) mod 64 < 64)%N.
Proof.
  pose proof (N.div_mod c 64 ltac:(lia)). pose proof (N.div_mod (c / 64) 64 ltac:(lia)).
  pose proof (N.div_mod (c / 4096) 64 ltac:(lia)).
  rewrite !N.Div0.div_div in *. change (64 * 64)%N with 4096%N in *.
  change (4096 * 64)%N with 262144%N in *.
  pose proof (N.mod_lt c 64 ltac:(lia)). pose proof (N.mod_lt (c / 64) 64 ltac:(lia)).
  pose proof (N.mod_lt (c / 4096) 64 ltac:(lia)). done.
Qed.

(** UTF-8 decoding undoes the encoding of one code point. *)
Lemma utf8_decode_encode_char c r :
  (c < 1114112)%N -> utf8_decode (utf8_encode_char c ++ r) = c :: utf8_decode r.
Proof.
  intros Hc. destruct (utf8_digits c) as (H1 & H2 & H3 & H4 & H5 & H6).
  unfold utf8_encode_char.
  set (q := (c / 64)%N) in *. set (a := (c / 4096)%N) in *. set (z := (c / 262144)%N) in *.
  set (d := (c mod 64)%N) in *. set (b := (q mod 64)%N) in *. set (y := (a mod 64)%N) in *.
  repeat match goal with |- context [(?x <? ?y)%N] => destruct (N.ltb_spec x y) end;
    cbn [app utf8_decode];
    repeat match goal with |- context [(?x <? ?y)%N] => destruct (N.ltb_spec x y) end;
    first [exfalso; lia | f_equal; lia].
Qed.

(** A string of code points is read back from its UTF-8 encoding. *)
Lemma utf8_decode_encode s : Forall (fun c => c < 1114112)%N s -> utf8_decode (utf8_encode s) = s.
Proof.
  induction 1 as [|c s Hc _ IH]; [done|]. unfold utf8_encode in *.
  by rewrite bind_cons, utf8_decode_encode_char, IH.
Qed.

(** A Python [str] literal, from its UTF-8 spelling. *)
Definition u (s : string) : pystr := utf8_decode (map N_of_ascii (String.list_ascii_of_string s)).

(** ** The Unicode database *)

(** The ASCII part of the database, which Python fixes. *)
Definition ascii_space (c : uchar) : bool :=
  bool_decide ((9 <= c <= 13)%N \/ (28 <= c <= 32)%N).

Definition ascii_decimal (c : uchar) : option nat :=
  if bool_decide (48 <= c <= 57)%N then Some (N.to_nat (c - 48)) else None.

Definition ascii_lower (c : uchar) : uchar :=
  if bool_decide (65 <= c <= 90)%N then (c + 32)%N else c.

Class UnicodeDB := {
  (** [str.isspace()], and the class [\s] of [str] patterns *)
  is_space : uchar -> bool;
  (** the decimal value of a character of category Nd: the class [\d] of
      [str] patterns, and the digits [int()] and [float()] accept *)
  decimal_value : uchar -> option nat;
  (** [str.isdigit()]: Numeric_Type Decimal or Digit *)
  is_digit : uchar -> bool;
  (** [str.lower()] of one character (it may give several) *)
  to_lower : uchar -> list uchar;

  db_space_ascii c : (c < 128)%N -> is_space c = ascii_space c;
  db_decimal_ascii c : (c < 128)%N -> decimal_value c = ascii_decimal c;
  db_digit_ascii c : (c < 128)%N -> is_digit c = bool_decide (is_Some (ascii_decimal c));
  db_lower_ascii c : (c < 128)%N -> to_lower c = [ascii_lower c];
  db_decimal_lt c d : decimal_value c = Some d -> d < 10;
  db_decimal_digit c : is_Some (decimal_value c) -> is_digit c = true;
  db_space_digit c : is_space c = true -> is_digit c = false;
  (** the Cyrillic block and the signs [№] (U+2116) and [₽] (U+20BD)
      hold no space and no digit *)
  db_cyrillic c : (0x400 <= c <= 0x4FF)%N \/ c = 0x2116%N \/ c = 0x20BD%N ->
                  is_space c = false /\ is_digit c = false
}.

Definition is_decimal `{UnicodeDB} (c : uchar) : bool := bool_decide (is_Some (decimal_value c)).

(** ** A tabulated instance *)

(** The white space of [Py_UNICODE_ISSPACE], complete. *)
Definition ucd_space (c : uchar) : bool :=
  ascii_space c || bool_decide (c = 0x85 \/ c = 0xA0 \/ c = 0x1680 \/ (0x2000 <= c <= 0x200A)
                               \/ c = 0x2028 \/ c = 0x2029 \/ c = 0x202F \/ c = 0x205F
                               \/ c = 0x3000)%N.

(** The first code point of some blocks of ten Nd digits (the Basic
    Multilingual Plane blocks of the scripts of India, Arabic, Thai,
    Tibetan, Myanmar, Khmer, Mongolian and the full-width forms). *)
Definition ucd_nd_zeros : list uchar :=
  [0x30; 0x660; 0x6F0; 0x7C0; 0x966; 0x9E6; 0xA66; 0xAE6; 0xB66; 0xBE6; 0xC66;
   0xCE6; 0xD66; 0xDE6; 0xE50; 0xED0; 0xF20; 0x1040; 0x1090; 0x17E0; 0x1810;
   0xFF10]%N.

Fixpoint nd_lookup (zeros : list uchar) (c : uchar) : option nat :=
  match zeros with
  | [] => None
  | z :: zs => if bool_decide (z <= c < z + 10)%N then Some (N.to_nat (c - z)) else nd_lookup zs c
  end.

Definition ucd_decimal (c : uchar) : option nat := nd_lookup ucd_nd_zeros c.

(** Numeric_Type Digit: superscripts, subscripts and circled digits. *)
Definition ucd_digit (c : uchar) : bool :=
  bool_decide (is_Some (ucd_decimal c))
  || bool_decide (c = 0xB2 \/ c = 0xB3 \/ c = 0xB9 \/ c = 0x2070 \/ (0x2074 <= c <= 0x2079)
                  \/ (0x2080 <= c <= 0x2089) \/ (0x2460 <= c <= 0x2468))%N.

Definition ucd_lower (c : uchar) : list uchar :=
  if bool_decide (c = 0x130)%N then [0x69; 0x307]%N
  else if bool_decide ((65 <= c <= 90) \/ (0xC0 <= c <= 0xDE /\ c <> 0xD7) \/ (0x410 <= c <= 0x42F))%N
  then [c + 32]%N
  else if bool_decide (0x400 <= c <= 0x40F)%N then [c + 80]%N
  else [c].

#[export] Program Instance ucd : UnicodeDB := {|
  is_space := ucd_space; decimal_value := ucd_decimal;
  is_digit := ucd_digit; to_lower := ucd_lower |}.
Next Obligation.
  intros c Hc. unfold ucd_space. destruct (ascii_space c); [done|]. simpl.
  apply bool_decide_eq_false. lia.
Qed.
Next Obligation.
  intros c Hc. unfold ucd_decimal, ascii_decimal. simpl.
  repeat (case_bool_decide; simpl); try lia; f_equal; f_equal; lia.
Qed.
Next Obligation.
  intros c Hc. unfold ucd_digit, ascii_decimal, ucd_decimal. simpl.
  repeat (case_bool_decide; simpl); done || lia.
Qed.
Next Obligation.
  intros c Hc. unfold ucd_lower, ascii_lower.
  repeat (case_bool_decide; simpl); done || lia.
Qed.
Next Obligation.
  intros c d. unfold ucd_decimal. generalize ucd_nd_zeros.
  induction l as [|z zs IH]; simpl; [done|].
  case_bool_decide; [intros [= <-]; lia | apply IH].
Qed.
Next Obligation.
  intros c Hc. unfold ucd_digit. by rewrite bool_decide_eq_true_2.
Qed.
Next Obligation.
  intros c. unfold ucd_space, ucd_digit, ucd_decimal, ascii_space. simpl.
  repeat (case_bool_decide; simpl); done || lia.
Qed.
Next Obligation.
  intros c Hc. unfold ucd_space, ucd_digit, ucd_decimal, ascii_space. simpl.
  repeat (case_bool_decide; simpl); split; done || lia.
Qed.
