(* ===== verification/PyStr.v ===== *)
(** * The [str] methods the parser calls

    [str.split('\n')], [str.strip()], the [in] test, [str.replace] of one
    character by another, [str.isdigit()], and the conversions [int()]
    and [float()] on the strings the parser hands them, with their laws:
    the split/join round trip, the specification of [in], idempotence of
    [strip()] and the value [float()] gives to a decimal string. *)

From S2P Require Import Prelude Unicode.

Section PyStr.
Context `{DB : UnicodeDB}.

(** ** [str.split(sep)] and its inverse [sep.join] *)

(** [s.split(sep)] for a one-character separator: it always returns at
    least one piece, and [""] splits into [[""]]. *)
Fixpoint split_on (sep : uchar) (s : pystr) : list pystr :=
  match s with
  | [] => [[]]
  | c :: s' =>
      if bool_decide (c = sep) then [] :: split_on sep s'
      else match split_on sep s' with
           | w :: ws => (c :: w) :: ws
           | [] => [[c]]
           end
  end.

(** [sep.join(ws)] *)
Fixpoint join_on (sep : uchar) (ws : list pystr) : pystr :=
  match ws with
  | [] => []
  | [w] => w
  | w :: ws' => w ++ sep :: join_on sep ws'
  end.

(** [text.split('\n')] *)
Definition newline : uchar := 10%N.
Definition lines (text : pystr) : list pystr := split_on newline text.

(** ** [str.strip()] *)

Fixpoint lstrip (s : pystr) : pystr :=
  match s with
  | c :: s' => if is_space c then lstrip s' else s
  | [] => []
  end.

Definition strip (s : pystr) : pystr := reverse (lstrip (reverse (lstrip s))).

(** ** [needle in haystack] *)

Fixpoint is_prefix (p s : pystr) : bool :=
  match p, s with
  | [], _ => true
  | c :: p', d :: s' => bool_decide (c = d) && is_prefix p' s'
  | _ :: _, [] => false
  end.

Fixpoint contains (needle hay : pystr) : bool :=
  is_prefix needle hay || match hay with [] => false | _ :: hay' => contains needle hay' end.

(** ** [str.replace(a, b)] for one character by one character *)

Definition replace_char (a b : uchar) (s : pystr) : pystr :=
  map (fun c => if bool_decide (c = a) then b else c) s.

(** ** [str.isdigit()] *)

Definition isdigit (s : pystr) : bool := bool_decide (s <> []) && forallb is_digit s.

(** ** [int()] and [float()] *)

(** One digit of a decimal numeral. *)
Definition digit_step (acc : option N) (c : uchar) : option N :=
  v ← acc; d ← decimal_value c; Some (10 * v + N.of_nat d)%N.

(** The value of a string of decimal digits ([None] when one character
    is not a decimal digit), most significant digit first. *)
Definition digits_value (s : pystr) : option N :=
  foldl digit_step (Some 0%N) s.

(** The sign characters [-] and [+]. *)
Definition minus : uchar := 45%N.
Definition plus : uchar := 43%N.

(** [int()] of an unsigned numeral: at least one digit, every character
    a decimal digit. *)
Definition py_uint (t : pystr) : option Z :=
  if bool_decide (t = []) then None else Z.of_N <$> digits_value t.

(** [int(s)]: CPython strips white space, reads an optional sign and
    accepts every Nd digit; it raises [ValueError] on an empty numeral or
    on a character that is not a decimal digit (a superscript [²] passes
    [isdigit()] but not [int()]).  The underscores between digits that
    CPython also accepts are not modelled: the parser passes strings of
    [\d] or [isdigit()] characters. *)
Definition py_int (s : pystr) : option Z :=
  match strip s with
  | c :: t =>
      if bool_decide (c = minus) then Z.opp <$> py_uint t
      else if bool_decide (c = plus) then py_uint t else py_uint (c :: t)
  | [] => None
  end.

(** The decimal [m / 10^e]. *)
Definition dec (m : Z) (e : nat) : Q := Qmake m (Z.to_pos (10 ^ Z.of_nat e)).

Definition dot : uchar := 46%N.
Definition comma : uchar := 44%N.

(** [float()] of an unsigned decimal numeral: one optional dot, at
    least one digit. *)
Definition py_ufloat (t : pystr) : option Q :=
  match split_on dot t with
  | [ip] => if bool_decide (ip = []) then None
            else (fun v => dec (Z.of_N v) 0) <$> digits_value ip
  | [ip; fp] =>
      if bool_decide (ip = [] /\ fp = []) then None
      else iv ← digits_value ip; fv ← digits_value fp;
           Some (dec (Z.of_N iv * 10 ^ Z.of_nat (length fp) + Z.of_N fv) (length fp))
  | _ => None
  end.

(** [float(s)]: white space stripped, an optional sign, then a decimal
    numeral; CPython raises [ValueError] otherwise.  The value is the
    exact decimal: the rounding to binary64 is not modelled, nor the
    exponents, [inf], [nan] and underscores CPython also reads, which no
    string the parser converts can hold (they come from [[\d.,]+]
    captures). *)
Definition py_float (s : pystr) : option Q :=
  match strip s with
  | c :: t =>
      if bool_decide (c = minus) then Qopp <$> py_ufloat t
      else if bool_decide (c = plus) then py_ufloat t else py_ufloat (c :: t)
  | [] => None
  end.

(** ** Laws *)

Lemma split_on_not_nil sep s : split_on sep s <> [].
Proof. induction s as [|c s IH]; simpl; py_case; done. Qed.

Lemma split_on_cons_nonsep sep c s :
  c <> sep -> exists w ws, split_on sep s = w :: ws /\ split_on sep (c :: s) = (c :: w) :: ws.
Proof.
  intros Hc. simpl. rewrite bool_decide_eq_false_2 by done.
  destruct (split_on sep s) as [|w ws] eqn:E; [by apply split_on_not_nil in E|]. eauto.
Qed.

Lemma join_on_cons sep w ws : ws <> [] -> join_on sep (w :: ws) = w ++ sep :: join_on sep ws.
Proof. by destruct ws. Qed.

Lemma join_on_cons_char sep c w ws :
  join_on sep ((c :: w) :: ws) = c :: join_on sep (w :: ws).
Proof. by destruct ws. Qed.

(** [sep.join(s.split(sep)) == s] *)
Lemma join_split sep s : join_on sep (split_on sep s) = s.
Proof.
  induction s as [|c s IH]; [done|]. simpl. case_bool_decide as Hc.
  - subst. rewrite join_on_cons by apply split_on_not_nil. by rewrite IH.
  - destruct (split_on sep s) as [|w ws] eqn:E; [by apply split_on_not_nil in E|].
    rewrite join_on_cons_char. f_equal. exact IH.
Qed.

(** No piece of a split holds the separator. *)
Lemma split_on_pieces sep s w : w ∈ split_on sep s -> sep ∉ w.
Proof.
  revert w. induction s as [|c s IH]; simpl; intros w Hw.
  - apply list_elem_of_singleton in Hw as ->. set_solver.
  - case_bool_decide as Hc.
    + apply elem_of_cons in Hw as [->|Hw]; [set_solver|auto].
    + destruct (split_on sep s) as [|w' ws] eqn:E; [by apply split_on_not_nil in E|].
      apply elem_of_cons in Hw as [->|Hw].
      * assert (sep ∉ w') by (apply IH; left). set_solver.
      * apply IH. by right.
Qed.

Lemma split_on_nosep sep w : sep ∉ w -> split_on sep w = [w].
Proof.
  induction w as [|c w IH]; intros Hw; [done|]. simpl.
  rewrite bool_decide_eq_false_2 by set_solver. rewrite IH by set_solver. done.
Qed.

Lemma split_on_app sep w t : sep ∉ w -> split_on sep (w ++ sep :: t) = w :: split_on sep t.
Proof.
  induction w as [|c w IH]; intros Hw; simpl.
  - by rewrite bool_decide_eq_true_2.
  - rewrite bool_decide_eq_false_2 by set_solver. rewrite IH by set_solver. done.
Qed.

(** A separator between two strings separates their pieces. *)
Lemma split_on_app_sep sep a b : split_on sep (a ++ sep :: b) = split_on sep a ++ split_on sep b.
Proof.
  induction a as [|c a IH]; simpl; [by rewrite bool_decide_eq_true_2|].
  case_bool_decide; [by rewrite IH|]. rewrite IH.
  destruct (split_on sep a) as [|w ws] eqn:E; [by apply split_on_not_nil in E|]. done.
Qed.

(** [sep.join(ws).split(sep) == ws] when no piece holds [sep]. *)
Lemma split_join sep ws :
  ws <> [] -> Forall (fun w => sep ∉ w) ws -> split_on sep (join_on sep ws) = ws.
Proof.
  induction ws as [|w ws IH]; intros Hne Hws; [done|].
  apply Forall_cons in Hws as [Hw Hws]. destruct ws as [|w' ws].
  - by apply split_on_nosep.
  - rewrite join_on_cons by done. rewrite split_on_app by done. by rewrite IH.
Qed.

Lemma is_prefix_spec p s : is_prefix p s = true <-> exists b, s = p ++ b.
Proof.
  revert s. induction p as [|c p IH]; intros [|d s]; simpl.
  - split; eauto.
  - split; eauto.
  - split; [done|]. by intros [b ?].
  - rewrite andb_true_iff, bool_decide_eq_true, IH. split.
    + intros [-> [b ->]]. eauto.
    + intros [b [= -> ->]]. eauto.
Qed.

(** [needle in hay] holds exactly when [needle] is a factor of [hay]. *)
Lemma contains_spec n h : contains n h = true <-> exists a b, h = a ++ n ++ b.
Proof.
  induction h as [|d h IH]; simpl; rewrite orb_true_iff, is_prefix_spec.
  - split.
    + intros [[b Hb]|?]; [|done]. by exists [], b.
    + intros [[|x a] [b Hb]]; [left; eauto|done].
  - rewrite IH. split.
    + intros [[b Hb]|[a [b Hb]]].
      * by exists [], b.
      * exists (d :: a), b. by rewrite Hb.
    + intros [[|x a] [b Hb]]; [left; eauto|].
      injection Hb as -> ->. right. eauto.
Qed.

Lemma lstrip_suffix s : lstrip s `suffix_of` s.
Proof.
  induction s as [|c s IH]; simpl; [done|].
  destruct (is_space c); [by apply suffix_cons_r|done].
Qed.

Lemma lstrip_head s c t : lstrip s = c :: t -> is_space c = false.
Proof.
  induction s as [|d s IH]; simpl; [done|].
  destruct (is_space d) eqn:E; [done|]. by intros [= <- _].
Qed.

Lemma lstrip_fix s : (forall c t, s = c :: t -> is_space c = false) -> lstrip s = s.
Proof. destruct s as [|c t]; intros H; [done|]. simpl. by rewrite (H c t). Qed.

(** [s.strip()] is a factor of [s] that neither starts nor ends with a
    white-space character. *)
Lemma strip_spec s :
  (exists a b, s = a ++ strip s ++ b) /\
  (forall c t, strip s = c :: t -> is_space c = false) /\
  (forall c t, strip s = t ++ [c] -> is_space c = false).
Proof.
  unfold strip. destruct (lstrip_suffix s) as [a Ha].
  destruct (lstrip_suffix (reverse (lstrip s))) as [b Hb].
  split; [|split].
  - exists a, (reverse b).
    assert (lstrip s = reverse (lstrip (reverse (lstrip s))) ++ reverse b) as Hl.
    { rewrite <- reverse_app, <- Hb. by rewrite reverse_involutive. }
    rewrite <- Hl. exact Ha.
  - intros c t Hct.
    assert (lstrip (reverse (lstrip s)) = reverse t ++ [c]) as H1.
    { rewrite <- (reverse_involutive (lstrip (reverse (lstrip s)))), Hct.
      by rewrite reverse_cons. }
    rewrite H1, app_assoc in Hb. apply (f_equal reverse) in Hb.
    rewrite reverse_involutive, reverse_app in Hb. simpl in Hb.
    by apply lstrip_head in Hb.
  - intros c t Hct. apply (f_equal reverse) in Hct.
    rewrite reverse_involutive, reverse_app in Hct. simpl in Hct.
    by apply lstrip_head in Hct.
Qed.

Lemma lstrip_spaces s : exists a, s = a ++ lstrip s /\ Forall (fun c => is_space c = true) a.
Proof.
  induction s as [|c s IH]; simpl; [by exists []|].
  destruct (is_space c) eqn:E; [|by exists []].
  destruct IH as (a & Ha & Hsp). exists (c :: a). split; [simpl; congruence|by constructor].
Qed.

(** [s.strip()] only removes white space. *)
Lemma strip_spaces s :
  exists a b, s = a ++ strip s ++ b /\ Forall (fun c => is_space c = true) a /\
              Forall (fun c => is_space c = true) b.
Proof.
  unfold strip. destruct (lstrip_spaces s) as (a & Ha & Hsa).
  destruct (lstrip_spaces (reverse (lstrip s))) as (b & Hb & Hsb).
  exists a, (reverse b). split_and!; [|done|by apply Forall_reverse].
  rewrite Ha at 1. f_equal. rewrite <- reverse_app, <- Hb. by rewrite reverse_involutive.
Qed.

Lemma strip_id s :
  (forall c t, s = c :: t -> is_space c = false) ->
  (forall c t, s = t ++ [c] -> is_space c = false) -> strip s = s.
Proof.
  intros Hh Ht. unfold strip. rewrite (lstrip_fix s) by exact Hh.
  rewrite lstrip_fix; [by rewrite reverse_involutive|].
  intros c t Hct. apply (Ht c (reverse t)). apply (f_equal reverse) in Hct.
  by rewrite reverse_involutive, reverse_cons in Hct.
Qed.

Lemma digits_value_None_foldl t : foldl digit_step None t = None.
Proof. induction t; done. Qed.

Lemma digits_fold_Forall s acc v :
  foldl digit_step acc s = Some v -> Forall (fun c => is_Some (decimal_value c)) s.
Proof.
  revert acc. induction s as [|c s IH]; intros acc Hs; [done|]. simpl in Hs.
  destruct (decimal_value c) eqn:E.
  - constructor; [by eexists|]. eapply IH, Hs.
  - replace (digit_step acc c) with (@None N) in Hs
      by (unfold digit_step; destruct acc; simpl; by rewrite ?E).
    by rewrite digits_value_None_foldl in Hs.
Qed.

Lemma digits_value_Forall s v :
  digits_value s = Some v -> Forall (fun c => is_Some (decimal_value c)) s.
Proof. apply digits_fold_Forall. Qed.

Lemma digits_fold_Some s a :
  Forall (fun c => is_Some (decimal_value c)) s -> is_Some (foldl digit_step (Some a) s).
Proof.
  revert a. induction s as [|c s IH]; intros a Hs; [by eexists|]. simpl.
  apply Forall_cons in Hs as [[d Hd] Hs].
  rewrite Hd. by apply IH.
Qed.

Lemma digits_value_Some s :
  Forall (fun c => is_Some (decimal_value c)) s -> is_Some (digits_value s).
Proof. apply digits_fold_Some. Qed.

(** The characters of [strip s] are characters of [s]. *)
Lemma strip_sub s c : c ∈ strip s -> c ∈ s.
Proof. destruct (strip_spaces s) as (a & b & Hs & _ & _). intros Hc. rewrite Hs. set_solver. Qed.

Lemma py_ufloat_digit t q :
  py_ufloat t = Some q -> exists c, c ∈ t /\ is_Some (decimal_value c).
Proof.
  unfold py_ufloat. pose proof (join_split dot t) as Hj.
  destruct (split_on dot t) as [|ip [|fp [|w ws]]]; [intros [=]| |intros [=]|intros [=]].
  - case_bool_decide as Hip; [done|]. destruct (digits_value ip) eqn:E; [|done]. intros _.
    apply digits_value_Forall in E. destruct ip as [|c ip]; [done|].
    apply Forall_cons in E as [Hc _]. exists c. split; [rewrite <- Hj; left|done].
  - case_bool_decide as Hne; [done|].
    destruct (digits_value ip) eqn:Ei; [|done]. destruct (digits_value fp) eqn:Ef; [|done].
    apply digits_value_Forall in Ei, Ef. simpl in Hj.
    destruct ip as [|c ip].
    + destruct fp as [|c fp]; [by destruct Hne|]. apply Forall_cons in Ef as [Hc _].
      exists c. split; [rewrite <- Hj; set_solver|done].
    + apply Forall_cons in Ei as [Hc _]. exists c. split; [rewrite <- Hj; set_solver|done].
Qed.

(** [float()] accepts a string only when it holds a decimal digit. *)
Lemma py_float_digit s q :
  py_float s = Some q -> exists c, c ∈ s /\ is_Some (decimal_value c).
Proof.
  unfold py_float. pose proof (strip_sub s) as Hin.
  destruct (strip s) as [|c0 t]; [done|].
  assert (forall q', py_ufloat t = Some q' -> exists c, c ∈ s /\ is_Some (decimal_value c)) as Ht.
  { intros q' (c & Hc & Hd)%py_ufloat_digit. exists c. split; [apply Hin; set_solver|done]. }
  case_bool_decide; [destruct (py_ufloat t) eqn:E; [eauto|done]|].
  case_bool_decide; [eauto|].
  intros (c & Hc & Hd)%py_ufloat_digit. eauto.
Qed.

Lemma dec_nonneg m e : (0 <= m)%Z -> (0 <= dec m e)%Q.
Proof. intros Hm. unfold dec, Qle. simpl. lia. Qed.

Lemma py_ufloat_nonneg t q : py_ufloat t = Some q -> (0 <= q)%Q.
Proof.
  unfold py_ufloat. destruct (split_on dot t) as [|ip [|fp [|w ws]]]; try done.
  - case_bool_decide; [done|]. destruct (digits_value ip); [|done]. intros [= <-].
    apply dec_nonneg. lia.
  - case_bool_decide; [done|]. destruct (digits_value ip); [|done]. destruct (digits_value fp); [|done].
    intros [= <-]. apply dec_nonneg. lia.
Qed.

(** [float()] of a string without a minus sign is never negative. *)
Lemma py_float_nonneg s q : minus ∉ s -> py_float s = Some q -> (0 <= q)%Q.
Proof.
  intros Hm. unfold py_float. pose proof (strip_sub s) as Hin.
  destruct (strip s) as [|c t]; [done|].
  case_bool_decide; [subst; destruct Hm; apply Hin; left|].
  case_bool_decide; apply py_ufloat_nonneg.
Qed.

Lemma strip_nospace s : Forall (fun c => is_space c = false) s -> strip s = s.
Proof.
  intros Hs. apply strip_id.
  - intros c t ->. by apply Forall_cons in Hs as [? _].
  - intros c t ->. apply Forall_app in Hs as [_ Hc]. by apply Forall_cons in Hc as [? _].
Qed.

Lemma decimal_not_space c : is_Some (decimal_value c) -> is_space c = false.
Proof.
  intros Hc. destruct (is_space c) eqn:E; [|done].
  apply db_space_digit in E. by rewrite db_decimal_digit in E.
Qed.

Lemma dot_not_decimal : decimal_value dot = None.
Proof. by rewrite db_decimal_ascii by (unfold dot; lia). Qed.

Lemma comma_not_decimal : decimal_value comma = None.
Proof. by rewrite db_decimal_ascii by (unfold comma; lia). Qed.

Lemma dot_not_space : is_space dot = false.
Proof. by rewrite db_space_ascii by (unfold dot; lia). Qed.

Lemma decimal_not_dot w : Forall (fun c => is_Some (decimal_value c)) w -> dot ∉ w.
Proof.
  intros Hw Hd. eapply Forall_forall in Hw; [|exact Hd].
  rewrite dot_not_decimal in Hw. by destruct Hw.
Qed.

(** A string without sign characters is read unsigned. *)
Lemma py_float_nosign s :
  Forall (fun c => c <> minus /\ c <> plus) s -> py_float s = py_ufloat (strip s).
Proof.
  intros Hs. unfold py_float. pose proof (strip_sub s) as Hin.
  destruct (strip s) as [|c t]; [done|].
  rewrite Forall_forall in Hs. destruct (Hs c) as [H1 H2]; [apply Hin; left|].
  by rewrite !bool_decide_eq_false_2.
Qed.

Lemma decimal_not_sign c : is_Some (decimal_value c) -> c <> minus /\ c <> plus.
Proof.
  intros Hc. split; intros ->; [rewrite db_decimal_ascii in Hc by (unfold minus; lia)
                                |rewrite db_decimal_ascii in Hc by (unfold plus; lia)];
    by destruct Hc.
Qed.

Lemma dot_not_sign : dot <> minus /\ dot <> plus.
Proof. by split. Qed.

(** [float("ip.fp")] for two strings of decimal digits, not both empty. *)
Lemma py_float_point ip fp iv fv :
  ip <> [] \/ fp <> [] -> digits_value ip = Some iv -> digits_value fp = Some fv ->
  py_float (ip ++ dot :: fp) =
  Some (dec (Z.of_N iv * 10 ^ Z.of_nat (length fp) + Z.of_N fv) (length fp)).
Proof.
  intros Hne Ei Ef. pose proof (digits_value_Forall _ _ Ei) as Hi.
  pose proof (digits_value_Forall _ _ Ef) as Hf.
  rewrite py_float_nosign.
  2:{ apply Forall_app. split; [|constructor; [apply dot_not_sign|]];
      eapply Forall_impl; eauto using decimal_not_sign. }
  unfold py_ufloat. rewrite strip_nospace.
  2:{ apply Forall_app. split; [|constructor; [apply dot_not_space|]];
      eapply Forall_impl; eauto using decimal_not_space. }
  rewrite split_on_app by (by apply decimal_not_dot).
  rewrite split_on_nosep by (by apply decimal_not_dot).
  rewrite bool_decide_eq_false_2 by (intros [-> ->]; by destruct Hne).
  by rewrite Ei, Ef.
Qed.

Lemma join_on_factor sep ws w : w ∈ ws -> exists a b, join_on sep ws = a ++ w ++ b.
Proof.
  induction ws as [|w' ws IH]; intros Hw; [by apply elem_of_nil in Hw|].
  destruct ws as [|w'' ws].
  - apply list_elem_of_singleton in Hw as ->. exists [], []. by rewrite app_nil_r.
  - rewrite join_on_cons by done. apply elem_of_cons in Hw as [->|Hw].
    + by exists [], (sep :: join_on sep (w'' :: ws)).
    + destruct (IH Hw) as (a & b & ->). exists (w' ++ sep :: a), b. by rewrite <- app_assoc.
Qed.

(** Every line of a text is a factor of it. *)
Lemma lines_factor text l : l ∈ lines text -> exists a b, text = a ++ l ++ b.
Proof. intros Hl. rewrite <- (join_split newline text). by apply join_on_factor. Qed.

(** [n in s] and [s] a factor of [t] give [n in t]. *)
Lemma contains_factor n s t :
  contains n s = true -> (exists a b, t = a ++ s ++ b) -> contains n t = true.
Proof.
  rewrite !contains_spec. intros (a & b & ->) (a' & b' & ->).
  exists (a' ++ a), (b ++ b'). by rewrite <- !app_assoc.
Qed.

(** A marker in a stripped line of a text is in the text. *)
Lemma contains_line n text l :
  l ∈ lines text -> contains n (strip l) = true -> contains n text = true.
Proof.
  intros Hl Hn. destruct (lines_factor _ _ Hl) as (a & b & ->).
  destruct (strip_spaces l) as (a' & b' & Hs & _ & _).
  apply (contains_factor _ _ _ (contains_factor _ _ _ Hn (ex_intro _ a' (ex_intro _ b' Hs)))).
  eauto.
Qed.

(** A string holding [sep] splits at its last [sep]. *)
Lemma last_sep (sep : uchar) (s : pystr) : sep ∈ s -> exists a b, s = a ++ sep :: b /\ sep ∉ b.
Proof.
  induction s as [|c s IH]; intros Hs; [by apply elem_of_nil in Hs|].
  destruct (decide (sep ∈ s)) as [Hin|Hnin].
  - destruct (IH Hin) as (a & b & -> & Hb). by exists (c :: a), b.
  - apply elem_of_cons in Hs as [->|]; [|done]. by exists [], s.
Qed.

(** [s.rsplit(sep, 1)[1]] is the last piece of the split. *)
Lemma last_split_on (sep : uchar) (a b : pystr) : sep ∉ b -> last (split_on sep (a ++ sep :: b)) = Some b.
Proof. intros Hb. by rewrite split_on_app_sep, (split_on_nosep _ b Hb), last_snoc. Qed.

(** [sep in s] for a one-character [sep] *)
Lemma contains_char (sep : uchar) (s : pystr) : contains [sep] s = true <-> sep ∈ s.
Proof.
  rewrite contains_spec. split.
  - intros (a & b & ->). apply elem_of_app. right. by left.
  - intros (a & b & -> & _)%last_sep. by exists a, b.
Qed.

(** [int()] of a string without a minus sign is nonnegative. *)
Lemma py_int_nonneg s z : minus ∉ s -> py_int s = Some z -> (0 <= z)%Z.
Proof.
  intros Hm. unfold py_int. pose proof (strip_sub s) as Hin.
  assert (forall t z', py_uint t = Some z' -> (0 <= z')%Z) as Hu.
  { intros t z'. unfold py_uint. case_bool_decide; [done|].
    destruct (digits_value t); [|done]. intros [= <-]. lia. }
  destruct (strip s) as [|c t]; [done|].
  case_bool_decide; [subst; destruct Hm; apply Hin; left|].
  case_bool_decide; apply Hu.
Qed.

End PyStr.
