(* ===== verification/Regex.v ===== *)
(** * The fragment of Python's [re] module the parser uses

    Syntax: literals, classes [[...]] and [[^...]] over literal characters,
    [\d] and [\s], the dot, concatenation, the greedy and lazy stars (and
    [+], [+?] derived from them), and numbered groups.  [matches] is the
    relational semantics: which suffixes and captures a pattern can
    produce.  [bt] is the backtracking matcher of CPython's [sre] in
    continuation-passing style: alternatives are tried in Python's order
    (a greedy star tries one more iteration first, a lazy one tries to
    stop first), so that its first success is the match Python returns.
    [re_match] and [re_search] are [re.match] and [re.search]; group 0 is
    the whole match.

    Theorems: [bt] refines [matches] (every result is a relational match)
    and is complete for it (whenever a relational match lets the
    continuation succeed, [bt] succeeds); hence [re_search] succeeds
    exactly when some factor of the string matches; the captures of a
    search satisfy any property that every group body guarantees. *)

From S2P Require Import Prelude Unicode PyStr.

(** ** Syntax *)

(** One member of a character class. *)
Inductive citem :=
| CLit (c : uchar)   (** a literal character *)
| CDigit             (** [\d] *)
| CSpace.            (** [\s] *)

Inductive regex :=
| REps                                   (** the empty pattern *)
| RAny                                   (** [.]: any character but a newline *)
| RSet (neg : bool) (items : list citem) (** [[items]], or [[^items]] when [neg] *)
| RSeq (r1 r2 : regex)                   (** concatenation *)
| RStar (greedy : bool) (r : regex)      (** [r*] when [greedy], [r*?] otherwise *)
| RGroup (n : nat) (r : regex).          (** the capturing group number [n] *)

Definition RChar (c : uchar) : regex := RSet false [CLit c].
Definition RStr (s : pystr) : regex := foldr (fun c r => RSeq (RChar c) r) REps s.
Definition RCat (rs : list regex) : regex := foldr RSeq REps rs.
(** [r+] and [r+?] *)
Definition RPlus (greedy : bool) (r : regex) : regex := RSeq r (RStar greedy r).
Definition RDigit : regex := RSet false [CDigit].
Definition RSpace : regex := RSet false [CSpace].

(** The first code point of a literal. *)
Definition ch (s : string) : uchar := default 0%N (head (u s)).

(** The captures: group number to captured text. *)
Abbreviation caps := (gmap nat pystr).

Section Regex.
Context `{DB : UnicodeDB}.

Definition citem_match (i : citem) (c : uchar) : bool :=
  match i with
  | CLit d => bool_decide (c = d)
  | CDigit => is_decimal c
  | CSpace => is_space c
  end.

Definition set_match (neg : bool) (items : list citem) (c : uchar) : bool :=
  xorb neg (existsb (fun i => citem_match i c) items).

(** The text consumed between the suffixes [s] and [s']. *)
Definition consumed (s s' : pystr) : pystr := take (length s - length s') s.

(** ** Relational semantics *)

(** [matches r s cs s' cs']: [r] can match a prefix of [s], leaving [s'],
    and turn the captures [cs] into [cs'].  A star iteration must consume
    input, as in [sre]. *)
Inductive matches : regex -> pystr -> caps -> pystr -> caps -> Prop :=
| m_eps s cs : matches REps s cs s cs
| m_any c s cs : c <> newline -> matches RAny (c :: s) cs s cs
| m_set neg items c s cs :
    set_match neg items c = true -> matches (RSet neg items) (c :: s) cs s cs
| m_seq r1 r2 s cs s1 cs1 s2 cs2 :
    matches r1 s cs s1 cs1 -> matches r2 s1 cs1 s2 cs2 -> matches (RSeq r1 r2) s cs s2 cs2
| m_star_nil g r s cs : matches (RStar g r) s cs s cs
| m_star_cons g r s cs s1 cs1 s2 cs2 :
    matches r s cs s1 cs1 -> length s1 < length s ->
    matches (RStar g r) s1 cs1 s2 cs2 -> matches (RStar g r) s cs s2 cs2
| m_group n r s cs s1 cs1 :
    matches r s cs s1 cs1 -> matches (RGroup n r) s cs s1 (<[n := consumed s s1]> cs1).

(** ** The backtracking matcher *)

Definition cont := pystr -> caps -> option caps.

(** The loop of a star whose body is [body]: [fuel] bounds the number of
    iterations; [bt] starts it at [S (length s)], which is never used up
    since every iteration consumes a character ([star_loop_fuel]). *)
Fixpoint star_loop (body : pystr -> caps -> cont -> option caps) (greedy : bool) (k : cont)
    (fuel : nat) (s : pystr) (cs : caps) : option caps :=
  match fuel with
  | 0 => None
  | S f =>
      let again := fun (s1 : pystr) (cs1 : caps) =>
        if bool_decide (length s1 < length s) then star_loop body greedy k f s1 cs1 else None in
      if greedy then
        match body s cs again with Some r => Some r | None => k s cs end
      else
        match k s cs with Some r => Some r | None => body s cs again end
  end.

Fixpoint bt (r : regex) (s : pystr) (cs : caps) (k : cont) {struct r} : option caps :=
  match r with
  | REps => k s cs
  | RAny => match s with
            | c :: s' => if bool_decide (c = newline) then None else k s' cs
            | [] => None
            end
  | RSet neg items => match s with
                      | c :: s' => if set_match neg items c then k s' cs else None
                      | [] => None
                      end
  | RSeq r1 r2 => bt r1 s cs (fun s1 cs1 => bt r2 s1 cs1 k)
  | RStar g r1 => star_loop (bt r1) g k (S (length s)) s cs
  | RGroup n r1 => bt r1 s cs (fun s1 cs1 => k s1 (<[n := consumed s s1]> cs1))
  end.

Definition accept : cont := fun _ cs => Some cs.

(** [re.match(r, s)]: a match at the start of [s]; group 0 is the whole
    match. *)
Definition re_match (r : regex) (s : pystr) : option caps := bt (RGroup 0 r) s ∅ accept.

(** [re.search(r, s)]: the first position, from the left, where
    [re.match] succeeds. *)
Fixpoint re_search (r : regex) (s : pystr) : option caps :=
  match re_match r s with
  | Some cs => Some cs
  | None => match s with [] => None | _ :: s' => re_search r s' end
  end.

(** [m.group(n)] *)
Definition group (m : caps) (n : nat) : option pystr := m !! n.

(** ** The matcher refines the relational semantics *)

Lemma matches_suffix r s cs s' cs' : matches r s cs s' cs' -> s' `suffix_of` s.
Proof.
  induction 1; try done; try apply suffix_cons_r; try done.
  all: by etrans.
Qed.

(** The body of a star, abstracted: [body] is sound for [r]. *)
Definition body_sound (body : pystr -> caps -> cont -> option caps) (r : regex) : Prop :=
  forall s cs k res, body s cs k = Some res ->
  exists s' cs', matches r s cs s' cs' /\ k s' cs' = Some res.

Lemma star_loop_sound body r g k :
  body_sound body r -> forall f s cs res, star_loop body g k f s cs = Some res ->
  exists s' cs', matches (RStar g r) s cs s' cs' /\ k s' cs' = Some res.
Proof.
  intros Hb f. induction f as [|f IH]; intros s cs res; simpl; [done|].
  assert (forall res', body s cs (fun s1 cs1 => if bool_decide (length s1 < length s)
            then star_loop body g k f s1 cs1 else None) = Some res' ->
          exists s' cs', matches (RStar g r) s cs s' cs' /\ k s' cs' = Some res') as Hmore.
  { intros res' (s1 & cs1 & Hm & Hk)%Hb. case_bool_decide; [|done].
    destruct (IH _ _ _ Hk) as (s' & cs' & ? & ?). eexists _, _. split; [|done].
    by eapply m_star_cons. }
  destruct g.
  - destruct (body s cs _) eqn:E; [intros [= <-]; by apply Hmore|].
    intros Hk. eauto using m_star_nil.
  - destruct (k s cs) eqn:E; [intros [= <-]; eauto using m_star_nil|]. apply Hmore.
Qed.

(** Soundness: every success of [bt] comes from a relational match
    followed by a success of the continuation. *)
Lemma bt_sound r : body_sound (bt r) r.
Proof.
  induction r as [| |neg items|r1 IH1 r2 IH2|g r IH|n r IH]; intros s cs k res; cbn [bt].
  - eauto using m_eps.
  - destruct s as [|c s]; [done|]. case_bool_decide; [done|]. eauto using m_any.
  - destruct s as [|c s]; [done|]. destruct (set_match neg items c) eqn:E; [|done].
    eauto using m_set.
  - intros (s1 & cs1 & Hm1 & (s2 & cs2 & Hm2 & Hk)%IH2)%IH1. eauto using m_seq.
  - apply star_loop_sound, IH.
  - intros (s1 & cs1 & Hm & Hk)%IH. eauto using m_group.
Qed.

(** Two continuations that agree on the suffixes of [s] give the same
    result. *)
Definition body_ext (body : pystr -> caps -> cont -> option caps) : Prop :=
  forall s cs k1 k2, (forall s1 cs1, length s1 <= length s -> k1 s1 cs1 = k2 s1 cs1) ->
  body s cs k1 = body s cs k2.

Lemma star_loop_ext body g k1 k2 f s cs :
  body_ext body -> (forall s1 cs1, length s1 <= length s -> k1 s1 cs1 = k2 s1 cs1) ->
  star_loop body g k1 f s cs = star_loop body g k2 f s cs.
Proof.
  intros Hb. revert s cs. induction f as [|f IH]; intros s cs Hk; simpl; [done|].
  assert (body s cs (fun s1 cs1 => if bool_decide (length s1 < length s)
            then star_loop body g k1 f s1 cs1 else None)
          = body s cs (fun s1 cs1 => if bool_decide (length s1 < length s)
            then star_loop body g k2 f s1 cs1 else None)) as ->.
  { apply Hb. intros s1 cs1 ?. case_bool_decide; [|done]. apply IH. intros; apply Hk; lia. }
  rewrite Hk by lia. done.
Qed.

Lemma bt_ext r : body_ext (bt r).
Proof.
  induction r as [| |neg items|r1 IH1 r2 IH2|g r IH|n r IH]; intros s cs k1 k2 Hk; cbn [bt].
  - by apply Hk.
  - destruct s; simpl in *; py_case; auto with lia.
  - destruct s; simpl in *; py_case; auto with lia.
  - apply IH1. intros s1 cs1 ?. apply IH2. intros; apply Hk; lia.
  - apply star_loop_ext; [apply IH|done].
  - apply IH. intros s1 cs1 ?. apply Hk. done.
Qed.

(** The fuel of a star loop is never used up. *)
Lemma star_loop_fuel body g k f1 f2 s cs :
  body_ext body -> length s < f1 -> length s < f2 ->
  star_loop body g k f1 s cs = star_loop body g k f2 s cs.
Proof.
  intros Hb. revert f2 s cs. induction f1 as [|f1 IH]; intros [|f2] s cs H1 H2; try lia. simpl.
  assert (body s cs (fun s1 cs1 => if bool_decide (length s1 < length s)
            then star_loop body g k f1 s1 cs1 else None)
          = body s cs (fun s1 cs1 => if bool_decide (length s1 < length s)
            then star_loop body g k f2 s1 cs1 else None)) as ->.
  { apply Hb. intros s1 cs1 ?. case_bool_decide; [|done]. apply IH; lia. }
  done.
Qed.

(** Completeness: a relational match after which the continuation
    succeeds makes [bt] succeed (possibly with a match of higher
    priority). *)
Lemma bt_complete r s cs s' cs' :
  matches r s cs s' cs' -> forall k res, k s' cs' = Some res -> is_Some (bt r s cs k).
Proof.
  induction 1 as [s cs|c s cs Hc|neg items c s cs Hc|r1 r2 s cs s1 cs1 s2 cs2 _ IH1 _ IH2
                 |g r s cs|g r s cs s1 cs1 s2 cs2 _ IH1 Hlt _ IH2|n r s cs s1 cs1 _ IH];
    intros k res Hk; simpl.
  - eauto.
  - rewrite bool_decide_eq_false_2 by done. eauto.
  - rewrite Hc. eauto.
  - destruct (IH2 k res Hk) as [res2 Hres2]. eauto.
  - destruct g; simpl; repeat case_match; simplify_eq; eauto.
  - destruct (IH2 k res Hk) as [res2 Hres2]. simpl in Hres2.
    assert (is_Some (bt r s cs (fun s1' cs1' => if bool_decide (length s1' < length s)
              then star_loop (bt r) g k (length s) s1' cs1' else None))) as [x Hx].
    { apply (IH1 _ res2). rewrite bool_decide_eq_true_2 by done.
      rewrite (star_loop_fuel _ _ _ _ (S (length s1))); [done|apply bt_ext|lia|lia]. }
    destruct g; simpl; rewrite ?Hx; repeat case_match; eauto.
  - eauto.
Qed.

Lemma set_match_lit c d : set_match false [CLit c] d = true -> d = c.
Proof. unfold set_match. simpl. rewrite orb_false_r. by intros ?%bool_decide_eq_true. Qed.

(** A literal matches itself. *)
Lemma matches_RStr w s cs s' cs' : matches (RStr w) s cs s' cs' -> s = w ++ s'.
Proof.
  revert s cs. induction w as [|c w IH]; intros s cs Hm; simpl in Hm.
  - by inversion Hm.
  - inversion Hm as [| | |? ? ? ? s1 cs1 ? ? H1 H2| | |]; subst.
    inversion H1 as [| |? ? c0 ? ? Hc| | | |]; subst. apply set_match_lit in Hc as ->.
    simpl. f_equal. eapply IH, H2.
Qed.

(** ** [re.match] and [re.search] *)

Lemma re_match_sound r s cs :
  re_match r s = Some cs -> exists s', matches (RGroup 0 r) s ∅ s' cs.
Proof. intros (s' & cs' & Hm & [= <-])%bt_sound. eauto. Qed.

Lemma re_match_complete r s s' cs :
  matches (RGroup 0 r) s ∅ s' cs -> is_Some (re_match r s).
Proof. intros Hm. by eapply bt_complete. Qed.

(** A match of a pattern that starts with a literal starts with it. *)
Lemma re_match_prefix w rs s m :
  re_match (RCat (RStr w :: rs)) s = Some m -> exists t, s = w ++ t.
Proof.
  intros [s' Hm]%re_match_sound. inversion Hm as [| | | | | |? ? ? ? s1 cs1 Hr]; subst.
  inversion Hr as [| | |? ? ? ? s2 cs2 ? ? H1 H2| | |]; subst.
  apply matches_RStr in H1. eauto.
Qed.


(** [re.search] returns the match of [re.match] at the leftmost position
    where there is one. *)
Lemma re_search_spec r s cs :
  re_search r s = Some cs <->
  exists a b, s = a ++ b /\ re_match r b = Some cs /\
    forall a' b', s = a' ++ b' -> length a' < length a -> re_match r b' = None.
Proof.
  revert cs. induction s as [|c s IH]; intros cs; simpl.
  - split.
    + destruct (re_match r []) eqn:E; [intros [= <-]|done]. exists [], []. split_and!; try done.
      simpl; lia.
    + intros (a & b & Hab & Hm & _). symmetry in Hab. apply app_eq_nil in Hab as [-> ->].
      by rewrite Hm.
  - destruct (re_match r (c :: s)) eqn:E.
    + split.
      * intros [= <-]. exists [], (c :: s). split_and!; try done. simpl; lia.
      * intros (a & b & Hab & Hm & Hleft). destruct a as [|x a].
        { simpl in Hab. subst. congruence. }
        exfalso. assert (re_match r (c :: s) = None) as Hn by (apply (Hleft []); simpl; [done|lia]).
        congruence.
    + rewrite IH. split.
      * intros (a & b & -> & Hm & Hleft). exists (c :: a), b. split_and!; try done.
        intros [|x a'] b' Hab Hlt; simpl in *; [by subst|].
        injection Hab as -> Hab. apply (Hleft a'); [done|lia].
      * intros (a & b & Hab & Hm & Hleft). destruct a as [|x a].
        { simpl in Hab. subst. congruence. }
        injection Hab as -> ->. exists a, b. split_and!; try done.
        intros a' b' Hab' Hlt. apply (Hleft (x :: a')); simpl; [by rewrite Hab'|lia].
Qed.

(** [re.search] succeeds exactly when some factor of the string matches
    the pattern relationally. *)
Lemma re_search_some r s :
  is_Some (re_search r s) <-> exists a b s' cs, s = a ++ b /\ matches (RGroup 0 r) b ∅ s' cs.
Proof.
  induction s as [|c s IH]; simpl; split.
  - destruct (re_match r []) as [m|] eqn:E; [|by intros []]. intros _.
    apply re_match_sound in E as [s' Hm]. exists [], [], s', m. done.
  - intros (a & b & s' & cs & Hab & Hm). symmetry in Hab. apply app_eq_nil in Hab as [-> ->].
    destruct (re_match_complete _ _ _ _ Hm) as [x ->]. eauto.
  - destruct (re_match r (c :: s)) as [m|] eqn:E.
    + intros _. apply re_match_sound in E as [s' Hm]. exists [], (c :: s), s', m. done.
    + intros (a & b & s' & cs & -> & Hm)%IH. exists (c :: a), b, s', cs. done.
  - intros (a & b & s' & cs & Hab & Hm). destruct (re_match r (c :: s)) eqn:E; [eauto|].
    apply IH. destruct a as [|x a].
    + simpl in Hab. subst. apply re_match_complete in Hm as [x Hx]. congruence.
    + injection Hab as -> ->. by exists a, b, s', cs.
Qed.

(** re.search refines the relational semantics.
    When [re.search] returns a match object, its captures are those of a
    relational match of the pattern (with group 0 around it) starting at
    some position of the string, and no relational match at all starts
    at an earlier position: the search is leftmost. *)
Theorem re_search_refines r s m :
  re_search r s = Some m ->
  exists a b s', s = a ++ b /\ matches (RGroup 0 r) b ∅ s' m /\
    forall a' b' s'' m', s = a' ++ b' -> length a' < length a -> ~ matches (RGroup 0 r) b' ∅ s'' m'.
Proof.
  intros (a & b & Hab & Hm & Hleft)%re_search_spec.
  apply re_match_sound in Hm as [s' Hm]. exists a, b, s'. split_and!; [done|done|].
  intros a' b' s'' m' Hab' Hlt Hm'. apply re_match_complete in Hm' as [x Hx].
  rewrite (Hleft a' b' Hab' Hlt) in Hx. done.
Qed.

(** ** Captures *)

(** A property of every capture. *)
Definition caps_ok (P : nat -> pystr -> Prop) (cs : caps) : Prop :=
  forall n w, cs !! n = Some w -> P n w.

(** Every group of [r] captures text satisfying [P]. *)
Fixpoint groups_sat (P : nat -> pystr -> Prop) (r : regex) : Prop :=
  match r with
  | RSeq r1 r2 => groups_sat P r1 /\ groups_sat P r2
  | RStar _ r1 => groups_sat P r1
  | RGroup n r1 => groups_sat P r1 /\
      forall s cs s' cs', matches r1 s cs s' cs' -> P n (consumed s s')
  | _ => True
  end.

Lemma matches_caps_ok P r s cs s' cs' :
  matches r s cs s' cs' -> groups_sat P r -> caps_ok P cs -> caps_ok P cs'.
Proof.
  induction 1 as [| | |r1 r2 s cs s1 cs1 s2 cs2 _ IH1 _ IH2| |g r s cs s1 cs1 s2 cs2 _ IH1 _ _ IH2
                 |n r s cs s1 cs1 Hm IH]; simpl; intros Hr Hcs; try done.
  - apply IH2; [tauto|]. apply IH1; tauto.
  - apply IH2; [done|]. by apply IH1.
  - destruct Hr as [Hr Hn]. intros m w. rewrite lookup_insert.
    case_decide; [subst; intros [= <-]; by eapply Hn|]. by apply IH.
Qed.

(** The groups a match always sets (those not under a star). *)
Fixpoint must_groups (r : regex) : list nat :=
  match r with
  | RSeq r1 r2 => must_groups r1 ++ must_groups r2
  | RGroup n r1 => n :: must_groups r1
  | _ => []
  end.

Lemma matches_keep r s cs s' cs' n :
  matches r s cs s' cs' -> is_Some (cs !! n) -> is_Some (cs' !! n).
Proof.
  induction 1 as [| | | | | |n' r s cs s1 cs1 _ IH]; intros Hn; auto.
  rewrite lookup_insert. case_decide; eauto.
Qed.

Lemma matches_must r s cs s' cs' n :
  matches r s cs s' cs' -> n ∈ must_groups r -> is_Some (cs' !! n).
Proof.
  induction 1 as [| | |r1 r2 s cs s1 cs1 s2 cs2 Hm1 IH1 Hm2 IH2| | |n' r s cs s1 cs1 _ IH];
    simpl; intros Hn; try by apply elem_of_nil in Hn.
  - apply elem_of_app in Hn as [Hn|Hn]; [|auto]. eapply matches_keep; eauto.
  - rewrite lookup_insert. case_decide; [done|].
    apply elem_of_cons in Hn as [->|Hn]; [done|auto].
Qed.

(** The captures of a search satisfy what its groups guarantee. *)
Lemma re_search_caps P r s m :
  re_search r s = Some m -> groups_sat P r -> (forall w, P 0 w) -> caps_ok P m.
Proof.
  intros (a & b & _ & Hm & _)%re_search_spec Hr H0.
  apply re_match_sound in Hm as [s' Hm]. eapply matches_caps_ok; [exact Hm| |].
  - split; [done|]. intros; apply H0.
  - intros n w. by rewrite lookup_empty.
Qed.

(** A search sets every group that is not under a star. *)
Lemma re_search_must r s m n :
  re_search r s = Some m -> n ∈ must_groups r -> is_Some (m !! n).
Proof.
  intros (a & b & _ & Hm & _)%re_search_spec Hn.
  apply re_match_sound in Hm as [s' Hm]. eapply matches_must; [exact Hm|]. simpl. set_solver.
Qed.

(** A nonempty text of characters of a class. *)
Definition class_text (neg : bool) (items : list citem) (w : pystr) : Prop :=
  w <> [] /\ Forall (fun c => set_match neg items c = true) w.

Lemma consumed_app w s : consumed (w ++ s) s = w.
Proof. unfold consumed. rewrite length_app, Nat.add_sub, take_app_length. done. Qed.

Lemma matches_star_set g neg items s cs s' cs' :
  matches (RStar g (RSet neg items)) s cs s' cs' ->
  cs' = cs /\ exists w, s = w ++ s' /\ Forall (fun c => set_match neg items c = true) w.
Proof.
  remember (RStar g (RSet neg items)) as r eqn:Er. induction 1; simplify_eq.
  - split; [done|]. by exists [].
  - match goal with H : matches (RSet _ _) _ _ _ _ |- _ => inversion H; subst end.
    destruct IHmatches2 as [-> (w & -> & Hw)]; [done|]. split; [done|].
    exists (c :: w). split; [done|]. by constructor.
Qed.

(** What [[...]+] and [[^...]+] capture: a nonempty text of the class. *)
Lemma matches_plus_set g neg items s cs s' cs' :
  matches (RPlus g (RSet neg items)) s cs s' cs' -> class_text neg items (consumed s s').
Proof.
  inversion 1 as [| | |? ? ? ? s1 cs1 ? ? H1 H2| | |]; subst.
  inversion H1; subst. apply matches_star_set in H2 as [_ (w & -> & Hw)].
  rewrite app_comm_cons, consumed_app. split; [done|]. by constructor.
Qed.

Lemma bt_set_cons neg items c s cs k :
  set_match neg items c = true -> bt (RSet neg items) (c :: s) cs k = k s cs.
Proof. intros Hc. simpl. by rewrite Hc. Qed.

(** One step of a greedy star over a class. *)
Lemma star_set_step neg items c s cs k :
  set_match neg items c = true ->
  bt (RStar true (RSet neg items)) (c :: s) cs k =
  match bt (RStar true (RSet neg items)) s cs k with Some r => Some r | None => k (c :: s) cs end.
Proof.
  intros Hc. cbn [bt]. cbn [star_loop]. cbn [bt]. rewrite Hc.
  rewrite bool_decide_eq_true_2 by (simpl; lia).
  rewrite (star_loop_fuel _ _ _ (length (c :: s)) (S (length s)));
    [done|apply (bt_ext (RSet neg items))|simpl; lia|lia].
Qed.

(** A greedy star over a class consumes the longest run of the class
    first: when the continuation accepts after the run, that is the
    result. *)
Lemma star_set_greedy neg items w t cs k res :
  Forall (fun c => set_match neg items c = true) w ->
  (forall c t', t = c :: t' -> set_match neg items c = false) ->
  k t cs = Some res -> bt (RStar true (RSet neg items)) (w ++ t) cs k = Some res.
Proof.
  intros Hw Ht Hk. induction Hw as [|c w Hc Hw IH].
  - cbn [bt]. simpl. destruct t as [|c t']; [done|]. by rewrite (Ht c t').
  - change ((c :: w) ++ t) with (c :: (w ++ t)). rewrite star_set_step by done. by rewrite IH.
Qed.

(** Group 0 of a search is a factor of the searched string. *)
Lemma re_search_group0 r s m :
  re_search r s = Some m -> exists a g b, s = a ++ g ++ b /\ m !! 0 = Some g.
Proof.
  intros (a & b0 & -> & Hm & _)%re_search_spec.
  apply re_match_sound in Hm as [s' Hm].
  inversion Hm as [| | | | | |n r' s0 cs s1 cs1 Hr]; subst.
  destruct (matches_suffix _ _ _ _ _ Hr) as [w ->].
  exists a, w, s'. rewrite consumed_app. split; [done|]. by rewrite lookup_insert_eq.
Qed.

(** What a search of [[...]+] finds is a nonempty text of the class. *)
Lemma re_search_plus_group0 g neg items s m w :
  re_search (RPlus g (RSet neg items)) s = Some m -> m !! 0 = Some w -> class_text neg items w.
Proof.
  intros (a & b0 & -> & Hm & _)%re_search_spec Hw.
  apply re_match_sound in Hm as [s' Hm].
  inversion Hm as [| | | | | |n r' s0 cs s1 cs1 Hr]; subst.
  rewrite lookup_insert_eq in Hw. injection Hw as <-. by eapply matches_plus_set.
Qed.

(** A group over [[...]+] captures a text of the class. *)
Lemma groups_sat_class (P : nat -> pystr -> Prop) n g neg items :
  (forall w, class_text neg items w -> P n w) -> groups_sat P (RGroup n (RPlus g (RSet neg items))).
Proof.
  intros HP. split; [done|]. intros s cs s' cs' Hm. apply HP. by eapply matches_plus_set.
Qed.

Lemma groups_sat_RStr P s : groups_sat P (RStr s).
Proof. induction s; simpl; auto. Qed.

Lemma groups_sat_RCat P rs : Forall (groups_sat P) rs -> groups_sat P (RCat rs).
Proof. induction 1; simpl; auto. Qed.

(** A nonempty string of characters of a class is found whole by
    [re.search(r'[...]+', s)]. *)
Lemma re_search_class_all neg items s :
  s <> [] -> Forall (fun c => set_match neg items c = true) s ->
  re_search (RPlus true (RSet neg items)) s = Some (<[0 := s]> ∅).
Proof.
  intros Hne Hs. destruct s as [|c w]; [done|]. apply Forall_cons in Hs as [Hc Hw].
  assert (re_match (RPlus true (RSet neg items)) (c :: w) = Some (<[0 := c :: w]> ∅)) as Hm.
  { unfold re_match.
    change (bt (RSet neg items) (c :: w) ∅ (fun s1 cs1 => bt (RStar true (RSet neg items)) s1 cs1
              (fun s2 cs2 => accept s2 (<[0 := consumed (c :: w) s2]> cs2))) = Some (<[0:=c :: w]> ∅)).
    rewrite bt_set_cons by done. rewrite <- (app_nil_r w) at 1.
    apply star_set_greedy; [done|by intros ? ? ?|].
    unfold accept, consumed. simpl. rewrite firstn_all. done. }
  cbn [re_search]. by rewrite Hm.
Qed.

(** [re.sub(r'[items]', '', s)]: every character of the class is
    removed. *)
Definition re_sub_set (neg : bool) (items : list citem) (s : pystr) : pystr :=
  List.filter (fun c => negb (set_match neg items c)) s.

End Regex.

