(* ===== verification/Number.v ===== *)
(** * [InvoiceParser._parse_number]: the numeric normalizer

    [_parse_number(value)] ([src/pdf_parser.py], lines 217-239) turns a
    table cell ([None] or a [str]) into a number: it returns the [int] [0]
    for an empty cell, strips the text, removes the rouble sign and every
    white-space character with [re.sub(r'[₽\s]', '', ...)], replaces the
    comma by a dot, searches the first run of [[\d.]+] and converts it
    with [float()], returning [0] when nothing matches or [float()]
    raises [ValueError].  The result is a Python number: [PyInt 0] on the
    failure paths, [PyFloat] otherwise.

    Theorems: the result is never negative, although [float()] reads a
    sign, because the run it converts holds only digits and dots; a cell without a decimal
    digit gives [0]; an amount written the Russian way (digit groups
    separated by spaces, decimal comma, rouble sign) gives its exact
    value; and an amount written with a dot as thousands separator
    gives [0]. *)

From S2P Require Import Prelude Unicode PyStr Regex.

(** A Python number: [int] or [float]. *)
Inductive pynum :=
| PyInt (z : Z)
| PyFloat (q : Q).

Definition num_val (n : pynum) : Q :=
  match n with
  | PyInt z => inject_Z z
  | PyFloat q => q
  end.

(** A table cell: [None] or a string. *)
Abbreviation cell := (option pystr).

Definition ruble : uchar := ch "₽".
Definition space : uchar := ch " ".

Section Number.
Context `{DB : UnicodeDB}.

(** [[₽\s]] *)
Definition currency_ws : list citem := [CLit ruble; CSpace].

(** [[\d.]+] *)
Definition number_re : regex := RPlus true (RSet false [CDigit; CLit dot]).

(** The tail of [_parse_number] on a cleaned string: search the first
    run of digits and dots and convert it. *)
Definition number_of (s : pystr) : pynum :=
  match re_search number_re s with
  | Some m =>
      match group m 0 with
      | Some g => match py_float g with Some q => PyFloat q | None => PyInt 0 end
      | None => PyInt 0
      end
  | None => PyInt 0
  end.

Definition parse_number (value : cell) : pynum :=
  match value with
  | None => PyInt 0
  | Some v =>
      if bool_decide (v = []) then PyInt 0
      else
        let s1 := strip v in
        let s2 := re_sub_set false currency_ws s1 in
        let s3 := replace_char comma dot s2 in
        number_of s3
  end.

(** ** Characters *)

Lemma space_is_space : is_space space = true.
Proof. rewrite db_space_ascii; [done|]. vm_compute. done. Qed.

Lemma ruble_not_decimal : decimal_value ruble = None.
Proof.
  destruct (decimal_value ruble) eqn:E; [|done].
  assert (ruble = 0x20BD%N) as Hr by (vm_compute; done).
  destruct (db_cyrillic ruble) as [_ Hd]; [by right; right|].
  by rewrite db_decimal_digit in Hd.
Qed.

Lemma space_removed : set_match false currency_ws space = true.
Proof.
  unfold set_match, currency_ws, citem_match. cbn [existsb]. rewrite space_is_space.
  by destruct (bool_decide (space = ruble)).
Qed.

Lemma comma_kept : set_match false currency_ws comma = false.
Proof.
  unfold set_match, currency_ws. simpl. rewrite db_space_ascii by (unfold comma; lia).
  vm_compute. done.
Qed.

Lemma dot_kept : set_match false currency_ws dot = false.
Proof.
  unfold set_match, currency_ws. simpl. rewrite db_space_ascii by (unfold dot; lia).
  vm_compute. done.
Qed.

Lemma decimal_kept c : is_Some (decimal_value c) -> set_match false currency_ws c = false.
Proof.
  intros Hc. unfold set_match, currency_ws. simpl. rewrite decimal_not_space by done.
  rewrite bool_decide_eq_false_2; [done|]. intros ->. rewrite ruble_not_decimal in Hc.
  by destruct Hc.
Qed.

Lemma decimal_in_number_class c :
  is_Some (decimal_value c) -> set_match false [CDigit; CLit dot] c = true.
Proof. intros Hc. unfold set_match. simpl. unfold is_decimal. by rewrite bool_decide_eq_true_2. Qed.

Lemma dot_in_number_class : set_match false [CDigit; CLit dot] dot = true.
Proof.
  unfold set_match, citem_match. cbn [existsb xorb]. apply orb_true_iff. right.
  apply orb_true_iff. left. by apply bool_decide_eq_true_2.
Qed.

Abbreviation decimals := (Forall (fun c => is_Some (decimal_value c))).

Lemma re_sub_decimals w : decimals w -> re_sub_set false currency_ws w = w.
Proof.
  intros Hw. unfold re_sub_set. induction Hw as [|c w Hc Hw IH]; [done|].
  cbn [List.filter]. rewrite decimal_kept by done. cbn [negb]. by rewrite IH.
Qed.

Lemma replace_decimals_dots w :
  Forall (fun c => is_Some (decimal_value c) \/ c = dot) w -> replace_char comma dot w = w.
Proof.
  intros Hw. unfold replace_char. induction Hw as [|c w Hc Hw IH]; [done|]. simpl.
  rewrite IH, bool_decide_eq_false_2; [done|]. intros ->.
  destruct Hc as [Hc|Hc]; [rewrite comma_not_decimal in Hc; by destruct Hc|done].
Qed.

Lemma replace_decimals w : decimals w -> replace_char comma dot w = w.
Proof.
  intros Hw. unfold replace_char. induction Hw as [|c w Hc Hw IH]; [done|]. simpl.
  rewrite IH, bool_decide_eq_false_2; [done|]. intros ->. rewrite comma_not_decimal in Hc.
  by destruct Hc.
Qed.

(** [re.sub(r'[₽\s]', '', s.strip())] is [re.sub(r'[₽\s]', '', s)]. *)
Lemma re_sub_strip s : re_sub_set false currency_ws (strip s) = re_sub_set false currency_ws s.
Proof.
  destruct (strip_spaces s) as (a & b & Hs & Ha & Hb). rewrite Hs at 2.
  assert (forall w, Forall (fun c => is_space c = true) w -> re_sub_set false currency_ws w = [])
    as Hsp.
  { intros w Hw. unfold re_sub_set. induction Hw as [|c w Hc Hw IH]; [done|].
    cbn [List.filter]. replace (set_match false currency_ws c) with true; [done|].
    unfold set_match, currency_ws. simpl. rewrite Hc. by rewrite orb_true_r. }
  unfold re_sub_set in *. rewrite !List.filter_app, (Hsp a Ha), (Hsp b Hb). by rewrite app_nil_r.
Qed.

(** The path of [_parse_number] when the cleaned text is one run of
    digits and dots. *)
Lemma parse_number_run x z :
  x <> [] -> replace_char comma dot (re_sub_set false currency_ws x) = z -> z <> [] ->
  Forall (fun c => set_match false [CDigit; CLit dot] c = true) z ->
  parse_number (Some x) = match py_float z with Some q => PyFloat q | None => PyInt 0 end.
Proof.
  intros Hx Hz Hne Hcls. unfold parse_number. rewrite bool_decide_eq_false_2 by done. cbv zeta.
  rewrite re_sub_strip, Hz. unfold number_of, number_re. rewrite re_search_class_all by done.
  unfold group. by rewrite lookup_insert_eq.
Qed.

(** No class of the patterns holds the minus sign. *)
Lemma digit_not_minus : citem_match CDigit minus = false.
Proof.
  unfold citem_match, is_decimal. apply bool_decide_eq_false_2.
  intros Hd. by apply decimal_not_sign in Hd as [? _].
Qed.

Lemma class_no_minus items w :
  Forall (fun i => citem_match i minus = false) items -> class_text false items w -> minus ∉ w.
Proof.
  intros Hi [_ Hw] Hm. eapply Forall_forall in Hw; [|exact Hm].
  unfold set_match in Hw. cbn [xorb] in Hw. apply existsb_exists in Hw as (i & Hin & Hc).
  eapply Forall_forall in Hi; [|by apply list_elem_of_In]. congruence.
Qed.

Lemma number_class_no_minus : Forall (fun i => citem_match i minus = false) [CDigit; CLit dot].
Proof. constructor; [apply digit_not_minus|]. constructor; [by apply bool_decide_eq_false_2|constructor]. Qed.

(** ** Theorems *)

(** C15: never negative.
    [_parse_number] never raises and never returns a negative number,
    even on a cell such as ["-5,00 ₽"]: [float()] reads a sign, but the
    run [re.search(r'[\d.]+', ...)] hands it holds only digits and dots. *)
Theorem parse_number_nonneg v : (0 <= num_val (parse_number v))%Q.
Proof.
  assert (0 <= num_val (PyInt 0))%Q as H0 by (unfold Qle; simpl; lia).
  unfold parse_number. destruct v as [v|]; [|done]. case_bool_decide; [done|].
  cbv zeta. unfold number_of, number_re, group.
  destruct (re_search _ _) as [m|] eqn:E; [|done].
  destruct (m !! 0) as [g|] eqn:G; [|done]. destruct (py_float g) eqn:F; [|done].
  eapply py_float_nonneg; [|exact F].
  eapply class_no_minus; [apply number_class_no_minus|]. by eapply re_search_plus_group0.
Qed.

(** The characters of the cleaned text come from the cell, or are the
    dot that replaced a comma. *)
Lemma cleaned_chars v c :
  In c (replace_char comma dot (re_sub_set false currency_ws (strip v))) -> c = dot \/ In c v.
Proof.
  unfold replace_char, re_sub_set. intros (x & <- & Hx)%in_map_iff.
  apply filter_In in Hx as [Hx _]. case_bool_decide; [by left|right].
  destruct (strip_spaces v) as (a & b & Hv & _ & _). rewrite Hv.
  apply in_or_app. right. apply in_or_app. by left.
Qed.

(** C17: no digit, no number.
    A cell holding no decimal digit is read as the [int] [0], whatever
    else it holds (letters, dots, commas, signs). *)
Theorem parse_number_no_digit v :
  Forall (fun c => decimal_value c = None) v -> parse_number (Some v) = PyInt 0.
Proof.
  intros Hv. unfold parse_number. case_bool_decide; [done|]. cbv zeta. unfold number_of.
  destruct (re_search _ _) as [m|] eqn:E; [|done]. unfold group.
  destruct (m !! 0) as [g|] eqn:G; [|done]. destruct (py_float g) eqn:F; [|done].
  exfalso. apply py_float_digit in F as (c & Hc & [d Hd]).
  apply re_search_group0 in E as (a & g' & b & Hs & Hg). rewrite G in Hg. injection Hg as <-.
  assert (In c (replace_char comma dot (re_sub_set false currency_ws (strip v)))) as Hin.
  { rewrite Hs. apply in_or_app. right. apply in_or_app. left. by apply list_elem_of_In. }
  apply cleaned_chars in Hin as [->|Hin].
  - by rewrite dot_not_decimal in Hd.
  - eapply Forall_forall in Hv; [|by apply list_elem_of_In]. congruence.
Qed.

(** An amount written the Russian way: groups of digits separated by
    spaces, a decimal comma, and the rouble sign. *)
Definition ru_amount (groups : list pystr) (frac : pystr) : pystr :=
  join_on space groups ++ (comma :: frac) ++ [space; ruble].

Lemma re_sub_join groups sep :
  Forall decimals groups -> set_match false currency_ws sep = true ->
  re_sub_set false currency_ws (join_on sep groups) = concat groups.
Proof.
  intros Hg Hsep. induction Hg as [|w ws Hw Hws IH]; [done|].
  destruct ws as [|w' ws].
  - simpl. by rewrite app_nil_r, re_sub_decimals.
  - rewrite join_on_cons by done. unfold re_sub_set in *. rewrite List.filter_app. cbn [List.filter].
    rewrite Hsep. cbn [negb app]. rewrite IH. fold (re_sub_set false currency_ws w). by rewrite re_sub_decimals.
Qed.

Lemma join_on_Forall (P : uchar -> Prop) sep groups :
  P sep -> Forall (Forall P) groups -> Forall P (join_on sep groups).
Proof.
  intros Hs Hg. induction Hg as [|w ws Hw Hws IH]; [done|]. destruct ws as [|w' ws]; [done|].
  rewrite join_on_cons by done. apply Forall_app. split; [done|]. by constructor.
Qed.

Lemma join_on_snoc sep groups w :
  groups <> [] -> join_on sep (groups ++ [w]) = join_on sep groups ++ sep :: w.
Proof.
  induction groups as [|g gs IH]; intros Hne; [done|]. destruct gs as [|g' gs]; [done|].
  change ((g :: g' :: gs) ++ [w]) with (g :: ((g' :: gs) ++ [w])).
  rewrite !join_on_cons by (try done; by destruct gs). rewrite IH by done.
  by rewrite <- app_assoc.
Qed.

Lemma re_sub_app a b :
  re_sub_set false currency_ws (a ++ b) = re_sub_set false currency_ws a ++ re_sub_set false currency_ws b.
Proof. apply List.filter_app. Qed.

Lemma re_sub_kept w :
  Forall (fun c => set_match false currency_ws c = false) w -> re_sub_set false currency_ws w = w.
Proof.
  intros Hw. unfold re_sub_set. induction Hw as [|c w Hc Hw IH]; [done|].
  cbn [List.filter]. rewrite Hc. cbn [negb]. by rewrite IH.
Qed.

Lemma re_sub_currency_tail :
  re_sub_set false currency_ws [space; ruble] = [].
Proof.
  unfold re_sub_set. cbn [List.filter].
  rewrite space_removed. cbn [negb].
  replace (set_match false currency_ws ruble) with true; [done|].
  unfold set_match, currency_ws, citem_match. cbn [existsb]. by rewrite bool_decide_eq_true_2.
Qed.

Lemma replace_app a b : replace_char comma dot (a ++ b) = replace_char comma dot a ++ replace_char comma dot b.
Proof. apply map_app. Qed.

Lemma replace_comma w : replace_char comma dot (comma :: w) = dot :: replace_char comma dot w.
Proof. unfold replace_char. cbn [map]. by rewrite bool_decide_eq_true_2. Qed.

Lemma replace_dot w : replace_char comma dot (dot :: w) = dot :: replace_char comma dot w.
Proof. unfold replace_char. cbn [map]. by rewrite bool_decide_eq_false_2. Qed.

Lemma replace_join_dot groups :
  Forall decimals groups -> replace_char comma dot (join_on dot groups) = join_on dot groups.
Proof.
  intros Hg. apply replace_decimals_dots, join_on_Forall; [by right|].
  eapply Forall_impl; [exact Hg|]. intros w Hw. eapply Forall_impl; [exact Hw|]. by left.
Qed.

(** C3: Russian amounts.
    An amount written the Russian way -- digit groups separated by spaces,
    a decimal comma, then a space and the rouble sign, as in
    ["1 234,56 ₽"] -- is read by [_parse_number] as the exact decimal it
    denotes, [1234.56] here. *)
Theorem parse_number_ru groups frac iv fv :
  concat groups <> [] -> digits_value (concat groups) = Some iv -> digits_value frac = Some fv ->
  parse_number (Some (ru_amount groups frac)) =
  PyFloat (dec (Z.of_N iv * 10 ^ Z.of_nat (length frac) + Z.of_N fv) (length frac)).
Proof.
  intros Hne Hi Hf. pose proof (digits_value_Forall _ _ Hi) as Hci.
  pose proof (digits_value_Forall _ _ Hf) as Hcf.
  rewrite (parse_number_run _ (concat groups ++ dot :: frac)).
  - rewrite (py_float_point _ _ iv fv); [done|by left|done|done].
  - unfold ru_amount. by destruct (join_on space groups).
  - unfold ru_amount. rewrite !re_sub_app, re_sub_join.
    + rewrite (re_sub_kept (comma :: frac)), re_sub_currency_tail, app_nil_r.
      * by rewrite replace_app, replace_comma, (replace_decimals (concat groups)), (replace_decimals frac).
      * constructor; [apply comma_kept|]. eapply Forall_impl; [exact Hcf|]. apply decimal_kept.
    + by apply List.Forall_concat.
    + apply space_removed.
  - by destruct (concat groups).
  - apply Forall_app. split; [|constructor; [apply dot_in_number_class|]];
      (eapply Forall_impl; [eassumption|apply decimal_in_number_class]).
Qed.

(** An amount written with dots between the digit groups and a decimal
    comma, the other common locale format. *)
Definition dotted_amount (groups : list pystr) (frac : pystr) : pystr :=
  join_on dot groups ++ (comma :: frac) ++ [space; ruble].

(** C16: dotted thousands give 0.
    An amount with at least two digit groups separated by dots, a decimal
    comma and the rouble sign, as in ["1.234,56 ₽"], is read by
    [_parse_number] as the [int] [0]: after the comma becomes a dot the
    run holds two dots and [float()] raises [ValueError], which the code
    turns into [0]. *)
Theorem parse_number_dotted groups frac :
  2 <= length groups -> Forall decimals groups -> decimals frac ->
  parse_number (Some (dotted_amount groups frac)) = PyInt 0.
Proof.
  intros Hlen Hg Hf. assert (groups <> []) as Hne by (destruct groups; [simpl in Hlen; lia|done]).
  assert (Forall (fun c => set_match false currency_ws c = false) (join_on dot groups)) as Hk.
  { apply join_on_Forall; [apply dot_kept|]. eapply Forall_impl; [exact Hg|].
    intros w Hw. eapply Forall_impl; [exact Hw|apply decimal_kept]. }
  rewrite (parse_number_run _ (join_on dot (groups ++ [frac]))).
  - rewrite py_float_nosign.
    2:{ apply join_on_Forall; [apply dot_not_sign|]. apply Forall_app. split.
        - eapply Forall_impl; [exact Hg|]. intros w Hw. eapply Forall_impl; [exact Hw|apply decimal_not_sign].
        - constructor; [|done]. eapply Forall_impl; [exact Hf|apply decimal_not_sign]. }
    unfold py_ufloat. rewrite strip_nospace.
    2:{ apply join_on_Forall; [apply dot_not_space|]. apply Forall_app. split.
        - eapply Forall_impl; [exact Hg|]. intros w Hw. eapply Forall_impl; [exact Hw|apply decimal_not_space].
        - constructor; [|done]. eapply Forall_impl; [exact Hf|apply decimal_not_space]. }
    rewrite split_join.
    + destruct groups as [|g1 [|g2 gs]]; simpl in Hlen; try lia.
      simpl. by destruct gs.
    + by destruct groups.
    + apply Forall_app. split; [|constructor; [|done]];
        [eapply Forall_impl; [exact Hg|]|]; intros; by apply decimal_not_dot.
  - unfold dotted_amount. by destruct (join_on dot groups).
  - unfold dotted_amount. rewrite !re_sub_app, (re_sub_kept (join_on dot groups)) by done.
    rewrite (re_sub_kept (comma :: frac)), re_sub_currency_tail, app_nil_r.
    + rewrite replace_app, replace_comma, replace_join_dot, replace_decimals by done.
      by rewrite join_on_snoc.
    + constructor; [apply comma_kept|]. eapply Forall_impl; [exact Hf|]. apply decimal_kept.
  - rewrite join_on_snoc by done. by destruct (join_on dot groups).
  - apply join_on_Forall; [apply dot_in_number_class|]. apply Forall_app. split.
    + eapply Forall_impl; [exact Hg|]. intros w Hw. eapply Forall_impl; [exact Hw|apply decimal_in_number_class].
    + constructor; [|done]. eapply Forall_impl; [exact Hf|apply decimal_in_number_class].
Qed.

End Number.

(** ** Witnesses, with the tabulated Unicode database *)

Lemma parse_number_ru_witness :
  parse_number (Some (ru_amount [u "1"; u "234"] (u "56"))) =
  PyFloat (dec (Z.of_N 1234 * 10 ^ Z.of_nat (length (u "56")) + Z.of_N 56) (length (u "56"))).
Proof. apply (parse_number_ru _ _ 1234 56); vm_compute; [discriminate|reflexivity|reflexivity]. Defined.

Lemma parse_number_dotted_witness :
  parse_number (Some (dotted_amount [u "1"; u "234"] (u "56"))) = PyInt 0.
Proof. apply parse_number_dotted; [simpl; lia|repeat constructor; vm_compute; eauto..]. Defined.

Lemma parse_number_no_digit_witness : parse_number (Some (u "нет, ₽.")) = PyInt 0.
Proof. apply parse_number_no_digit. repeat constructor. Defined.
