(* ===== verification/Dict.v ===== *)
(** * Python dicts with string keys

    The sub-dictionaries of [self.data] ([invoice_info], [company_info],
    [customer_info], [totals]) are Python dicts filled by [d[k] = v].  A
    dict keeps its keys in insertion order, and an assignment to a present
    key replaces the value in place, so a dict is modelled as an
    association list without duplicate keys, [dict_set] appending a new
    key at the end.

    Theorems: the lookup laws of [dict_set], the invariant that keys stay
    distinct, and the key order it produces. *)

From S2P Require Import Prelude Unicode.

Abbreviation pydict V := (list (pystr * V)).

Section Dict.
Context {V : Type}.

(** [d.get(k)] *)
Fixpoint dict_get (d : pydict V) (k : pystr) : option V :=
  match d with
  | [] => None
  | (k', v) :: d' => if bool_decide (k' = k) then Some v else dict_get d' k
  end.

(** [d[k] = v] *)
Fixpoint dict_set (k : pystr) (v : V) (d : pydict V) : pydict V :=
  match d with
  | [] => [(k, v)]
  | (k', v') :: d' => if bool_decide (k' = k) then (k', v) :: d' else (k', v') :: dict_set k v d'
  end.

Definition dict_keys (d : pydict V) : list pystr := map fst d.

Lemma dict_get_set_eq d k v : dict_get (dict_set k v d) k = Some v.
Proof.
  induction d as [|[k' v'] d IH]; simpl; [by rewrite bool_decide_eq_true_2|].
  case_bool_decide; simpl; [by rewrite bool_decide_eq_true_2|].
  by rewrite bool_decide_eq_false_2.
Qed.

Lemma dict_get_set_ne d k k' v : k <> k' -> dict_get (dict_set k v d) k' = dict_get d k'.
Proof.
  intros Hne. induction d as [|[k0 v0] d IH]; simpl.
  - by rewrite bool_decide_eq_false_2.
  - case_bool_decide as H0; simpl.
    + subst. rewrite !bool_decide_eq_false_2 by done. done.
    + case_bool_decide; [done|]. apply IH.
Qed.

(** Assignment keeps the order of the present keys and appends a new
    key last. *)
Lemma dict_set_keys d k v :
  dict_keys (dict_set k v d) = if bool_decide (k ∈ dict_keys d) then dict_keys d else dict_keys d ++ [k].
Proof.
  unfold dict_keys. induction d as [|[k' v'] d IH]; simpl; [done|].
  destruct (decide (k' = k)) as [->|Hne].
  - rewrite (bool_decide_eq_true_2 (k = k)) by done.
    rewrite (bool_decide_eq_true_2 (k ∈ _)); [done|]. apply elem_of_cons. by left.
  - rewrite (bool_decide_eq_false_2 (k' = k)) by done. simpl. rewrite IH.
    destruct (decide (k ∈ map fst d)) as [Hin|Hin].
    + rewrite !bool_decide_eq_true_2; [done|apply elem_of_cons; by right|done].
    + rewrite !bool_decide_eq_false_2; [done| |done].
      intros [?|?]%elem_of_cons; congruence.
Qed.

(** Assignment keeps the keys of a dict distinct. *)
Lemma dict_set_nodup d k v : NoDup (dict_keys d) -> NoDup (dict_keys (dict_set k v d)).
Proof.
  intros Hd. rewrite dict_set_keys. case_bool_decide; [done|].
  apply NoDup_app. split_and!; [done| |apply NoDup_singleton]. set_solver.
Qed.

(** lookup after assignment.
    After [d[k] = v], [d.get(k')] is [v] when [k'] is [k] and is
    [d.get(k')] otherwise. *)
Theorem dict_get_set d k v k' :
  dict_get (dict_set k v d) k' = if bool_decide (k' = k) then Some v else dict_get d k'.
Proof. case_bool_decide; [subst; apply dict_get_set_eq|by apply dict_get_set_ne]. Qed.

(** Assignment keeps a property of all entries that the new entry has. *)
Lemma dict_set_Forall (P : pystr * V -> Prop) d k v :
  Forall P d -> P (k, v) -> Forall P (dict_set k v d).
Proof.
  intros Hd Hkv. induction Hd as [|[k' v'] d Hk Hd IH]; simpl; [by constructor|].
  case_bool_decide; constructor; [by subst| |done|done]. done.
Qed.

End Dict.
