(* ===== verification/Json.v ===== *)
(** * JSON text: Python's [json.dump(..., ensure_ascii=False, indent=2)]

    [InvoiceParser.save_to_json] ([src/pdf_parser.py], lines 241-245)
    writes [self.data] with [json.dump(self.data, f, ensure_ascii=False,
    indent=2)].  This file models the encoder of Python's [json] module
    for that call.  With an indent, the encoder is
    [json.encoder._make_iterencode]: an empty list or dict is [[]] or
    [{}]; otherwise every element starts on a new line indented by two
    spaces per level, elements are separated by [","], keys by [": "], and
    the closing bracket is on its own line.  Strings go through
    [py_encode_basestring]: the quote, the backslash, [\n], [\r], [\t],
    [\b] and [\f] are escaped with a backslash, other characters below [0x20] become [\u00xx] with lowercase
    hexadecimal digits, and everything else (Cyrillic, [₽]) is written as
    is.  Integers are written by [int.__repr__], floats by
    [float.__repr__].

    A float of the model is an exact decimal ([Q]); its JSON value
    [JFloat m e] is the decimal [m * 10^e] in lowest terms, which is what
    [float.__repr__] prints for a float with at most 17 significant
    digits: the shortest digits, positional between [1e-4] and [1e16],
    with an exponent [e+XX]/[e-XX] outside.

    The reader [json_loads] is the grammar of RFC 8259 as Python's
    [json.loads] reads it.  It is a definition of this development, not of
    the program, and it is the reference the round trip is stated
    against.  It is a fuelled parser: [pvalue], [pelems] and [pmembers]
    are mutually recursive, each call takes one unit, and [reader_fuel]
    proves that fuel [2 * length s + 1] (for a value) or [2 * length s + 2]
    (for the rest of an array or object) is enough, because every element
    is read from a strictly shorter suffix ([reader_shorter]).
    [json_loads] gives [2 * length s + 2].

    Theorems: what the printer writes for each kind of value; the round
    trip [json_loads (json_dumps j) = Some j] for every JSON value whose
    floats are in lowest terms; the termination of the reader. *)

From S2P Require Import Prelude Unicode PyStr.

(** ** JSON values *)

Unset Elimination Schemes.
Inductive json :=
| JNull
| JBool (b : bool)
| JInt (z : Z)
| JFloat (m e : Z)
| JStr (s : pystr)
| JArr (l : list json)
| JObj (l : list (pystr * json)).
Set Elimination Schemes.

(** The induction principle with the hypotheses on the elements of
    arrays and objects. *)
Definition json_ind (P : json -> Prop)
    (fnull : P JNull) (fbool : forall b, P (JBool b)) (fint : forall z, P (JInt z))
    (ffloat : forall m e, P (JFloat m e)) (fstr : forall s, P (JStr s))
    (farr : forall l, Forall P l -> P (JArr l))
    (fobj : forall l, Forall (fun kv => P kv.2) l -> P (JObj l)) : forall j, P j :=
  fix F j :=
    match j with
    | JNull => fnull
    | JBool b => fbool b
    | JInt z => fint z
    | JFloat m e => ffloat m e
    | JStr s => fstr s
    | JArr l => farr l ((fix G l : Forall P l :=
                           match l with
                           | [] => Forall_nil_2 _
                           | x :: l' => Forall_cons_2 _ x l' (F x) (G l')
                           end) l)
    | JObj l => fobj l ((fix G l : Forall (fun kv => P kv.2) l :=
                           match l with
                           | [] => Forall_nil_2 _
                           | kv :: l' => Forall_cons_2 _ kv l' (F kv.2) (G l')
                           end) l)
    end.

(** ** Characters *)

Definition c_quote : uchar := 34.
Definition c_backslash : uchar := 92.
Definition c_lbracket : uchar := 91.
Definition c_rbracket : uchar := 93.
Definition c_lbrace : uchar := 123.
Definition c_rbrace : uchar := 125.
Definition c_colon : uchar := 58.
Definition c_space : uchar := 32.
Definition c_minus : uchar := 45.
Definition c_plus : uchar := 43.
Definition c_zero : uchar := 48.
Definition c_e : uchar := 101.

(** ** Numbers *)

(** The decimal digits of [n], least significant first; [fuel] bounds
    their number. *)
Fixpoint digits_rev (fuel : nat) (n : N) : pystr :=
  match fuel with
  | O => []
  | S f => (c_zero + n mod 10)%N :: (if (n <? 10)%N then [] else digits_rev f (n / 10))
  end.

(** [str(n)] for a natural number: [log2 n + 1] binary digits bound
    the decimal ones. *)
Definition N_digits (n : N) : pystr := reverse (digits_rev (S (N.to_nat (N.log2 n))) n).

(** [int.__repr__] *)
Definition int_repr (z : Z) : pystr :=
  if (z <? 0)%Z then c_minus :: N_digits (Z.to_N (- z)) else N_digits (Z.to_N z).

Definition zeros (k : nat) : pystr := replicate k c_zero.

(** The exponent of [float.__repr__]: a sign and at least two digits. *)
Definition exp_repr (x : Z) : pystr :=
  let d := N_digits (Z.to_N (Z.abs x)) in
  c_e :: (if (x <? 0)%Z then c_minus else c_plus) :: (if (length d <? 2)%nat then c_zero :: d else d).

(** [float.__repr__] of [m * 10^e], [m] without trailing zero: [decpt]
    is the position of the decimal point after the first digit of [D],
    the digits of [m]. *)
Definition float_repr (m e : Z) : pystr :=
  let D := N_digits (Z.to_N (Z.abs m)) in
  let sign := if (m <? 0)%Z then [c_minus] else [] in
  let n := Z.of_nat (length D) in
  let decpt := (n + e)%Z in
  sign ++
  if (m =? 0)%Z then [c_zero; dot; c_zero]
  else if (decpt <=? -4)%Z || (16 <? decpt)%Z then
    match D with
    | d :: [] => [d]
    | d :: ds => d :: dot :: ds
    | [] => []
    end ++ exp_repr (decpt - 1)
  else if (decpt <=? 0)%Z then c_zero :: dot :: zeros (Z.to_nat (- decpt)) ++ D
  else if (n <=? decpt)%Z then D ++ zeros (Z.to_nat (decpt - n)) ++ [dot; c_zero]
  else take (Z.to_nat decpt) D ++ dot :: drop (Z.to_nat decpt) D.

(** ** Strings *)

Definition hex_digit (d : N) : uchar := if (d <? 10)%N then (48 + d)%N else (87 + d)%N.

(** [ESCAPE_DCT] of [json.encoder] *)
Definition escape_char (c : uchar) : pystr :=
  if (c =? c_quote)%N then [c_backslash; c_quote]
  else if (c =? c_backslash)%N then [c_backslash; c_backslash]
  else if (c =? 10)%N then [c_backslash; 110%N]
  else if (c =? 13)%N then [c_backslash; 114%N]
  else if (c =? 9)%N then [c_backslash; 116%N]
  else if (c =? 8)%N then [c_backslash; 98%N]
  else if (c =? 12)%N then [c_backslash; 102%N]
  else if (c <? 32)%N then [c_backslash; 117%N; c_zero; c_zero; hex_digit (c / 16); hex_digit (c mod 16)]
  else [c].

(** [py_encode_basestring] *)
Definition encode_string (s : pystr) : pystr := c_quote :: (s ≫= escape_char) ++ [c_quote].

(** ** The encoder with [indent=2] *)

(** [newline_indent] at a level *)
Definition nl_indent (lvl : nat) : pystr := newline :: replicate (2 * lvl) c_space.

Fixpoint dump (lvl : nat) (j : json) : pystr :=
  match j with
  | JNull => u "null"
  | JBool b => if b then u "true" else u "false"
  | JInt z => int_repr z
  | JFloat m e => float_repr m e
  | JStr s => encode_string s
  | JArr [] => [c_lbracket; c_rbracket]
  | JArr (x :: xs) =>
      c_lbracket :: nl_indent (S lvl) ++ dump (S lvl) x ++
      (fix items xs := match xs with
                       | [] => []
                       | y :: ys => comma :: nl_indent (S lvl) ++ dump (S lvl) y ++ items ys
                       end) xs
      ++ nl_indent lvl ++ [c_rbracket]
  | JObj [] => [c_lbrace; c_rbrace]
  | JObj (kv :: kvs) =>
      c_lbrace :: nl_indent (S lvl) ++ encode_string kv.1 ++ [c_colon; c_space] ++ dump (S lvl) kv.2 ++
      (fix members kvs := match kvs with
                          | [] => []
                          | kv' :: kvs' => comma :: nl_indent (S lvl) ++ encode_string kv'.1 ++
                                           [c_colon; c_space] ++ dump (S lvl) kv'.2 ++ members kvs'
                          end) kvs
      ++ nl_indent lvl ++ [c_rbrace]
  end.

(** [json.dumps(j, ensure_ascii=False, indent=2)], the text [json.dump]
    writes. *)
Definition json_dumps (j : json) : pystr := dump 0 j.

(** ** The reader *)

(** The outcome of a fuelled parser: a syntax error, fuel exhausted, or
    a value. *)
Inductive presult (A : Type) := PErr | PFuel | POk (a : A).
Arguments PErr {A}. Arguments PFuel {A}. Arguments POk {A} a.

Definition is_ws (c : uchar) : bool := (c =? c_space)%N || (c =? newline)%N || (c =? 9)%N || (c =? 13)%N.

Fixpoint skip_ws (s : pystr) : pystr :=
  match s with
  | c :: s' => if is_ws c then skip_ws s' else s
  | [] => []
  end.

Definition is_digit09 (c : uchar) : bool := (48 <=? c)%N && (c <=? 57)%N.

(** [0-9]*: the longest run of digits and the rest. *)
Fixpoint span_digits (s : pystr) : pystr * pystr :=
  match s with
  | c :: s' => if is_digit09 c then let '(d, r) := span_digits s' in (c :: d, r) else ([], s)
  | [] => ([], [])
  end.

(** The value of a string of ASCII digits, as [int()] reads it. *)
Definition dstep (acc : Z) (c : uchar) : Z := (10 * acc + Z.of_N (c - c_zero))%Z.
Definition digits_val (d : pystr) : Z := foldl dstep 0%Z d.

(** Strip the trailing zeros of a mantissa; [fuel] bounds their number. *)
Fixpoint strip10 (fuel : nat) (m e : Z) : Z * Z :=
  match fuel with
  | O => (m, e)
  | S f => if (m mod 10 =? 0)%Z then strip10 f (m / 10) (e + 1) else (m, e)
  end.

(** The decimal [m * 10^e] in lowest terms: no trailing zero in [m], and
    [0] as [(0, 0)]. *)
Definition canon (m e : Z) : Z * Z :=
  if (m =? 0)%Z then (0, 0)%Z else strip10 (Z.to_nat (Z.log2 (Z.abs m)) + 1) m e.

(** [NUMBER_RE] of [json.scanner]: an optional minus, [0] or a nonzero
    digit followed by digits, an optional fraction (a dot and at least one
    digit) and an optional exponent ([e] or [E], an optional sign, at
    least one digit); an [int] when there is neither fraction nor
    exponent, a [float] otherwise. *)
Definition scan_sign (s : pystr) : bool * pystr :=
  match s with c :: s' => if (c =? c_minus)%N then (true, s') else (false, s) | [] => (false, s) end.

(** The integer part: [0] alone, or a nonzero digit and digits. *)
Definition scan_int (s1 : pystr) : option (pystr * pystr) :=
  match s1 with
  | c :: s2 => if (c =? c_zero)%N then Some ([c], s2)
               else if is_digit09 c then Some (span_digits s1) else None
  | [] => None
  end.

(** The optional fraction: a dot and at least one digit. *)
Definition scan_frac (s2 : pystr) : pystr * pystr :=
  match s2 with
  | c :: s2' => if (c =? dot)%N then
                  let '(d, r) := span_digits s2' in
                  if bool_decide (d = []) then ([], s2) else (d, r)
                else ([], s2)
  | [] => ([], s2)
  end.

(** The optional exponent: [e] or [E], an optional sign and at least
    one digit, with its value. *)
Definition scan_exp (s3 : pystr) : option Z * pystr :=
  match s3 with
  | c :: s3' =>
      if (c =? c_e)%N || (c =? 69)%N then
        let '(sgn, s5) := match s3' with
                          | c' :: r' => if (c' =? c_minus)%N then (-1, r')%Z
                                        else if (c' =? c_plus)%N then (1, r')%Z else (1, s3')%Z
                          | [] => (1, s3')%Z end in
        let '(d, r) := span_digits s5 in
        if bool_decide (d = []) then (None, s3) else (Some (sgn * digits_val d)%Z, r)
      else (None, s3)
  | [] => (None, s3)
  end.

(** [NUMBER_RE] of [json.scanner]: an optional minus, [0] or a nonzero
    digit followed by digits, an optional fraction (a dot and at least one
    digit) and an optional exponent ([e] or [E], an optional sign, at
    least one digit); an [int] when there is neither fraction nor
    exponent, a [float] otherwise. *)
Definition scan_number (s : pystr) : option (json * pystr) :=
  let '(neg, s1) := scan_sign s in
  match scan_int s1 with
  | None => None
  | Some (idig, s2) =>
      let '(frac, s3) := scan_frac s2 in
      let '(eopt, s4) := scan_exp s3 in
      let mant := digits_val (idig ++ frac) in
      let mant := if neg then (- mant)%Z else mant in
      if bool_decide (frac = []) && (match eopt with None => true | Some _ => false end)
      then Some (JInt mant, s4)
      else let '(m, e) := canon mant (default 0%Z eopt - Z.of_nat (length frac)) in Some (JFloat m e, s4)
  end.

Definition hex_val (c : uchar) : option N :=
  if (48 <=? c)%N && (c <=? 57)%N then Some (c - 48)%N
  else if (97 <=? c)%N && (c <=? 102)%N then Some (c - 87)%N
  else if (65 <=? c)%N && (c <=? 70)%N then Some (c - 55)%N
  else None.

Definition hex4 (a b c d : uchar) : option N :=
  x1 ← hex_val a; x2 ← hex_val b; x3 ← hex_val c; x4 ← hex_val d;
  Some (((x1 * 16 + x2) * 16 + x3) * 16 + x4)%N.

(** [py_scanstring] after the opening quote, in strict mode: the text up
    to the closing quote with its escapes decoded, a surrogate pair
    written as two [\u] escapes combined. *)
Fixpoint scan_string (s : pystr) : option (pystr * pystr) :=
  match s with
  | [] => None
  | c :: s' =>
      if (c =? c_quote)%N then Some ([], s')
      else if (c <? 32)%N then None
      else if (c =? c_backslash)%N then
        match s' with
        | e :: r =>
            if (e =? 117)%N then
              match r with
              | a :: b :: c1 :: d :: r2 =>
                  match hex4 a b c1 d with
                  | None => None
                  | Some x =>
                      if (55296 <=? x)%N && (x <=? 56319)%N then
                        match r2 with
                        | bs :: uu :: a' :: b' :: c' :: d' :: r3 =>
                            match (if (bs =? c_backslash)%N && (uu =? 117)%N then hex4 a' b' c' d' else None) with
                            | Some y =>
                                if (56320 <=? y)%N && (y <=? 57343)%N then
                                  '(t, rest) ← scan_string r3;
                                  Some ((65536 + (x - 55296) * 1024 + (y - 56320))%N :: t, rest)
                                else '(t, rest) ← scan_string r2; Some (x :: t, rest)
                            | None => '(t, rest) ← scan_string r2; Some (x :: t, rest)
                            end
                        | _ => '(t, rest) ← scan_string r2; Some (x :: t, rest)
                        end
                      else '(t, rest) ← scan_string r2; Some (x :: t, rest)
                  end
              | _ => None
              end
            else
              let dec :=
                if (e =? c_quote)%N then Some c_quote
                else if (e =? c_backslash)%N then Some c_backslash
                else if (e =? 47)%N then Some 47%N
                else if (e =? 98)%N then Some 8%N
                else if (e =? 102)%N then Some 12%N
                else if (e =? 110)%N then Some 10%N
                else if (e =? 114)%N then Some 13%N
                else if (e =? 116)%N then Some 9%N
                else None in
              match dec with
              | Some x => '(t, rest) ← scan_string r; Some (x :: t, rest)
              | None => None
              end
        | [] => None
        end
      else '(t, rest) ← scan_string s'; Some (c :: t, rest)
  end.

Definition lit_null : pystr := u "null".
Definition lit_true : pystr := u "true".
Definition lit_false : pystr := u "false".

(** [scan_once] after white space, and the loops of [JSONArray] and
    [JSONObject]: [pelems] reads the elements of an array after its
    first, [pmembers] the members of an object after its first key. *)
Fixpoint pvalue (fuel : nat) (s : pystr) : presult (json * pystr) :=
  match fuel with
  | O => PFuel
  | S f =>
      match skip_ws s with
      | [] => PErr
      | c :: r =>
          if (c =? c_lbracket)%N then
            match skip_ws r with
            | c' :: r' => if (c' =? c_rbracket)%N then POk (JArr [], r') else pelems f (skip_ws r) []
            | [] => PErr
            end
          else if (c =? c_lbrace)%N then
            match skip_ws r with
            | c' :: r' =>
                if (c' =? c_rbrace)%N then POk (JObj [], r')
                else if (c' =? c_quote)%N then pmembers f r' []
                else PErr
            | [] => PErr
            end
          else if (c =? c_quote)%N then
            match scan_string r with Some (t, r') => POk (JStr t, r') | None => PErr end
          else if is_prefix lit_null (c :: r) then POk (JNull, drop 4 (c :: r))
          else if is_prefix lit_true (c :: r) then POk (JBool true, drop 4 (c :: r))
          else if is_prefix lit_false (c :: r) then POk (JBool false, drop 5 (c :: r))
          else match scan_number (c :: r) with Some (j, r') => POk (j, r') | None => PErr end
      end
  end
with pelems (fuel : nat) (s : pystr) (acc : list json) : presult (json * pystr) :=
  match fuel with
  | O => PFuel
  | S f =>
      match pvalue f s with
      | POk (v, r) =>
          match skip_ws r with
          | c :: r' =>
              if (c =? comma)%N then pelems f r' (acc ++ [v])
              else if (c =? c_rbracket)%N then POk (JArr (acc ++ [v]), r')
              else PErr
          | [] => PErr
          end
      | PErr => PErr
      | PFuel => PFuel
      end
  end
(** [s] follows the opening quote of a key. *)
with pmembers (fuel : nat) (s : pystr) (acc : list (pystr * json)) : presult (json * pystr) :=
  match fuel with
  | O => PFuel
  | S f =>
      match scan_string s with
      | None => PErr
      | Some (k, r) =>
          match skip_ws r with
          | c :: r1 =>
              if (c =? c_colon)%N then
                match pvalue f r1 with
                | POk (v, r2) =>
                    match skip_ws r2 with
                    | c2 :: r3 =>
                        if (c2 =? comma)%N then
                          match skip_ws r3 with
                          | c3 :: r4 => if (c3 =? c_quote)%N then pmembers f r4 (acc ++ [(k, v)]) else PErr
                          | [] => PErr
                          end
                        else if (c2 =? c_rbrace)%N then POk (JObj (acc ++ [(k, v)]), r3)
                        else PErr
                    | [] => PErr
                    end
                | PErr => PErr
                | PFuel => PFuel
                end
              else PErr
          | [] => PErr
          end
      end
  end.

(** [json.loads(s)]: one value, surrounded by white space only. *)
Definition json_loads (s : pystr) : option json :=
  match pvalue (2 * length s + 2) s with
  | POk (j, r) => if bool_decide (skip_ws r = []) then Some j else None
  | _ => None
  end.

(** ** Laws of the digit strings *)

Lemma digits_fold y b : foldl dstep y b = (y * 10 ^ Z.of_nat (length b) + digits_val b)%Z.
Proof.
  unfold digits_val. revert y. induction b as [|c b IH]; intros y; simpl; [lia|].
  rewrite (IH (dstep y c)), (IH (dstep 0 c)), Nat2Z.inj_succ, Z.pow_succ_r by lia. unfold dstep. lia.
Qed.

Lemma digits_val_app a b :
  digits_val (a ++ b) = (digits_val a * 10 ^ Z.of_nat (length b) + digits_val b)%Z.
Proof. unfold digits_val at 1. rewrite foldl_app. apply digits_fold. Qed.

Lemma pow10_log2 n : (n < 10 ^ N.of_nat (S (N.to_nat (N.log2 n))))%N.
Proof.
  rewrite Nat2N.inj_succ, N2Nat.id. destruct (N.eq_dec n 0%N) as [->|Hn]; [simpl; lia|].
  destruct (N.log2_spec n) as [_ Hlt]; [lia|].
  eapply N.lt_le_trans; [exact Hlt|]. apply N.pow_le_mono_l. lia.
Qed.

Lemma digits_rev_fuel f1 f2 n :
  (n < 10 ^ N.of_nat (S f1))%N -> (n < 10 ^ N.of_nat (S f2))%N -> digits_rev (S f1) n = digits_rev (S f2) n.
Proof.
  revert f2 n. induction f1 as [|f1 IH]; intros f2 n H1 H2; simpl; f_equal;
    destruct (n <? 10)%N eqn:E; try done; apply N.ltb_ge in E; [change (n < 10)%N in H1; lia|].
  destruct f2 as [|f2]; [change (n < 10)%N in H2; lia|].
  rewrite (Nat2N.inj_succ (S f1)), N.pow_succ_r' in H1. rewrite (Nat2N.inj_succ (S f2)), N.pow_succ_r' in H2.
  apply IH; apply N.Div0.div_lt_upper_bound; lia.
Qed.

Lemma N_digits_eq n :
  N_digits n = if (n <? 10)%N then [(c_zero + n)%N] else N_digits (n / 10) ++ [(c_zero + n mod 10)%N].
Proof.
  unfold N_digits at 1. simpl. destruct (n <? 10)%N eqn:E.
  - apply N.ltb_lt in E. by rewrite N.mod_small.
  - apply N.ltb_ge in E. rewrite reverse_cons. f_equal. unfold N_digits. f_equal.
    pose proof (pow10_log2 n) as H.
    destruct (N.to_nat (N.log2 n)) as [|k] eqn:L.
    { assert (N.log2 n = 0%N) as L0 by lia. pose proof (N.log2_le_mono 10 n E) as Hl.
      rewrite L0 in Hl. by vm_compute in Hl. }
    apply digits_rev_fuel; [|apply pow10_log2].
    rewrite (Nat2N.inj_succ (S k)), N.pow_succ_r' in H. apply N.Div0.div_lt_upper_bound; lia.
Qed.

Lemma N_digits_spec n :
  Forall (fun c => is_digit09 c = true) (N_digits n) /\ digits_val (N_digits n) = Z.of_N n /\
  exists d ds, N_digits n = d :: ds /\ (d = c_zero <-> n = 0%N).
Proof.
  induction n as [n IH] using (well_founded_induction N.lt_wf_0).
  rewrite N_digits_eq. destruct (n <? 10)%N eqn:E.
  - apply N.ltb_lt in E. split_and!.
    + constructor; [|done]. unfold is_digit09, c_zero. apply andb_true_iff. split; apply N.leb_le; lia.
    + unfold digits_val, dstep. cbn [foldl]. unfold c_zero. rewrite N.add_comm, N.add_sub. lia.
    + exists (c_zero + n)%N, []. split; [done|]. unfold c_zero. lia.
  - apply N.ltb_ge in E. destruct (IH (n / 10)%N) as (Hd & Hv & d & ds & Hh & Hz).
    { apply N.div_lt; lia. }
    split_and!.
    + apply Forall_app. split; [done|]. constructor; [|done].
      unfold is_digit09, c_zero. apply andb_true_iff. pose proof (N.mod_lt n 10 ltac:(lia)).
      set (r := (n mod 10)%N) in *.
      split; apply N.leb_le; lia.
    + rewrite digits_val_app, Hv. unfold digits_val, dstep. cbn [foldl length]. unfold c_zero.
      rewrite N.add_comm, N.add_sub. pose proof (N.div_mod n 10 ltac:(lia)). lia.
    + exists d, (ds ++ [(c_zero + n mod 10)%N]). rewrite Hh. split; [done|].
      rewrite Hz. pose proof (N.div_le_lower_bound n 10 1). split; [lia|]. intros ->. lia.
Qed.

Lemma digits_val_zeros k : digits_val (zeros k) = 0%Z.
Proof.
  induction k as [|k IH]; [done|]. unfold zeros. rewrite replicate_S_end, digits_val_app.
  fold (zeros k). rewrite IH. unfold digits_val, dstep, c_zero. simpl. lia.
Qed.

Lemma digits_val_zeros_l k b : digits_val (zeros k ++ b) = digits_val b.
Proof. rewrite digits_val_app, digits_val_zeros. lia. Qed.

Lemma digits_val_zeros_r a k : digits_val (a ++ zeros k) = (digits_val a * 10 ^ Z.of_nat k)%Z.
Proof. rewrite digits_val_app, digits_val_zeros. unfold zeros. rewrite length_replicate. lia. Qed.

(** The text after a number does not continue it. *)
Definition num_stop (rest : pystr) : Prop :=
  match rest with
  | c :: _ => is_digit09 c = false /\ c <> dot /\ c <> c_e /\ c <> 69%N
  | [] => True
  end.

Definition digit_stop (rest : pystr) : Prop :=
  match rest with c :: _ => is_digit09 c = false | [] => True end.

Lemma span_digits_app d rest :
  Forall (fun c => is_digit09 c = true) d -> digit_stop rest -> span_digits (d ++ rest) = (d, rest).
Proof.
  induction 1 as [|c d Hc Hd IH]; intros Hr; cbn [app span_digits].
  - destruct rest as [|c rest]; [done|]. cbn [span_digits]. simpl in Hr. by rewrite Hr.
  - rewrite Hc, IH by done. done.
Qed.

Lemma skip_ws_nows s : match s with c :: _ => is_ws c = false | [] => True end -> skip_ws s = s.
Proof. destruct s as [|c s]; [done|]. simpl. by intros ->. Qed.

Lemma skip_ws_app w s : Forall (fun c => is_ws c = true) w -> skip_ws (w ++ s) = skip_ws s.
Proof. induction 1 as [|c w Hc _ IH]; [done|]. simpl. by rewrite Hc. Qed.

Lemma nl_indent_ws lvl : Forall (fun c => is_ws c = true) (nl_indent lvl).
Proof. constructor; [done|]. apply Forall_replicate. done. Qed.

(** ** Lowest terms *)

Definition float_ok (m e : Z) : Prop := canon m e = (m, e).

#[global] Instance float_ok_dec m e : Decision (float_ok m e).
Proof. unfold float_ok. apply _. Defined.

Lemma strip10_stop f m e : (m mod 10 <> 0)%Z -> strip10 f m e = (m, e).
Proof. destruct f; simpl; [done|]. intros H. by rewrite (proj2 (Z.eqb_neq _ _) H). Qed.

Lemma strip10_scale k f m e :
  (m mod 10 <> 0)%Z -> k <= f -> strip10 f (m * 10 ^ Z.of_nat k) (e - Z.of_nat k) = (m, e).
Proof.
  revert f. induction k as [|k IH]; intros f Hm Hk.
  - rewrite Z.mul_1_r, Z.sub_0_r. by apply strip10_stop.
  - destruct f as [|f]; [lia|]. simpl.
    rewrite Nat2Z.inj_succ, Z.pow_succ_r by lia.
    replace (m * (10 * 10 ^ Z.of_nat k))%Z with ((m * 10 ^ Z.of_nat k) * 10)%Z by lia.
    rewrite Z_mod_mult, Z.eqb_refl, Z.div_mul by lia.
    replace (e - Z.succ (Z.of_nat k) + 1)%Z with (e - Z.of_nat k)%Z by lia. apply IH; [done|lia].
Qed.

Lemma float_ok_mod m e : float_ok m e -> m <> 0%Z -> (m mod 10 <> 0)%Z.
Proof.
  unfold float_ok, canon. intros Hc Hm Hmod. rewrite (proj2 (Z.eqb_neq _ _) Hm) in Hc.
  rewrite Nat.add_comm in Hc. simpl in Hc. rewrite Hmod in Hc. simpl in Hc.
  assert (forall f m' e', (e < e')%Z -> (strip10 f m' e').2 <> e) as Hlt.
  { induction f as [|f IHf]; intros m' e' He; simpl; [lia|]. destruct (m' mod 10 =? 0)%Z; [apply IHf; lia|simpl; lia]. }
  apply (Hlt (Z.to_nat (Z.log2 (Z.abs m))) (m / 10)%Z (e + 1)%Z); [lia|]. by rewrite Hc.
Qed.

Lemma log2_pow10 m k : m <> 0%Z -> (Z.of_nat k <= Z.log2 (Z.abs (m * 10 ^ Z.of_nat k)))%Z.
Proof.
  intros Hm. apply Z.log2_le_pow2; [|].
  - apply Z.abs_pos. apply Z.neq_mul_0. split; [done|]. apply Z.pow_nonzero; lia.
  - rewrite Z.abs_mul, Z.abs_pow. change (Z.abs 10) with 10%Z.
    transitivity (10 ^ Z.of_nat k)%Z; [apply Z.pow_le_mono_l; lia|].
    assert (1 <= Z.abs m)%Z by lia. assert (0 < 10 ^ Z.of_nat k)%Z by (apply Z.pow_pos_nonneg; lia). nia.
Qed.

(** A decimal in lowest terms written with [k] more zeros is read back
    in lowest terms. *)
Lemma canon_scale m e k :
  float_ok m e -> m <> 0%Z -> canon (m * 10 ^ Z.of_nat k) (e - Z.of_nat k) = (m, e).
Proof.
  intros Hok Hm. unfold canon.
  rewrite (proj2 (Z.eqb_neq _ _)) by (apply Z.neq_mul_0; split; [done|apply Z.pow_nonzero; lia]).
  apply strip10_scale; [by apply (float_ok_mod m e)|]. pose proof (log2_pow10 m k Hm). lia.
Qed.

(** [strip10] with enough fuel strips every trailing zero. *)
Lemma strip10_spec f m e :
  m <> 0%Z -> (Z.abs m < 10 ^ Z.of_nat f)%Z ->
  exists m' k, strip10 f m e = (m', e + Z.of_nat k)%Z /\ m = (m' * 10 ^ Z.of_nat k)%Z /\ (m' mod 10 <> 0)%Z.
Proof.
  revert m e. induction f as [|f IH]; intros m e Hm Hlt; [simpl in Hlt; lia|]. simpl.
  destruct (Z.eqb_spec (m mod 10) 0) as [H0|H0]; [|exists m, 0%nat; split_and!; [f_equal; lia|lia|done]].
  assert (Hm10 : m = (10 * (m / 10))%Z) by (apply Z.div_exact; lia).
  rewrite Nat2Z.inj_succ, Z.pow_succ_r in Hlt by lia.
  destruct (IH (m / 10)%Z (e + 1)%Z) as (m' & k & Hs & Hv & Hmod); [lia|lia|].
  exists m', (S k). rewrite Hs, Nat2Z.inj_succ, Z.pow_succ_r by lia. split_and!; [f_equal; lia|lia|done].
Qed.

Lemma abs_lt_pow10 m : (Z.abs m < 10 ^ Z.of_nat (Z.to_nat (Z.log2 (Z.abs m)) + 1))%Z.
Proof.
  destruct (Z.eq_dec m 0%Z) as [->|Hm]; [simpl; lia|].
  destruct (Z.log2_spec (Z.abs m)) as [_ Hlt]; [lia|].
  eapply Z.lt_le_trans; [exact Hlt|]. rewrite Nat2Z.inj_add, Z2Nat.id by apply Z.log2_nonneg.
  apply Z.pow_le_mono_l. lia.
Qed.

Lemma canon_spec m e :
  m <> 0%Z ->
  exists m' k, canon m e = (m', e + Z.of_nat k)%Z /\ m = (m' * 10 ^ Z.of_nat k)%Z /\ (m' mod 10 <> 0)%Z.
Proof.
  intros Hm. unfold canon. rewrite (proj2 (Z.eqb_neq _ _) Hm).
  apply strip10_spec; [done|apply abs_lt_pow10].
Qed.

(** [canon] gives a decimal in lowest terms. *)
Lemma canon_float_ok m e : float_ok (canon m e).1 (canon m e).2.
Proof.
  destruct (Z.eq_dec m 0%Z) as [->|Hm]; [done|].
  destruct (canon_spec m e Hm) as (m' & k & -> & _ & Hmod). unfold float_ok, canon. simpl.
  rewrite (proj2 (Z.eqb_neq m' 0)) by (intros ->; done). by apply strip10_stop.
Qed.

(** ** Reading numbers *)

Definition valid_int (idig : pystr) : Prop :=
  Forall (fun c => is_digit09 c = true) idig /\ exists d ds, idig = d :: ds /\ (d = c_zero -> ds = []).

Definition exp_text (ex : option (bool * pystr)) : pystr :=
  match ex with
  | None => []
  | Some (neg, ed) => c_e :: (if neg then c_minus else c_plus) :: ed
  end.

Definition frac_text (fd : pystr) : pystr := match fd with [] => [] | _ => dot :: fd end.

Definition exp_ok (ex : option (bool * pystr)) : Prop :=
  match ex with Some (_, ed) => ed <> [] /\ Forall (fun c => is_digit09 c = true) ed | None => True end.

Definition exp_value (ex : option (bool * pystr)) : option Z :=
  match ex with
  | None => None
  | Some (neg, ed) => Some (if neg then - digits_val ed else digits_val ed)%Z
  end.

(** The text of a number: sign, integer part, fraction, exponent. *)
Definition number_text (neg : bool) (idig fd : pystr) (ex : option (bool * pystr)) : pystr :=
  (if neg then [c_minus] else []) ++ idig ++ frac_text fd ++ exp_text ex.

(** The value [scan_number] gives to a number text. *)
Definition number_value (neg : bool) (idig fd : pystr) (ex : option (bool * pystr)) : json :=
  let mant := digits_val (idig ++ fd) in
  let mant := if neg then (- mant)%Z else mant in
  match fd, ex with
  | [], None => JInt mant
  | _, _ => let '(m, e) := canon mant (default 0%Z (exp_value ex) - Z.of_nat (length fd)) in JFloat m e
  end.

Lemma scan_sign_text (neg : bool) (t : pystr) :
  head t <> Some c_minus -> scan_sign ((if neg then [c_minus] else []) ++ t) = (neg, t).
Proof.
  intros Ht. destruct neg; [done|]. destruct t as [|c t]; [done|]; simpl in *.
  rewrite (proj2 (N.eqb_neq _ _)); [done|]. congruence.
Qed.

Lemma digit_head d ds (t : pystr) : is_digit09 d = true -> head ((d :: ds) ++ t) <> Some c_minus.
Proof. simpl. intros Hd [= ->]. done. Qed.

Lemma scan_int_text idig t : valid_int idig -> digit_stop t -> scan_int (idig ++ t) = Some (idig, t).
Proof.
  intros (Hd & d & ds & -> & Hz) Ht. cbn [app scan_int]. destruct (d =? c_zero)%N eqn:E.
  - apply N.eqb_eq in E. by rewrite (Hz E).
  - inversion Hd; subst. rewrite H1. by rewrite app_comm_cons, span_digits_app.
Qed.

Lemma scan_frac_text fd (t : pystr) :
  Forall (fun c => is_digit09 c = true) fd -> digit_stop t -> head t <> Some dot ->
  scan_frac (frac_text fd ++ t) = (fd, t).
Proof.
  intros Hd Ht Hdot. destruct fd as [|c fd]; cbn [frac_text app]; unfold scan_frac; cbv beta iota.
  - destruct t as [|c t]; [done|]. simpl in Hdot. rewrite (proj2 (N.eqb_neq c dot)); [done|congruence].
  - rewrite N.eqb_refl, app_comm_cons, span_digits_app by done. by rewrite bool_decide_false.
Qed.

Lemma scan_exp_text ex rest :
  exp_ok ex -> digit_stop rest -> (ex = None -> num_stop rest) ->
  scan_exp (exp_text ex ++ rest) = (exp_value ex, rest).
Proof.
  intros Hex Hr Hn. destruct ex as [[neg ed]|].
  - destruct Hex as [Hne Hed]. destruct neg; cbn -[span_digits digits_val];
      rewrite span_digits_app, bool_decide_false by done; do 2 f_equal; lia.
  - destruct rest as [|c rest]; [done|]. destruct (Hn eq_refl) as (_ & _ & He & HE). simpl.
    by rewrite (proj2 (N.eqb_neq _ _) He), (proj2 (N.eqb_neq _ _) HE).
Qed.

Lemma exp_text_stop ex rest :
  digit_stop rest -> (ex = None -> num_stop rest) ->
  digit_stop (exp_text ex ++ rest) /\ head (exp_text ex ++ rest) <> Some dot.
Proof.
  intros Hr Hn. destruct ex as [[neg ed]|]; [done|]. simpl.
  destruct rest as [|c rest]; [done|]. destruct (Hn eq_refl) as (Hd & Hdot & _). simpl. split; congruence.
Qed.

(** [scan_number] reads a number text back, up to a text that does not
    continue it. *)
Lemma scan_number_text neg idig fd ex rest :
  valid_int idig -> Forall (fun c => is_digit09 c = true) fd -> exp_ok ex ->
  digit_stop rest -> (ex = None -> num_stop rest) ->
  scan_number (number_text neg idig fd ex ++ rest) = Some (number_value neg idig fd ex, rest).
Proof.
  intros Hi Hf Hex Hr Hn. destruct (exp_text_stop ex rest Hr Hn) as [Hs Hdot].
  unfold scan_number, number_text. rewrite <- !app_assoc.
  rewrite scan_sign_text; [|destruct Hi as (Hd & d & ds & -> & _); apply digit_head; by inversion Hd].
  rewrite scan_int_text; [|done|destruct fd; [exact Hs|done]].
  rewrite scan_frac_text, scan_exp_text by done.
  unfold number_value. destruct fd, ex as [[]|]; simpl; try done; by destruct (canon _ _).
Qed.

Lemma digit_not_special c :
  is_digit09 c = true -> c <> c_minus /\ c <> dot /\ c <> c_e /\ c <> 69%N /\ c <> c_plus.
Proof.
  unfold is_digit09, c_minus, dot, c_e, c_plus. intros [H1 H2]%andb_true_iff.
  apply N.leb_le in H1, H2. lia.
Qed.

Lemma num_stop_digit rest : num_stop rest -> digit_stop rest.
Proof. destruct rest; [done|]. by intros []. Qed.

Lemma N_digits_valid n : valid_int (N_digits n).
Proof.
  destruct (N_digits_spec n) as (Hd & _ & d & ds & Hh & Hz). split; [done|].
  exists d, ds. split; [done|]. intros Hd0%Hz. subst n. change (N_digits 0) with [c_zero] in Hh. congruence.
Qed.

(** The digits of [|m|] for a nonzero [m]: a nonzero first digit. *)
Lemma N_digits_nonzero n :
  n <> 0%N -> exists d ds, N_digits n = d :: ds /\ is_digit09 d = true /\ d <> c_zero.
Proof.
  intros Hn. destruct (N_digits_spec n) as (Hd & _ & d & ds & Hh & Hz).
  exists d, ds. rewrite Hh in Hd. inversion Hd. split_and!; [done|done|]. by intros ?%Hz.
Qed.

Lemma valid_int_nonzero d ds : is_digit09 d = true -> d <> c_zero ->
  Forall (fun c => is_digit09 c = true) ds -> valid_int (d :: ds).
Proof. intros Hd Hz Hds. split; [by constructor|]. by exists d, ds. Qed.

Lemma digits_val_abs z : digits_val (N_digits (Z.to_N (Z.abs z))) = Z.abs z.
Proof. destruct (N_digits_spec (Z.to_N (Z.abs z))) as (_ & -> & _). lia. Qed.

Lemma sign_abs z : (if (z <? 0)%Z then (- Z.abs z)%Z else Z.abs z) = z.
Proof. destruct (Z.ltb_spec z 0); lia. Qed.

Lemma canon_scale_all m e k :
  float_ok m e -> canon (m * 10 ^ Z.of_nat k) (e - Z.of_nat k) = (m, e).
Proof.
  intros Hok. destruct (Z.eq_dec m 0%Z) as [->|Hm]; [|by apply canon_scale].
  unfold float_ok, canon in *. simpl in *. done.
Qed.

(** A number text with a fraction or an exponent is read as the float
    [m * 10^e] when its digits and exponent say so. *)
Lemma number_value_float neg idig fd ex m e k :
  (fd <> [] \/ ex <> None) -> float_ok m e -> neg = (m <? 0)%Z ->
  digits_val (idig ++ fd) = (Z.abs m * 10 ^ Z.of_nat k)%Z ->
  (default 0%Z (exp_value ex) - Z.of_nat (length fd))%Z = (e - Z.of_nat k)%Z ->
  number_value neg idig fd ex = JFloat m e.
Proof.
  intros Hfe Hok -> Hv He. unfold number_value. rewrite Hv.
  replace (if (m <? 0)%Z then - (Z.abs m * 10 ^ Z.of_nat k) else Z.abs m * 10 ^ Z.of_nat k)%Z
    with (m * 10 ^ Z.of_nat k)%Z
    by (destruct (Z.ltb_spec m 0); [rewrite Z.abs_neq by lia|rewrite Z.abs_eq by lia]; ring).
  assert (Hc : canon (m * 10 ^ Z.of_nat k) (default 0%Z (exp_value ex) - Z.of_nat (length fd))
               = (m, e)) by (rewrite He; by apply canon_scale_all).
  destruct fd, ex; try by rewrite Hc. destruct Hfe; congruence.
Qed.

Lemma int_repr_text z : int_repr z = number_text (z <? 0)%Z (N_digits (Z.to_N (Z.abs z))) [] None.
Proof.
  unfold int_repr, number_text. simpl. rewrite !app_nil_r.
  destruct (Z.ltb_spec z 0); simpl; do 3 f_equal; lia.
Qed.

(** [int.__repr__] is read back as the integer. *)
Lemma scan_int_repr z rest : num_stop rest -> scan_number (int_repr z ++ rest) = Some (JInt z, rest).
Proof.
  intros Hr. rewrite int_repr_text, scan_number_text; [|apply N_digits_valid|constructor|done
    |by apply num_stop_digit|done].
  unfold number_value. by rewrite app_nil_r, digits_val_abs, sign_abs.
Qed.

(** What a printed float must satisfy to be read back as [m * 10^e]:
    its digits are [|m| * 10^k] and its exponent [e - k]. *)
Definition float_body (idig fd : pystr) (ex : option (bool * pystr)) (k : nat) (m e : Z) : Prop :=
  valid_int idig /\ Forall (fun c => is_digit09 c = true) fd /\ exp_ok ex /\ (fd <> [] \/ ex <> None) /\
  digits_val (idig ++ fd) = (Z.abs m * 10 ^ Z.of_nat k)%Z /\
  (default 0%Z (exp_value ex) - Z.of_nat (length fd))%Z = (e - Z.of_nat k)%Z.

Lemma exp_repr_text x :
  exists ed, exp_repr x = exp_text (Some ((x <? 0)%Z, ed)) /\ exp_ok (Some ((x <? 0)%Z, ed)) /\
             exp_value (Some ((x <? 0)%Z, ed)) = Some x.
Proof.
  destruct (N_digits_spec (Z.to_N (Z.abs x))) as (Hd & Hv & d & ds & Hh & _).
  exists (if (length (N_digits (Z.to_N (Z.abs x))) <? 2)%nat then c_zero :: N_digits (Z.to_N (Z.abs x))
          else N_digits (Z.to_N (Z.abs x))).
  split_and!; [done| |].
  - split; destruct (_ <? 2)%nat; rewrite Hh in *; try done. by constructor.
  - simpl. f_equal. assert (Hp : digits_val (if (length (N_digits (Z.to_N (Z.abs x))) <? 2)%nat
      then c_zero :: N_digits (Z.to_N (Z.abs x)) else N_digits (Z.to_N (Z.abs x))) = Z.abs x).
    { destruct (_ <? 2)%nat; [|rewrite Hv; lia].
      change (digits_val (zeros 1 ++ N_digits (Z.to_N (Z.abs x))) = Z.abs x).
      rewrite digits_val_zeros_l, Hv. lia. }
    rewrite Hp. destruct (Z.ltb_spec x 0); lia.
Qed.

Lemma mid_split d ds p :
  (0 < p < length (d :: ds))%nat -> Forall (fun c => is_digit09 c = true) (d :: ds) -> d <> c_zero ->
  valid_int (take p (d :: ds)) /\ drop p (d :: ds) <> [].
Proof.
  intros Hp Hf Hz. destruct p as [|p]; [lia|]. inversion Hf; subst. split.
  - apply valid_int_nonzero; [done|done|]. by apply Forall_take.
  - intros Hn%(f_equal length). rewrite length_drop in Hn. simpl in *. lia.
Qed.

Lemma frac_text_cons fd : fd <> [] -> frac_text fd = dot :: fd.
Proof. by destruct fd. Qed.

Lemma valid_int_zero : valid_int [c_zero].
Proof. split; [by constructor|]. by exists c_zero, []. Qed.

Lemma Forall_zeros k : Forall (fun c => is_digit09 c = true) (zeros k).
Proof. by apply Forall_replicate. Qed.

(** The four layouts of a nonzero float: [d] the first digit of [|m|],
    [ds] the others. *)
Section float_layouts.
Context (m e : Z) (d : uchar) (ds : pystr).
Hypothesis Hd : Forall (fun c => is_digit09 c = true) (d :: ds).
Hypothesis Hd0 : d <> c_zero.
Hypothesis Hv : digits_val (d :: ds) = Z.abs m.
Let n := Z.of_nat (length (d :: ds)).

Lemma layout_exponent :
  exists idig fd ex k,
    match d :: ds with d' :: [] => [d'] | d' :: ds' => d' :: dot :: ds' | [] => [] end ++ exp_repr (n + e - 1)
    = idig ++ frac_text fd ++ exp_text ex /\ float_body idig fd ex k m e.
Proof.
  destruct (exp_repr_text (n + e - 1)) as (ed & Hed & Hok & Hval). inversion Hd; subst.
  exists [d], ds, (Some ((n + e - 1 <? 0)%Z, ed)), 0%nat. rewrite Hed. split.
  { by destruct ds. }
  split_and!; [by apply valid_int_nonzero|done|done|by right| |].
  - simpl in *. lia.
  - rewrite Hval. unfold n. simpl. lia.
Qed.

Lemma layout_small :
  (n + e <= 0)%Z ->
  exists idig fd ex k,
    c_zero :: dot :: zeros (Z.to_nat (- (n + e))) ++ d :: ds = idig ++ frac_text fd ++ exp_text ex /\
    float_body idig fd ex k m e.
Proof.
  intros He. exists [c_zero], (zeros (Z.to_nat (- (n + e))) ++ d :: ds), None, 0%nat.
  rewrite frac_text_cons by (by destruct (zeros _)). split; [by rewrite app_nil_r|].
  split_and!; [apply valid_int_zero|apply Forall_app; split; [apply Forall_zeros|done]|done|left; by destruct (zeros _)| |].
  - change ([c_zero] ++ ?l) with (zeros 1 ++ l). rewrite digits_val_zeros_l, digits_val_zeros_l, Hv. lia.
  - rewrite length_app. unfold zeros. rewrite length_replicate. unfold n in *. simpl in *. lia.
Qed.

Lemma layout_integral :
  (n <= n + e)%Z ->
  exists idig fd ex k,
    (d :: ds) ++ zeros (Z.to_nat (n + e - n)) ++ [dot; c_zero] = idig ++ frac_text fd ++ exp_text ex /\
    float_body idig fd ex k m e.
Proof.
  intros He. set (j := Z.to_nat (n + e - n)).
  exists ((d :: ds) ++ zeros j), [c_zero], None, (S j). split; [by rewrite <- app_assoc|].
  inversion Hd; subst.
  split_and!; [apply valid_int_nonzero; [done|done|apply Forall_app; split; [done|apply Forall_zeros]]
              |by constructor|done|by left| |].
  - change [c_zero] with (zeros 1). rewrite <- app_assoc. unfold zeros. rewrite <- replicate_add.
    fold (zeros (j + 1)). rewrite digits_val_zeros_r, Hv. do 3 f_equal. lia.
  - unfold j, n in *. simpl in *. lia.
Qed.

Lemma layout_middle :
  (0 < n + e < n)%Z ->
  exists idig fd ex k,
    take (Z.to_nat (n + e)) (d :: ds) ++ dot :: drop (Z.to_nat (n + e)) (d :: ds)
    = idig ++ frac_text fd ++ exp_text ex /\ float_body idig fd ex k m e.
Proof.
  intros He. set (p := Z.to_nat (n + e)).
  destruct (mid_split d ds p) as [Hi Hne]; [unfold p, n in *; lia|done|done|].
  exists (take p (d :: ds)), (drop p (d :: ds)), None, 0%nat.
  rewrite frac_text_cons by done. split; [by rewrite app_nil_r|].
  split_and!; [done|by apply Forall_drop|done|by left| |].
  - rewrite take_drop, Hv. lia.
  - rewrite length_drop. unfold p, n in *. simpl in *. lia.
Qed.
End float_layouts.

Ltac use_layout H :=
  let idig := fresh "idig" in let fd := fresh "fd" in let ex := fresh "ex" in let k := fresh "k" in
  let Heq := fresh "Heq" in let Hb := fresh "Hb" in
  destruct H as (idig & fd & ex & k & Heq & Hb); exists idig, fd, ex, k; split; [by rewrite <- Heq|exact Hb].

(** Every branch of [float_repr] writes a number text. *)
Lemma float_repr_text m e :
  float_ok m e ->
  exists idig fd ex k, float_repr m e = number_text (m <? 0)%Z idig fd ex /\ float_body idig fd ex k m e.
Proof.
  intros Hok. unfold float_repr, number_text. cbv zeta. destruct (Z.eq_dec m 0%Z) as [->|Hm].
  { assert (e = 0%Z) as -> by (unfold float_ok, canon in Hok; simpl in Hok; congruence).
    exists [c_zero], [c_zero], None, 1%nat. split; [done|].
    split_and!; [apply valid_int_zero|by constructor|done|by left|done|done]. }
  rewrite (proj2 (Z.eqb_neq _ _) Hm).
  destruct (N_digits_nonzero (Z.to_N (Z.abs m))) as (d & ds & HD & Hd & Hd0); [lia|].
  destruct (N_digits_spec (Z.to_N (Z.abs m))) as (HF & HV & _). rewrite HD in HF, HV |- *.
  assert (Hv : digits_val (d :: ds) = Z.abs m) by lia.
  destruct (_ || _) eqn:E1; [use_layout (layout_exponent m e d ds HF Hd0 Hv)|].
  apply orb_false_iff in E1 as [E1 E2]. apply Z.leb_gt in E1. apply Z.ltb_ge in E2.
  destruct (Z.leb_spec (Z.of_nat (length (d :: ds)) + e) 0); [use_layout (layout_small m e d ds HF Hd0 Hv ltac:(lia))|].
  destruct (Z.leb_spec (Z.of_nat (length (d :: ds))) (Z.of_nat (length (d :: ds)) + e)).
  - use_layout (layout_integral m e d ds HF Hd0 Hv ltac:(lia)).
  - use_layout (layout_middle m e d ds HF Hd0 Hv ltac:(lia)).
Qed.

(** [float.__repr__] is read back as the float. *)
Lemma scan_float_repr m e rest :
  float_ok m e -> num_stop rest -> scan_number (float_repr m e ++ rest) = Some (JFloat m e, rest).
Proof.
  intros Hok Hr. destruct (float_repr_text m e Hok) as (idig & fd & ex & k & -> & Hi & Hf & Hex & Hfe & Hv & He).
  rewrite scan_number_text; [|done|done|done|by apply num_stop_digit|done].
  do 2 f_equal. by eapply number_value_float.
Qed.

(** ** Reading strings *)

Lemma hex_val_digit d : (d < 16)%N -> hex_val (hex_digit d) = Some d.
Proof.
  intros Hd. unfold hex_val, hex_digit. destruct (N.ltb_spec d 10);
    repeat match goal with |- context [(?a <=? ?b)%N] => destruct (N.leb_spec a b) end;
    simpl; try (f_equal; lia); lia.
Qed.

Lemma hex4_escape c :
  (c < 32)%N -> hex4 c_zero c_zero (hex_digit (c / 16)) (hex_digit (c mod 16)) = Some c.
Proof.
  intros Hc. unfold hex4.
  rewrite !hex_val_digit by first [apply N.mod_lt; lia|apply N.Div0.div_lt_upper_bound; lia].
  simpl. unfold c_zero. f_equal. pose proof (N.div_mod c 16 ltac:(lia)). lia.
Qed.

(** [py_scanstring] decodes what [py_encode_basestring] writes for one
    character. *)
Lemma scan_string_escape c t :
  scan_string (escape_char c ++ t) = '(s, r) ← scan_string t; Some (c :: s, r).
Proof.
  unfold escape_char.
  repeat (let E := fresh in
          destruct (c =? _)%N eqn:E; [apply N.eqb_eq in E; subst c; reflexivity|apply N.eqb_neq in E]).
  destruct (N.ltb_spec c 32) as [Hc|Hc].
  - cbn [app scan_string]. rewrite hex4_escape by done. cbn.
    rewrite (proj2 (N.leb_gt 55296 c)) by lia. done.
  - cbn [app scan_string]. rewrite (proj2 (N.eqb_neq c c_quote)) by done.
    rewrite (proj2 (N.ltb_ge c 32)) by lia. by rewrite (proj2 (N.eqb_neq c c_backslash)).
Qed.

Lemma scan_string_encoded s rest : scan_string ((s ≫= escape_char) ++ c_quote :: rest) = Some (s, rest).
Proof.
  induction s as [|c s IH]; [done|].
  rewrite bind_cons, <- app_assoc, scan_string_escape, IH. done.
Qed.

(** ** The printed text of arrays and objects *)

(** The elements after the first of an array, and the members after the
    first of an object, at the indentation [lvl] of the elements. *)
Fixpoint dump_items (lvl : nat) (xs : list json) : pystr :=
  match xs with
  | [] => []
  | y :: ys => comma :: nl_indent lvl ++ dump lvl y ++ dump_items lvl ys
  end.

Definition dump_member (lvl : nat) (kv : pystr * json) : pystr :=
  encode_string kv.1 ++ [c_colon; c_space] ++ dump lvl kv.2.

Fixpoint dump_members (lvl : nat) (kvs : list (pystr * json)) : pystr :=
  match kvs with
  | [] => []
  | kv :: kvs' => comma :: nl_indent lvl ++ dump_member lvl kv ++ dump_members lvl kvs'
  end.

Lemma dump_arr lvl x xs :
  dump lvl (JArr (x :: xs)) =
  c_lbracket :: nl_indent (S lvl) ++ dump (S lvl) x ++ dump_items (S lvl) xs ++ nl_indent lvl ++ [c_rbracket].
Proof.
  cbn [dump]. do 3 f_equal. f_equal. induction xs as [|y ys IH]; cbn [dump_items]; [done|]. by rewrite IH.
Qed.

Lemma dump_obj lvl kv kvs :
  dump lvl (JObj (kv :: kvs)) =
  c_lbrace :: nl_indent (S lvl) ++ dump_member (S lvl) kv ++ dump_members (S lvl) kvs ++ nl_indent lvl ++ [c_rbrace].
Proof.
  cbn [dump]. unfold dump_member. rewrite <- !app_assoc. do 6 f_equal.
  induction kvs as [|kv' kvs IH]; cbn [dump_members]; [done|]. unfold dump_member. rewrite <- !app_assoc.
  by rewrite IH.
Qed.

(** ** The round trip *)

(** Every float of a value is in lowest terms, as [float.__repr__]
    prints the floats of the program. *)
Fixpoint json_okb (j : json) : bool :=
  match j with
  | JFloat m e => bool_decide (float_ok m e)
  | JArr l => forallb json_okb l
  | JObj l => forallb (fun kv => json_okb kv.2) l
  | _ => true
  end.

(** The fuel the reader spends on a value. *)
Fixpoint jsize (j : json) : nat :=
  match j with
  | JArr l => S (sum_list_with (fun x => S (jsize x)) l)
  | JObj l => S (sum_list_with (fun kv => S (jsize kv.2)) l)
  | _ => 1
  end.

(** The reader reads the printed value back, whatever follows it that
    does not continue a number, with any fuel from [jsize j]. *)
Definition reads_back (j : json) : Prop :=
  forall lvl n rest, (jsize j <= n)%nat -> num_stop rest -> pvalue n (dump lvl j ++ rest) = POk (j, rest).

Definition num_start (c : uchar) : Prop := c = c_minus \/ is_digit09 c = true.

Lemma json_okb_arr l : json_okb (JArr l) = true <-> Forall (fun x => json_okb x = true) l.
Proof.
  change (forallb json_okb l = true <-> Forall (fun x => json_okb x = true) l).
  induction l as [|x l IH]; [split; [constructor|done]|]. rewrite Forall_cons, <- IH. apply andb_true_iff.
Qed.

Lemma json_okb_obj l : json_okb (JObj l) = true <-> Forall (fun kv => json_okb kv.2 = true) l.
Proof.
  change (forallb (fun kv => json_okb kv.2) l = true <-> Forall (fun kv => json_okb kv.2 = true) l).
  induction l as [|x l IH]; [split; [constructor|done]|]. rewrite Forall_cons, <- IH. apply andb_true_iff.
Qed.

Lemma number_text_start neg idig fd ex :
  valid_int idig -> exists c t, number_text neg idig fd ex = c :: t /\ num_start c.
Proof.
  intros (Hd & d & ds & -> & _). destruct neg; [exists c_minus; eexists; split; [done|by left]|].
  inversion Hd; subst. eexists _, _. split; [done|by right].
Qed.

Lemma num_start_facts c :
  num_start c -> is_ws c = false /\ c <> c_lbracket /\ c <> c_rbracket /\ c <> c_lbrace /\ c <> c_quote /\
                 c <> 110%N /\ c <> 116%N /\ c <> 102%N.
Proof.
  intros [->|Hc]; [done|]. unfold is_digit09 in Hc. apply andb_true_iff in Hc as [H1 H2].
  apply N.leb_le in H1, H2. unfold is_ws, c_lbracket, c_rbracket, c_lbrace, c_quote, c_space, newline.
  repeat split; try lia. repeat (apply orb_false_iff; split); apply N.eqb_neq; lia.
Qed.

Lemma dump_head j lvl :
  json_okb j = true -> exists c t, dump lvl j = c :: t /\ is_ws c = false /\ c <> c_rbracket.
Proof.
  intros Hok. destruct j as [| [] | z | m e | s | [|x xs] | [|kv kvs]]; try by eexists _, _.
  - destruct (number_text_start (z <? 0)%Z (N_digits (Z.to_N (Z.abs z))) [] None) as (c & t & Ht & Hc);
      [apply N_digits_valid|].
    exists c, t. cbn [dump]. rewrite int_repr_text, Ht. split; [done|]. apply num_start_facts in Hc. naive_solver.
  - apply bool_decide_eq_true in Hok. destruct (float_repr_text m e Hok) as (idig & fd & ex & k & Hf & Hb).
    destruct (number_text_start (m <? 0)%Z idig fd ex) as (c & t & Ht & Hc); [apply Hb|].
    exists c, t. cbn [dump]. rewrite Hf, Ht. split; [done|]. apply num_start_facts in Hc. naive_solver.
Qed.

Lemma lit_null_eq : lit_null = [110; 117; 108; 108]%N.
Proof. reflexivity. Qed.
Lemma lit_true_eq : lit_true = [116; 114; 117; 101]%N.
Proof. reflexivity. Qed.
Lemma lit_false_eq : lit_false = [102; 97; 108; 115; 101]%N.
Proof. reflexivity. Qed.

Lemma is_prefix_head x p c t : c <> x -> is_prefix (x :: p) (c :: t) = false.
Proof. intros Hc. cbn [is_prefix]. rewrite bool_decide_false; [done|congruence]. Qed.

Lemma pvalue_ws n w s : Forall (fun c => is_ws c = true) w -> pvalue n (w ++ s) = pvalue n s.
Proof. intros Hw. destruct n as [|f]; [done|]. cbn [pvalue]. by rewrite skip_ws_app. Qed.

Lemma pvalue_scan f c t :
  num_start c -> pvalue (S f) (c :: t) = match scan_number (c :: t) with Some (j, r) => POk (j, r) | None => PErr end.
Proof.
  intros Hc. destruct (num_start_facts c Hc) as (Hws & Hlb & _ & Hlc & Hq & Hn & Ht & Hf).
  cbn [pvalue skip_ws]. rewrite Hws.
  rewrite (proj2 (N.eqb_neq _ _) Hlb), (proj2 (N.eqb_neq _ _) Hlc), (proj2 (N.eqb_neq _ _) Hq).
  by rewrite lit_null_eq, lit_true_eq, lit_false_eq, !is_prefix_head.
Qed.

Lemma pvalue_number f s rest :
  (exists c t, s = c :: t /\ num_start c) ->
  pvalue (S f) (s ++ rest) = match scan_number (s ++ rest) with Some (j, r) => POk (j, r) | None => PErr end.
Proof. intros (c & t & -> & Hc). by apply pvalue_scan. Qed.

Lemma num_stop_sep c t : c = comma \/ c = newline -> num_stop (c :: t).
Proof. intros [-> | ->]; repeat split; cbv; congruence. Qed.

Lemma int_repr_start z : exists c t, int_repr z = c :: t /\ num_start c.
Proof. rewrite int_repr_text. apply number_text_start, N_digits_valid. Qed.

Lemma float_repr_start m e : float_ok m e -> exists c t, float_repr m e = c :: t /\ num_start c.
Proof.
  intros Hok. destruct (float_repr_text m e Hok) as (idig & fd & ex & k & -> & Hb).
  apply number_text_start, Hb.
Qed.

Lemma reads_back_int z : reads_back (JInt z).
Proof.
  intros lvl [|f] rest Hn Hr; [simpl in Hn; lia|]. cbn [dump].
  by rewrite pvalue_number, scan_int_repr by (done || apply int_repr_start).
Qed.

Lemma reads_back_float m e : float_ok m e -> reads_back (JFloat m e).
Proof.
  intros Hok lvl [|f] rest Hn Hr; [simpl in Hn; lia|]. cbn [dump].
  by rewrite pvalue_number, scan_float_repr by (done || by apply float_repr_start).
Qed.

Lemma reads_back_str s : reads_back (JStr s).
Proof.
  intros lvl [|f] rest Hn Hr; [simpl in Hn; lia|]. cbn [dump]. unfold encode_string.
  rewrite <- app_comm_cons, <- app_assoc. cbn [app pvalue]. rewrite skip_ws_nows by done.
  change (c_quote =? c_lbracket)%N with false. change (c_quote =? c_lbrace)%N with false.
  rewrite N.eqb_refl. by rewrite scan_string_encoded.
Qed.

Lemma reads_back_literal j : j = JNull \/ j = JBool true \/ j = JBool false \/ j = JArr [] \/ j = JObj [] ->
  reads_back j.
Proof. intros Hj lvl [|f] rest Hn Hr; [simpl in Hn; destruct Hj as [->|[->|[->|[->| ->]]]]; simpl in Hn; lia|].
  destruct Hj as [->|[->|[->|[->| ->]]]]; reflexivity.
Qed.

Lemma num_stop_nl lvl t : num_stop (nl_indent lvl ++ t).
Proof. apply num_stop_sep. by right. Qed.

Lemma skip_ws_nl lvl c t : is_ws c = false -> skip_ws (nl_indent lvl ++ c :: t) = c :: t.
Proof. intros Hc. rewrite skip_ws_app by apply nl_indent_ws. by apply skip_ws_nows. Qed.

(** [JSONArray] reads the elements after the first. *)
Lemma pelems_dump lvl xs : forall x acc w n rest,
  Forall reads_back (x :: xs) -> Forall (fun c => is_ws c = true) w ->
  (sum_list_with (fun y => S (jsize y)) (x :: xs) <= n)%nat ->
  pelems n (w ++ dump (S lvl) x ++ dump_items (S lvl) xs ++ nl_indent lvl ++ c_rbracket :: rest) acc
  = POk (JArr (acc ++ x :: xs), rest).
Proof.
  induction xs as [|y ys IH]; intros x acc w [|f] rest Hall Hw Hn; simpl in Hn; try lia;
    apply Forall_cons in Hall as [Hx Hys]; cbn [pelems]; rewrite pvalue_ws by done.
  - cbn [dump_items app]. rewrite Hx by (lia || apply num_stop_nl).
    rewrite skip_ws_nl by done. reflexivity.
  - cbn [dump_items]. rewrite Hx by (lia || apply num_stop_sep; by left).
    rewrite <- app_comm_cons, skip_ws_nows by done. cbv beta iota. rewrite N.eqb_refl.
    rewrite <- !app_assoc, IH by (done || apply nl_indent_ws || (simpl; lia)).
    by rewrite <- app_assoc.
Qed.

(** [JSONObject] reads the members after the first, from the text after
    the opening quote of a key. *)
Lemma pmembers_dump lvl kvs : forall k v acc n rest,
  Forall (fun kv => reads_back kv.2) ((k, v) :: kvs) ->
  (sum_list_with (fun kv => S (jsize kv.2)) ((k, v) :: kvs) <= n)%nat ->
  pmembers n ((k ≫= escape_char) ++ c_quote :: c_colon :: c_space :: dump (S lvl) v ++
              dump_members (S lvl) kvs ++ nl_indent lvl ++ c_rbrace :: rest) acc
  = POk (JObj (acc ++ (k, v) :: kvs), rest).
Proof.
  induction kvs as [|[k' v'] kvs IH]; intros k v acc [|f] rest Hall Hn; simpl in Hn; try lia;
    apply Forall_cons in Hall as [Hv Hkvs]; cbn [snd] in Hv; cbn [pmembers]; rewrite scan_string_encoded;
    rewrite skip_ws_nows, N.eqb_refl by done; change (c_space :: ?s) with ([c_space] ++ s);
    rewrite pvalue_ws by (by constructor).
  - cbn [dump_members app]. rewrite Hv by (lia || apply num_stop_nl).
    rewrite skip_ws_nl by done. reflexivity.
  - cbn [dump_members]. rewrite Hv by (lia || apply num_stop_sep; by left).
    rewrite <- app_comm_cons, skip_ws_nows by done. cbv beta iota. rewrite N.eqb_refl.
    unfold dump_member, encode_string.
    rewrite <- !app_assoc. cbn [app]. rewrite skip_ws_nl, N.eqb_refl by done.
    cbn [fst snd]. rewrite <- app_assoc. cbn [app]. rewrite IH by (done || (simpl; lia)). by rewrite <- app_assoc.
Qed.

Lemma Forall_mp {A} (P Q : A -> Prop) l : Forall (fun x => P x -> Q x) l -> Forall P l -> Forall Q l.
Proof. induction 1; inversion 1; constructor; auto. Qed.

(** Every printed value whose floats are in lowest terms is read back. *)
Lemma dump_reads_back j : json_okb j = true -> reads_back j.
Proof.
  induction j as [| [] | z | m e | s | l IH | l IH] using json_ind; intros Hok;
    try by (apply reads_back_literal; naive_solver).
  - apply reads_back_int.
  - apply reads_back_float. by apply bool_decide_eq_true in Hok.
  - apply reads_back_str.
  - destruct l as [|x xs]; [apply reads_back_literal; naive_solver|].
    apply json_okb_arr in Hok. pose proof (Forall_mp _ _ _ IH Hok) as Hall.
    intros lvl [|f] rest Hn Hr; [simpl in Hn; lia|].
    destruct (dump_head x (S lvl)) as (c & t & Hc & Hws & Hrb); [by inversion Hok|].
    rewrite dump_arr, <- app_comm_cons, <- !app_assoc. cbn [pvalue]. rewrite skip_ws_nows by done. cbv beta iota.
    rewrite N.eqb_refl, Hc, <- app_comm_cons, skip_ws_nl by done. cbv beta iota.
    rewrite (proj2 (N.eqb_neq c c_rbracket) Hrb), app_comm_cons, <- Hc.
    apply (pelems_dump lvl xs x [] [] f rest); [done|done|simpl in *; lia].
  - destruct l as [|[k v] kvs]; [apply reads_back_literal; naive_solver|].
    apply json_okb_obj in Hok. pose proof (Forall_mp _ _ _ IH Hok) as Hall.
    intros lvl [|f] rest Hn Hr; [simpl in Hn; lia|].
    rewrite dump_obj, <- app_comm_cons, <- !app_assoc. cbn [pvalue]. rewrite skip_ws_nows by done. cbv beta iota.
    change (c_lbrace =? c_lbracket)%N with false. rewrite N.eqb_refl.
    unfold dump_member, encode_string. cbn [fst snd]. rewrite <- !app_assoc. cbn [app].
    rewrite skip_ws_nl by done. cbv beta iota.
    change (c_quote =? c_rbrace)%N with false. rewrite N.eqb_refl.
    rewrite <- app_assoc. apply (pmembers_dump lvl kvs k v [] f rest); [done|simpl in *; lia].
Qed.

Lemma length_nl_indent lvl : length (nl_indent lvl) = S (2 * lvl).
Proof. unfold nl_indent. by rewrite length_cons, length_replicate. Qed.

Lemma dump_items_len lvl xs :
  Forall (fun y => jsize y <= length (dump lvl y))%nat xs ->
  (sum_list_with (fun y => S (jsize y)) xs <= length (dump_items lvl xs))%nat.
Proof.
  induction 1; cbn [dump_items sum_list_with]; [done|].
  rewrite length_cons, !length_app, length_nl_indent. simpl. lia.
Qed.

Lemma dump_members_len lvl kvs :
  Forall (fun kv => jsize kv.2 <= length (dump lvl kv.2))%nat kvs ->
  (sum_list_with (fun kv => S (jsize kv.2)) kvs <= length (dump_members lvl kvs))%nat.
Proof.
  induction 1; cbn [dump_members sum_list_with]; [done|].
  unfold dump_member. rewrite length_cons, !length_app, length_nl_indent. simpl. lia.
Qed.

(** The reader's fuel for a printed value is at most its length. *)
Lemma jsize_le j : json_okb j = true -> forall lvl, (jsize j <= length (dump lvl j))%nat.
Proof.
  induction j as [| | | | | l IH | l IH] using json_ind; intros Hok lvl;
    try (destruct (dump_head _ lvl Hok) as (c & t & -> & _); simpl; lia).
  - destruct l as [|x xs]; [simpl; lia|]. apply json_okb_arr in Hok.
    pose proof (Forall_mp _ _ _ IH Hok) as Hall. inversion Hall as [|? ? Hx Hxs]; subst.
    pose proof (dump_items_len (S lvl) xs (Forall_impl _ _ _ Hxs (fun y Hy => Hy (S lvl)))).
    rewrite dump_arr, length_cons, !length_app, !length_nl_indent. specialize (Hx (S lvl)). simpl. lia.
  - destruct l as [|[k v] kvs]; [simpl; lia|]. apply json_okb_obj in Hok.
    pose proof (Forall_mp _ _ _ IH Hok) as Hall. inversion Hall as [|? ? Hv Hkvs]; subst.
    pose proof (dump_members_len (S lvl) kvs (Forall_impl _ _ _ Hkvs (fun kv Hy => Hy (S lvl)))).
    rewrite dump_obj, length_cons, !length_app, !length_nl_indent. unfold dump_member.
    rewrite !length_app. specialize (Hv (S lvl)). simpl in *. lia.
Qed.

(** [json.loads] reads back what [json.dump] writes: every JSON value
    whose floats are in lowest terms is [json_loads (json_dumps j)]. *)
Theorem json_loads_dumps j : json_okb j = true -> json_loads (json_dumps j) = Some j.
Proof.
  intros Hok. unfold json_loads, json_dumps. pose proof (jsize_le j Hok 0) as Hle.
  pose proof (dump_reads_back j Hok 0 (2 * length (dump 0 j) + 2) [] ltac:(lia) I) as H.
  rewrite app_nil_r in H. by rewrite H.
Qed.

(** ** Termination of the reader *)

Lemma skip_ws_len s : (length (skip_ws s) <= length s)%nat.
Proof. induction s as [|c s IH]; simpl; [lia|]. destruct (is_ws c); simpl; lia. Qed.

Lemma span_digits_len s d r : span_digits s = (d, r) -> length s = (length d + length r)%nat.
Proof.
  revert d r. induction s as [|c s IH]; intros d r H; simpl in H; [by simplify_eq|].
  destruct (is_digit09 c); [|by simplify_eq]. destruct (span_digits s) eqn:E. simplify_eq.
  simpl. by rewrite (IH _ _ eq_refl).
Qed.

Ltac span_len :=
  repeat match goal with
  | H : span_digits _ = (_, _) |- _ => apply span_digits_len in H
  end.

Lemma scan_sign_len s neg s1 : scan_sign s = (neg, s1) -> (length s1 <= length s)%nat.
Proof. unfold scan_sign. intros H. repeat (case_match; simplify_eq/=); lia. Qed.

Lemma scan_int_len s1 i s2 : scan_int s1 = Some (i, s2) -> (length s2 < length s1)%nat.
Proof. unfold scan_int. intros H. repeat (case_match; simplify_eq/=); span_len; simpl; lia. Qed.

Lemma scan_frac_len s2 f s3 : scan_frac s2 = (f, s3) -> (length s3 <= length s2)%nat.
Proof. unfold scan_frac. intros H. repeat (case_match; simplify_eq/=); span_len; simpl; lia. Qed.

Lemma scan_exp_len s3 x s4 : scan_exp s3 = (x, s4) -> (length s4 <= length s3)%nat.
Proof. unfold scan_exp. intros H. repeat (case_match; simplify_eq/=); span_len; simpl in *; lia. Qed.

Lemma scan_number_len s j r : scan_number s = Some (j, r) -> (length r < length s)%nat.
Proof.
  unfold scan_number. intros H.
  destruct (scan_sign s) as [neg s1] eqn:E1. destruct (scan_int s1) as [[i s2]|] eqn:E2; [|done].
  destruct (scan_frac s2) as [f s3] eqn:E3. destruct (scan_exp s3) as [x s4] eqn:E4.
  apply scan_sign_len in E1. apply scan_int_len in E2. apply scan_frac_len in E3. apply scan_exp_len in E4.
  repeat (case_match; simplify_eq/=); lia.
Qed.

Lemma scan_string_len s t r : scan_string s = Some (t, r) -> (length r < length s)%nat.
Proof.
  remember (length s) as n eqn:Hn. revert s t r Hn.
  induction n as [n IH] using (well_founded_induction lt_wf). intros s t r -> H.
  destruct s as [|c s]; [done|]. cbn [scan_string] in H. unfold mbind, option_bind in H.
  repeat (case_match; simplify_eq).
  all: try match goal with
       | H : scan_string ?x = Some (_, _) |- _ => apply (IH (length x)) in H; [|simpl; lia|done]
       end.
  all: simpl in *; lia.
Qed.

Lemma skip_ws_len_eq x y : skip_ws x = y -> (length y <= length x)%nat.
Proof. intros <-. apply skip_ws_len. Qed.

(** Turn what the reader's sub-parsers returned into length facts. *)
Ltac reader_len :=
  repeat match goal with
  | H : skip_ws _ = _ |- _ => apply skip_ws_len_eq in H
  | H : scan_string _ = Some (_, _) |- _ => apply scan_string_len in H
  | H : scan_number _ = Some (_, _) |- _ => apply scan_number_len in H
  | |- context [skip_ws ?x] => lazymatch goal with
                               | _ : (length (skip_ws x) <= length x)%nat |- _ => fail
                               | _ => pose proof (skip_ws_len x)
                               end
  end; rewrite ?length_drop; simpl in *.

(** What the reader leaves is shorter than what it read. *)
Lemma reader_shorter n :
  (forall s j r, pvalue n s = POk (j, r) -> (length r < length s)%nat) /\
  (forall s acc j r, pelems n s acc = POk (j, r) -> (length r < length s)%nat) /\
  (forall s acc j r, pmembers n s acc = POk (j, r) -> (length r < length s)%nat).
Proof.
  induction n as [|f (IHv & IHe & IHm)]; [done|].
  split_and!; intros *; cbn [pvalue pelems pmembers]; intros H; repeat (case_match; simplify_eq).
  all: repeat match goal with
       | H : pvalue _ _ = POk (_, _) |- _ => apply IHv in H
       | H : pelems _ _ _ = POk (_, _) |- _ => apply IHe in H
       | H : pmembers _ _ _ = POk (_, _) |- _ => apply IHm in H
       end; reader_len; lia.
Qed.

(** Fuel twice the length of the text is enough for the reader. *)
Lemma reader_fuel n :
  (forall s, (2 * length s + 1 <= n)%nat -> pvalue n s <> PFuel) /\
  (forall s acc, (2 * length s + 2 <= n)%nat -> pelems n s acc <> PFuel) /\
  (forall s acc, (2 * length s + 2 <= n)%nat -> pmembers n s acc <> PFuel).
Proof.
  induction n as [|f (IHv & IHe & IHm)]; [split_and!; intros; lia|].
  destruct (reader_shorter f) as (Sv & Se & Sm).
  split_and!; intros * Hn; cbn [pvalue pelems pmembers]; repeat (case_match; simplify_eq); try discriminate.
  all: repeat match goal with
       | H : pvalue _ _ = POk (_, _) |- _ => apply Sv in H
       | H : pelems _ _ _ = POk (_, _) |- _ => apply Se in H
       | H : pmembers _ _ _ = POk (_, _) |- _ => apply Sm in H
       end.
  all: first [ apply IHv | apply IHe | apply IHm
             | match goal with
               | H : pvalue _ _ = PFuel |- _ => exfalso; revert H; apply IHv
               | H : pelems _ _ _ = PFuel |- _ => exfalso; revert H; apply IHe
               | H : pmembers _ _ _ = PFuel |- _ => exfalso; revert H; apply IHm
               end ]; reader_len; lia.
Qed.

(** [json_loads] never runs out of fuel: on
    every text its reader ends with a value or a syntax error, so
    [json_loads s = None] means that [s] is not one JSON value. *)
Theorem json_loads_fuel s : pvalue (2 * length s + 2) s <> PFuel.
Proof. apply reader_fuel. lia. Qed.

(** ** The characters of the text *)

(** A Python [str]: code points below [0x110000]. *)
Definition py_text (s : pystr) : Prop := Forall (fun c => (c < 1114112)%N) s.

(** Every string and key of a value is a Python [str]. *)
Fixpoint json_strs_ok (j : json) : bool :=
  match j with
  | JStr s => bool_decide (py_text s)
  | JArr l => forallb json_strs_ok l
  | JObj l => forallb (fun kv => bool_decide (py_text kv.1) && json_strs_ok kv.2) l
  | _ => true
  end.

Lemma py_text_digits d : Forall (fun c => is_digit09 c = true) d -> py_text d.
Proof.
  intros Hd. eapply Forall_impl; [exact Hd|]. intros c Hc. unfold is_digit09 in Hc.
  apply andb_true_iff in Hc as [_ Hc]. apply N.leb_le in Hc. lia.
Qed.

Lemma py_text_app a b : py_text a -> py_text b -> py_text (a ++ b).
Proof. intros. by apply Forall_app. Qed.

Lemma py_text_number neg idig fd ex :
  valid_int idig -> Forall (fun c => is_digit09 c = true) fd -> exp_ok ex ->
  py_text (number_text neg idig fd ex).
Proof.
  intros [Hi _] Hf Hex. unfold number_text.
  apply py_text_app; [destruct neg; repeat constructor|].
  apply py_text_app; [by apply py_text_digits|]. apply py_text_app.
  - destruct fd; [constructor|]. constructor; [done|]. by apply py_text_digits.
  - destruct ex as [[[] ed]|]; [..|constructor]; destruct Hex as [_ Hed];
      do 2 (constructor; [done|]); by apply py_text_digits.
Qed.

Lemma escape_char_py c : (c < 1114112)%N -> py_text (escape_char c).
Proof.
  intros Hc. unfold escape_char.
  repeat (case_match; [by repeat constructor|]).
  destruct (N.ltb_spec c 32); [|by repeat constructor].
  assert (H16 : (c / 16 < 16)%N) by (apply N.Div0.div_lt_upper_bound; lia).
  pose proof (N.mod_lt c 16 ltac:(lia)). unfold hex_digit. apply Forall_forall. intros x Hx.
  repeat (apply elem_of_cons in Hx as [->|Hx]; [repeat case_match; unfold c_backslash, c_zero; lia|]).
  by apply elem_of_nil in Hx.
Qed.

Lemma forallb_Forall {A} (f : A -> bool) l : forallb f l = true <-> Forall (fun x => f x = true) l.
Proof.
  induction l as [|x l IH]; [split; [constructor|done]|].
  cbn [forallb]. rewrite andb_true_iff, Forall_cons, IH. done.
Qed.

Lemma py_text_ascii s : bool_decide (py_text s) = true -> py_text s.
Proof. apply bool_decide_eq_true. Qed.

Lemma py_text_nl lvl : py_text (nl_indent lvl).
Proof. constructor; [done|]. by apply Forall_replicate. Qed.

Lemma py_text_encode s : py_text s -> py_text (encode_string s).
Proof.
  intros Hs. unfold encode_string. constructor; [done|]. apply py_text_app; [|by repeat constructor].
  induction Hs as [|c s Hc _ IH]; [constructor|]. rewrite bind_cons. apply py_text_app; [|done].
  by apply escape_char_py.
Qed.

#[local] Hint Resolve py_text_app py_text_nl py_text_encode : core.

Lemma py_text_dump_items lvl xs :
  Forall (fun y => forall lvl, py_text (dump lvl y)) xs -> py_text (dump_items lvl xs).
Proof.
  induction 1; cbn [dump_items]; [constructor|]. constructor; [done|].
  apply py_text_app; [apply py_text_nl|]. auto.
Qed.

Lemma py_text_dump_members lvl kvs :
  Forall (fun kv => py_text kv.1 /\ forall lvl, py_text (dump lvl kv.2)) kvs -> py_text (dump_members lvl kvs).
Proof.
  induction 1 as [|kv kvs [Hk Hv] _ IH]; cbn [dump_members]; [constructor|]. constructor; [done|].
  apply py_text_app; [apply py_text_nl|]. unfold dump_member.
  repeat apply py_text_app; auto; by repeat constructor.
Qed.

(** The text [json.dump] writes is a Python [str] when the strings of
    the value are. *)
Lemma dump_py_text j : json_okb j = true -> json_strs_ok j = true -> forall lvl, py_text (dump lvl j).
Proof.
  induction j as [| [] | z | m e | s | l IH | l IH] using json_ind; intros Hok Hs lvl.
  1-3: by apply py_text_ascii; vm_compute.
  - cbn [dump]. rewrite int_repr_text. apply py_text_number; [apply N_digits_valid|constructor|done].
  - apply bool_decide_eq_true in Hok. destruct (float_repr_text m e Hok) as (? & ? & ? & ? & Hf & Hb).
    cbn [dump]. rewrite Hf. apply py_text_number; apply Hb.
  - cbn [dump]. apply py_text_encode. by apply bool_decide_eq_true in Hs.
  - destruct l as [|x xs]; [by apply py_text_ascii; vm_compute|]. apply json_okb_arr in Hok.
    assert (Hall : Forall (fun y => forall lvl, py_text (dump lvl y)) (x :: xs)).
    { apply Forall_forall. intros y Hy. rewrite Forall_forall in IH, Hok. apply IH; [done|apply Hok, Hy|].
      cbn [json_strs_ok] in Hs. apply forallb_Forall in Hs. rewrite Forall_forall in Hs. by apply Hs. }
    rewrite dump_arr. inversion Hall as [|? ? Hx Hxs]; subst. constructor; [done|].
    repeat apply py_text_app; auto using py_text_dump_items; by repeat constructor.
  - destruct l as [|[k v] kvs]; [by apply py_text_ascii; vm_compute|]. apply json_okb_obj in Hok.
    cbn [json_strs_ok] in Hs. apply forallb_Forall in Hs.
    assert (Hall : Forall (fun kv => py_text kv.1 /\ forall lvl, py_text (dump lvl kv.2)) ((k, v) :: kvs)).
    { rewrite Forall_forall in IH, Hok, Hs |- *. intros kv Hkv. specialize (Hs kv Hkv).
      apply andb_true_iff in Hs as [Hk Hv]. split; [by apply bool_decide_eq_true in Hk|].
      apply IH; [done|apply Hok, Hkv|done]. }
    rewrite dump_obj. inversion Hall as [|? ? [Hk Hv] Hkvs]; subst. constructor; [done|].
    unfold dump_member. repeat apply py_text_app; auto using py_text_dump_members; by repeat constructor.
Qed.
