(* ===== verification/Data.v ===== *)
(** * The data model of [InvoiceParser]: [self.data]

    [InvoiceParser.__init__] ([src/pdf_parser.py], lines 13-22) creates
    [self.data]: three dicts of strings for the header, the list
    [line_items], the dict [totals] and the timestamp [parsed_at], taken
    from the clock when the parser object is built.  A line item is a dict
    whose keys depend on its ['type']; it is modelled as a tagged union
    with one constructor per type, whose arguments are the values of the
    dict in the order of its keys. *)

From S2P Require Import Prelude Unicode Number Dict.

(** The dict of a line item, by its ['type'] key. *)
Inductive line_item :=
(** lines 103-112: [description], [from_date], [to_date], [quantity], [unit]
    ['м³'], [price_per_unit], [total_amount] *)
| Storage (description from_date to_date : pystr) (quantity : Q) (price_per_unit total_amount : Q)
(** lines 122-129: [description], [quantity], [unit] ['шт.'],
    [price_per_unit], [total_amount] *)
| Reception (quantity : Z) (price_per_unit total_amount : Q)
(** lines 135-142: [description] ['Отгрузка FBO n'], [fbo_number], [date],
    [total_amount] the [int] [0] *)
| Shipment (fbo_number date : pystr)
(** lines 148-155: [description] ['Приемка n'], [reception_number], [date],
    [total_amount] the [int] [0] *)
| ReceptionOperation (reception_number date : pystr)
(** lines 199-212: [row_number], [description], [quantity], [unit],
    [price_per_unit], [total_amount], then ['type'] ['table_item'] *)
| TableItem (row_number : Z) (description : pystr) (quantity : pynum) (unit : pystr)
    (price_per_unit total_amount : pynum).

(** [item['total_amount']] *)
Definition item_total (it : line_item) : pynum :=
  match it with
  | Storage _ _ _ _ _ t => PyFloat t
  | Reception _ _ t => PyFloat t
  | Shipment _ _ => PyInt 0
  | ReceptionOperation _ _ => PyInt 0
  | TableItem _ _ _ _ _ t => t
  end.

Definition is_table_item (it : line_item) : bool :=
  match it with TableItem _ _ _ _ _ _ => true | _ => false end.

(** [self.data] *)
Record invoice_data := {
  invoice_info : pydict pystr;
  company_info : pydict pystr;
  customer_info : pydict pystr;
  line_items : list line_item;
  totals : pydict pynum;
  parsed_at : pystr
}.

(** [InvoiceParser.__init__]: empty dicts and list, and the ISO time
    [now] read from the clock. *)
Definition init_data (now : pystr) : invoice_data := {|
  invoice_info := []; company_info := []; customer_info := [];
  line_items := []; totals := []; parsed_at := now |}.

(** Field updates of [self.data]. *)
Definition set_invoice_info (f : pydict pystr -> pydict pystr) (d : invoice_data) : invoice_data :=
  {| invoice_info := f (invoice_info d); company_info := company_info d;
     customer_info := customer_info d; line_items := line_items d;
     totals := totals d; parsed_at := parsed_at d |}.

Definition set_company_info (f : pydict pystr -> pydict pystr) (d : invoice_data) : invoice_data :=
  {| invoice_info := invoice_info d; company_info := f (company_info d);
     customer_info := customer_info d; line_items := line_items d;
     totals := totals d; parsed_at := parsed_at d |}.

Definition set_customer_info (f : pydict pystr -> pydict pystr) (d : invoice_data) : invoice_data :=
  {| invoice_info := invoice_info d; company_info := company_info d;
     customer_info := f (customer_info d); line_items := line_items d;
     totals := totals d; parsed_at := parsed_at d |}.

Definition set_totals (f : pydict pynum -> pydict pynum) (d : invoice_data) : invoice_data :=
  {| invoice_info := invoice_info d; company_info := company_info d;
     customer_info := customer_info d; line_items := line_items d;
     totals := f (totals d); parsed_at := parsed_at d |}.

(** [self.data['line_items'].append(item)] *)
Definition append_item (it : line_item) (d : invoice_data) : invoice_data :=
  {| invoice_info := invoice_info d; company_info := company_info d;
     customer_info := customer_info d; line_items := line_items d ++ [it];
     totals := totals d; parsed_at := parsed_at d |}.

(** Several appends. *)
Definition append_items (new : list line_item) (d : invoice_data) : invoice_data :=
  {| invoice_info := invoice_info d; company_info := company_info d;
     customer_info := customer_info d; line_items := line_items d ++ new;
     totals := totals d; parsed_at := parsed_at d |}.

(** [d'] is [d] with at most [k] items appended and nothing else changed. *)
Definition grows (k : nat) (d d' : invoice_data) : Prop :=
  exists new, d' = append_items new d /\ length new <= k.

Lemma grows_nil k d : grows k d d.
Proof. exists []. destruct d. unfold append_items. simpl. rewrite app_nil_r. split; [done|lia]. Qed.

Lemma grows_one it d : grows 1 d (append_item it d).
Proof. by exists [it]. Qed.

Lemma grows_trans n m d1 d2 d3 : grows n d1 d2 -> grows m d2 d3 -> grows (n + m) d1 d3.
Proof.
  intros (n1 & -> & H1) (n2 & -> & H2). exists (n1 ++ n2). unfold append_items. simpl.
  rewrite length_app, app_assoc. split; [done|lia].
Qed.

Lemma grows_mono n m d1 d2 : n <= m -> grows n d1 d2 -> grows m d1 d2.
Proof. intros ? (new & -> & ?). exists new. split; [done|lia]. Qed.

#[export] Hint Resolve grows_nil grows_one : pyparse.

(** The keys of the dicts, as the source spells them. *)
Definition k_number := u "number".
Definition k_date := u "date".
Definition k_name := u "name".
Definition k_inn := u "inn".
Definition k_address := u "address".
Definition k_phone := u "phone".
Definition k_total_amount := u "total_amount".
Definition k_vat_amount := u "vat_amount".
Definition k_total_items := u "total_items".
Definition k_total_sum := u "total_sum".

(** Decide the tests between the constant keys in a goal. *)
Ltac key_dec :=
  repeat match goal with
  | |- context [bool_decide (?a = ?a)] => rewrite (bool_decide_eq_true_2 (a = a)) by done
  | |- context [bool_decide (?a = ?b)] => rewrite (bool_decide_eq_false_2 (a = b)) by (by vm_compute)
  end.

(** [d'] is [d] with items appended, each of which has [P], and nothing
    else changed. *)
Definition appends (P : line_item -> Prop) (d d' : invoice_data) : Prop :=
  exists new, d' = append_items new d /\ Forall P new.

Lemma appends_refl P d : appends P d d.
Proof. exists []. split; [|done]. destruct d. unfold append_items. simpl. by rewrite app_nil_r. Qed.

Lemma appends_one (P : line_item -> Prop) it d : P it -> appends P d (append_item it d).
Proof. intros. exists [it]. split; [done|]. by constructor. Qed.

Lemma appends_trans P d1 d2 d3 : appends P d1 d2 -> appends P d2 d3 -> appends P d1 d3.
Proof.
  intros (n1 & -> & H1) (n2 & -> & H2). exists (n1 ++ n2). unfold append_items. simpl.
  rewrite app_assoc. split; [done|]. by apply Forall_app.
Qed.

(** A loop whose iterations append items with [P] appends items with [P]. *)
Lemma pfor_appends {A} P (xs : list A) (body : A -> PyM invoice_data unit) s :
  (forall x s, appends P s (body x s).2) -> appends P s (pfor xs body s).2.
Proof.
  intros Hb. apply (pfor_graded (fun _ => appends P)); eauto using appends_refl, appends_trans.
Qed.

#[export] Hint Resolve appends_refl : pyparse.
#[export] Hint Extern 1 (appends _ _ (append_item _ _)) => apply appends_one; done : pyparse.

(** ** Computations that do not read the items

    [frame m]: [m] returns the same outcome from every [self.data] and
    appends the same items to it.  The scans of the parser have this
    property, which is why a second [parse()] on the same object repeats
    the items of the first. *)
Definition frame {A} (m : PyM invoice_data A) : Prop :=
  exists r new, forall d, (m d).1 = r /\ line_items (m d).2 = line_items d ++ new.

Lemma frame_ret {A} (a : A) : frame (pret a).
Proof. exists (inr a), []. intros d. by rewrite app_nil_r. Qed.

Lemma frame_raise {A} e : frame (A:=A) (praise e).
Proof. exists (inl e), []. intros d. by rewrite app_nil_r. Qed.

Lemma frame_modify f new : (forall d, line_items (f d) = line_items d ++ new) -> frame (pmodify f).
Proof. intros Hf. exists (inr tt), new. intros d. split; [done|]. apply Hf. Qed.

Lemma frame_bind {A B} (m : PyM invoice_data A) (k : A -> PyM invoice_data B) :
  frame m -> (forall a, frame (k a)) -> frame (x ← m; k x).
Proof.
  intros (r & new & Hm) Hk. destruct r as [e|a].
  - exists (inl e), new. intros d. destruct (Hm d) as [H1 H2]. pym_unfold.
    destruct (m d) as [r s]. simpl in *. by subst.
  - destruct (Hk a) as (r' & new' & Hk'). exists r', (new ++ new'). intros d.
    destruct (Hm d) as [H1 H2]. pym_unfold. destruct (m d) as [r s]. simpl in *. subst.
    destruct (Hk' s) as [-> ->]. by rewrite H2, app_assoc.
Qed.

Lemma frame_ptry {A} c (m : PyM invoice_data A) h :
  frame m -> (forall e, frame (h e)) -> frame (ptry c m h).
Proof.
  intros (r & new & Hm) Hh. destruct r as [e|a].
  - destruct (c e) eqn:Ec.
    + destruct (Hh e) as (r' & new' & Hh'). exists r', (new ++ new'). intros d.
      destruct (Hm d) as [H1 H2]. unfold ptry. destruct (m d) as [r s]. simpl in *. subst.
      rewrite Ec. destruct (Hh' s) as [-> ->]. by rewrite H2, app_assoc.
    + exists (inl e), new. intros d. destruct (Hm d) as [H1 H2]. unfold ptry.
      destruct (m d) as [r s]. simpl in *. subst. by rewrite Ec.
  - exists (inr a), new. intros d. destruct (Hm d) as [H1 H2]. unfold ptry.
    destruct (m d) as [r s]. simpl in *. by subst.
Qed.

Lemma frame_pfor {X} (xs : list X) (body : X -> PyM invoice_data unit) :
  (forall x, frame (body x)) -> frame (pfor xs body).
Proof.
  intros Hb. induction xs as [|x xs IH]; simpl; [apply frame_ret|]. by apply frame_bind.
Qed.

Lemma frame_pfold {A X} (f : A -> X -> PyM invoice_data A) xs :
  (forall a x, frame (f a x)) -> forall a, frame (pfold f xs a).
Proof.
  intros Hf. induction xs as [|x xs IH]; intros a; simpl; [apply frame_ret|]. by apply frame_bind.
Qed.

Lemma frame_append it : frame (pmodify (append_item it)).
Proof. by apply (frame_modify _ [it]). Qed.

Lemma frame_set_totals f : frame (pmodify (set_totals f)).
Proof. apply (frame_modify _ []). intros. by rewrite app_nil_r. Qed.

(** Decompose a computation into the frame lemmas. *)
Ltac frame_tac :=
  repeat first
    [ apply frame_ret | apply frame_raise | apply frame_append | apply frame_set_totals
    | apply frame_bind; [|intros ?] | apply frame_ptry; [|intros ?] | case_match ].

(** [m] appends the same items to every [self.data], whatever it returns. *)
Definition frame_items {A} (m : PyM invoice_data A) : Prop :=
  exists new, forall d, line_items (m d).2 = line_items d ++ new.

Lemma frame_items_pget : frame_items pget.
Proof. exists []. intros d. by rewrite app_nil_r. Qed.

Lemma frame_items_bind {A B} (m : PyM invoice_data A) (k : A -> PyM invoice_data B) :
  frame m -> (forall a, frame_items (k a)) -> frame_items (x ← m; k x).
Proof.
  intros (r & new & Hm) Hk. destruct r as [e|a].
  - exists new. intros d. destruct (Hm d) as [H1 H2]. pym_unfold.
    destruct (m d) as [r s]. simpl in *. by subst.
  - destruct (Hk a) as (new' & Hk'). exists (new ++ new'). intros d.
    destruct (Hm d) as [H1 H2]. pym_unfold. destruct (m d) as [r s]. simpl in *. subst.
    by rewrite Hk', H2, app_assoc.
Qed.
