(* ===== verification/Header.v ===== *)
(** * [InvoiceParser._parse_header_info]: the header extractor

    [_parse_header_info(text)] ([src/pdf_parser.py], lines 55-87) splits
    the text on newlines and, for every stripped line, runs three
    independent tests: a line holding ['Детализация к счету №'] is searched
    for the invoice number and date, a line holding ['Исполнитель:'] for
    the issuer's name and INN, and a line holding ['Заказчик:'] for the
    customer's name and INN and, separately, for an address and a phone.
    Each successful search assigns the dict entries, so a later line
    overwrites an earlier one.  [header_line] is the body of the loop,
    [parse_header_info] the method in the [PyM] monad and [scan_header]
    the same loop as a fold.

    Theorems: the method is the fold and never raises; the stored invoice
    number and date are those of the last matching line; the stored
    number, date and INNs have the character classes of their groups (an
    invariant of the scan); a text without the markers leaves the header
    unchanged. *)

From S2P Require Import Prelude Unicode PyStr Regex Number Dict Data.

(** ** The patterns *)

Definition m_invoice := u "Детализация к счету №".
Definition m_company := u "Исполнитель:".
Definition m_customer := u "Заказчик:".

(** [r'№\s*([\d-]+)\s*от\s*([\d.]+)'] *)
Definition invoice_re : regex :=
  RCat [RStr (u "№"); RStar true RSpace;
        RGroup 1 (RPlus true (RSet false [CDigit; CLit (ch "-")])); RStar true RSpace;
        RStr (u "от"); RStar true RSpace;
        RGroup 2 (RPlus true (RSet false [CDigit; CLit (ch ".")]))].

(** [r'<marker>\s*(.+?)\s*,\s*ИНН\s*(\d+)'] for ['Исполнитель:'] and
    ['Заказчик:'] *)
Definition party_re (marker : pystr) : regex :=
  RCat [RStr marker; RStar true RSpace; RGroup 1 (RPlus false RAny); RStar true RSpace;
        RChar (ch ","); RStar true RSpace; RStr (u "ИНН"); RStar true RSpace;
        RGroup 2 (RPlus true RDigit)].

Definition company_re := party_re m_company.
Definition customer_re := party_re m_customer.

(** [r'Адрес:\s*(G)\s*,\s*тел\.\s*([\+\d\s\(\)-]+)'], where the group
    [G] is [[^,]+] followed by a greedy star of [,[^,]+] in a
    non-capturing group *)
Definition address_re : regex :=
  RCat [RStr (u "Адрес:"); RStar true RSpace;
        RGroup 1 (RSeq (RPlus true (RSet true [CLit (ch ",")]))
                       (RStar true (RSeq (RChar (ch ",")) (RPlus true (RSet true [CLit (ch ",")])))));
        RStar true RSpace; RChar (ch ","); RStar true RSpace; RStr (u "тел."); RStar true RSpace;
        RGroup 2 (RPlus true (RSet false [CLit (ch "+"); CDigit; CSpace; CLit (ch "(");
                                          CLit (ch ")"); CLit (ch "-")]))].

Section Header.
Context `{DB : UnicodeDB}.

(** The groups 1 and 2 of a search. *)
Definition search2 (r : regex) (line : pystr) : option (pystr * pystr) :=
  m ← re_search r line; g1 ← group m 1; g2 ← group m 2; Some (g1, g2).

(** ** The loop body, one test after the other *)

(** Lines 63-67 *)
Definition header_invoice (line : pystr) (d : invoice_data) : invoice_data :=
  if contains m_invoice line then
    match search2 invoice_re line with
    | Some (n, dt) => set_invoice_info (fun i => dict_set k_date dt (dict_set k_number n i)) d
    | None => d
    end
  else d.

(** Lines 70-74 *)
Definition header_company (line : pystr) (d : invoice_data) : invoice_data :=
  if contains m_company line then
    match search2 company_re line with
    | Some (name, inn) => set_company_info (fun i => dict_set k_inn inn (dict_set k_name (strip name) i)) d
    | None => d
    end
  else d.

(** Lines 77-87 *)
Definition header_customer (line : pystr) (d : invoice_data) : invoice_data :=
  if contains m_customer line then
    let d1 := match search2 customer_re line with
              | Some (name, inn) =>
                  set_customer_info (fun i => dict_set k_inn inn (dict_set k_name (strip name) i)) d
              | None => d
              end in
    match search2 address_re line with
    | Some (addr, phone) =>
        set_customer_info (fun i => dict_set k_phone (strip phone) (dict_set k_address (strip addr) i)) d1
    | None => d1
    end
  else d.

(** Lines 59-87: the body of the loop on one line, after [line.strip()] *)
Definition header_line (line : pystr) (d : invoice_data) : invoice_data :=
  header_customer line (header_company line (header_invoice line d)).

(** [_parse_header_info(text)] *)
Definition parse_header_info (text : pystr) : PyM invoice_data unit :=
  pfor (lines text) (fun line => pmodify (header_line (strip line))).

Definition scan_header (text : pystr) (d : invoice_data) : invoice_data :=
  fold_left (fun d line => header_line (strip line) d) (lines text) d.

(** ** Laws *)

Lemma parse_header_info_fold text : parse_header_info text ≡ₘ pmodify (scan_header text).
Proof. apply pfor_modify. Qed.

(** The header scan changes neither the items nor the totals. *)
Lemma header_line_items line d :
  line_items (header_line line d) = line_items d /\ totals (header_line line d) = totals d.
Proof.
  unfold header_line, header_customer, header_company, header_invoice. by repeat case_match.
Qed.

Lemma parse_header_info_items text d :
  (parse_header_info text d).1 = inr tt /\
  line_items (parse_header_info text d).2 = line_items d /\
  totals (parse_header_info text d).2 = totals d.
Proof.
  rewrite (parse_header_info_fold text d). split; [done|]. simpl.
  unfold scan_header. apply fold_left_ind; [done|].
  intros a l _ [<- <-]. apply header_line_items.
Qed.

Lemma parse_header_info_frame text : frame (parse_header_info text).
Proof.
  apply frame_pfor. intros line. apply (frame_modify _ []). intros d.
  rewrite app_nil_r. apply header_line_items.
Qed.

(** The invoice number and date a line yields. *)
Definition invoice_of_line (line : pystr) : option (pystr * pystr) :=
  if contains m_invoice line then search2 invoice_re line else None.

Lemma header_line_invoice_info line d :
  invoice_info (header_line line d) =
  match invoice_of_line line with
  | Some (n, dt) => dict_set k_date dt (dict_set k_number n (invoice_info d))
  | None => invoice_info d
  end.
Proof.
  unfold header_line, header_customer, header_company, header_invoice, invoice_of_line.
  destruct (contains m_invoice line); [|destruct (contains m_company line), (contains m_customer line); py_case].
  all: destruct (search2 invoice_re line) as [[n dt]|]; py_case.
  all: repeat (case_match; simpl); done.
Qed.

Lemma k_number_date : k_number <> k_date.
Proof. by vm_compute. Qed.

Lemma search2_groups P r line g1 g2 :
  search2 r line = Some (g1, g2) -> groups_sat P r -> (forall w, P 0 w) -> P 1 g1 /\ P 2 g2.
Proof.
  unfold search2. destruct (re_search r line) as [m|] eqn:E; [|done]. simpl.
  unfold group. destruct (m !! 1) eqn:E1; [|done]. destruct (m !! 2) eqn:E2; [|done].
  intros [= <- <-] Hr H0. pose proof (re_search_caps P r line m E Hr H0) as Hc. eauto.
Qed.

(** What the patterns capture. *)
Definition invoice_groups (n : nat) (w : pystr) : Prop :=
  match n with
  | 1 => class_text false [CDigit; CLit (ch "-")] w
  | 2 => class_text false [CDigit; CLit (ch ".")] w
  | _ => True
  end.

Definition party_groups (n : nat) (w : pystr) : Prop :=
  match n with 2 => class_text false [CDigit] w | _ => True end.

Ltac groups_sat_tac :=
  cbn [RCat foldr groups_sat RPlus RSpace RDigit RChar];
  repeat (apply conj || exact I); try apply groups_sat_RStr; intros ? ? ? ? Hm;
  cbn [invoice_groups party_groups]; first [exact I | eapply matches_plus_set, Hm].

Lemma invoice_re_groups : groups_sat invoice_groups invoice_re.
Proof. groups_sat_tac. Qed.

Lemma party_re_groups marker : groups_sat party_groups (party_re marker).
Proof. groups_sat_tac. Qed.

(** The header fields that have a character class. *)
Definition header_ok (d : invoice_data) : Prop :=
  (forall n, dict_get (invoice_info d) k_number = Some n -> invoice_groups 1 n) /\
  (forall dt, dict_get (invoice_info d) k_date = Some dt -> invoice_groups 2 dt) /\
  (forall t, dict_get (company_info d) k_inn = Some t -> party_groups 2 t) /\
  (forall t, dict_get (customer_info d) k_inn = Some t -> party_groups 2 t).

Lemma dict_get_set2 {V} (d : pydict V) k1 v1 k2 v2 k :
  dict_get (dict_set k2 v2 (dict_set k1 v1 d)) k =
  if bool_decide (k = k2) then Some v2 else if bool_decide (k = k1) then Some v1 else dict_get d k.
Proof.
  case_bool_decide; [subst; apply dict_get_set_eq|]. rewrite dict_get_set_ne by done.
  case_bool_decide; [subst; apply dict_get_set_eq|]. by apply dict_get_set_ne.
Qed.

Lemma header_line_ok line d : header_ok d -> header_ok (header_line line d).
Proof.
  intros (Hn & Hd & Hc & Hu). unfold header_line, header_customer, header_company, header_invoice.
  assert (header_ok (header_invoice line d)) as (Hn1 & Hd1 & Hc1 & Hu1).
  { unfold header_invoice. destruct (contains m_invoice line); [|done].
    destruct (search2 invoice_re line) as [[n dt]|] eqn:E; [|done].
    destruct (search2_groups _ _ _ _ _ E invoice_re_groups) as [G1 G2]; [done|].
    split_and!; simpl; try done; intros w; rewrite dict_get_set2; key_dec; by intros [= <-]. }
  assert (header_ok (header_company line (header_invoice line d))) as (Hn2 & Hd2 & Hc2 & Hu2).
  { unfold header_company. destruct (contains m_company line); [|done].
    destruct (search2 company_re line) as [[nm t]|] eqn:E; [|done].
    destruct (search2_groups _ _ _ _ _ E (party_re_groups _)) as [_ G2]; [done|].
    split_and!; simpl; try done. intros w. rewrite dict_get_set2. key_dec. by intros [= <-]. }
  unfold header_customer. destruct (contains m_customer line); [|done].
  set (d1 := match search2 customer_re line with
             | Some (name, inn) => set_customer_info (fun i => dict_set k_inn inn (dict_set k_name (strip name) i)) _
             | None => _ end).
  assert (header_ok d1) as (Hn3 & Hd3 & Hc3 & Hu3).
  { subst d1. destruct (search2 customer_re line) as [[nm t]|] eqn:E; [|done].
    destruct (search2_groups _ _ _ _ _ E (party_re_groups _)) as [_ G2]; [done|].
    split_and!; simpl; try done. intros w. rewrite dict_get_set2. key_dec. by intros [= <-]. }
  destruct (search2 address_re line) as [[a ph]|]; [|done].
  split_and!; simpl; try done. intros w. rewrite dict_get_set2. key_dec. apply Hu3.
Qed.

(** C22: header classes.
    The header scan keeps this invariant: a stored invoice number is a
    nonempty string of digits and hyphens, a stored date a nonempty
    string of digits and dots, and a stored INN of the issuer or of the
    customer a nonempty string of digits. *)
Theorem scan_header_ok text d : header_ok d -> header_ok (scan_header text d).
Proof. intros Hd. unfold scan_header. apply fold_left_ind; [done|]. intros; by apply header_line_ok. Qed.

(** C4: last match wins.
    After the header scan the invoice number and date are those of the
    last line that holds the marker ['Детализация к счету №'] and matches
    the pattern; when no line does, the previous values are kept. *)
Theorem scan_header_last_invoice text d :
  (dict_get (invoice_info (scan_header text d)) k_number,
   dict_get (invoice_info (scan_header text d)) k_date) =
  match last (omap (fun l => invoice_of_line (strip l)) (lines text)) with
  | Some (n, dt) => (Some n, Some dt)
  | None => (dict_get (invoice_info d) k_number, dict_get (invoice_info d) k_date)
  end.
Proof.
  unfold scan_header.
  apply (fold_left_last _ _ (fun d => (dict_get (invoice_info d) k_number, dict_get (invoice_info d) k_date))
           (fun '(n, dt) => (Some n, Some dt))).
  intros a x. rewrite header_line_invoice_info.
  destruct (invoice_of_line (strip x)) as [[n dt]|]; [|done].
  rewrite !dict_get_set2. rewrite (bool_decide_eq_false_2 (k_number = k_date)) by apply k_number_date.
  by rewrite !bool_decide_eq_true_2.
Qed.

(** No marker, no header.
    A text holding none of the markers ['Детализация к счету №'],
    ['Исполнитель:'] and ['Заказчик:'] leaves the header as it was. *)
Theorem scan_header_no_marker text d :
  contains m_invoice text = false -> contains m_company text = false ->
  contains m_customer text = false -> scan_header text d = d.
Proof.
  intros H1 H2 H3. unfold scan_header. apply fold_left_id. intros l Hl.
  unfold header_line, header_customer, header_company, header_invoice.
  destruct (contains m_invoice (strip l)) eqn:E1;
    [by rewrite (contains_line _ _ _ Hl E1) in H1|].
  destruct (contains m_company (strip l)) eqn:E2;
    [by rewrite (contains_line _ _ _ Hl E2) in H2|].
  destruct (contains m_customer (strip l)) eqn:E3;
    [by rewrite (contains_line _ _ _ Hl E3) in H3|].
  done.
Qed.

End Header.

(** ** Examples and witnesses *)

Lemma scan_header_ok_witness :
  header_ok (init_data (u "now")) /\
  header_ok (scan_header (u "Детализация к счету № 12345-1 от 01.02.2024") (init_data (u "now"))).
Proof.
  assert (header_ok (init_data (u "now"))) as H0 by (split_and!; simpl; done).
  split; [exact H0|]. apply scan_header_ok. exact H0.
Defined.

Lemma scan_header_no_marker_witness :
  scan_header (u "Итого к оплате: 100,00 ₽") (init_data (u "now")) = init_data (u "now").
Proof. apply scan_header_no_marker; vm_compute; reflexivity. Defined.
