(* ===== verification/LineItems.v ===== *)
(** * [InvoiceParser._parse_line_items]: line items from the text

    [_parse_line_items(text)] ([src/pdf_parser.py], lines 89-156) scans
    the stripped lines in order.  A line is tested against four patterns
    in a fixed precedence ([if]/[elif]): storage (['Хранение товаров от']),
    reception (['Приемка товара на склад']), shipment (['Отгрузка FBO']) and
    reception operation ([re.match(r'Приемка\s+\d+\s+от', line)]).  A
    successful search builds one item and appends it to
    [self.data['line_items']]; amounts are read with
    [float(g.replace(',', '.'))] and counts with [int(g)].  [float()] is not
    inside a [try]: a [ValueError] leaves the method, and [parse], with the
    items appended so far.

    Theorems: a scan only appends, at most one item per line; a text
    without the markers adds nothing and does not raise; every amount of a
    text item is nonnegative ([float()] reads a sign, but the captures of
    [[\d.,]+] hold none); a storage line whose amount [float()] rejects,
    such as [1.234,56], makes the scan raise [ValueError] and stop, with
    the earlier items kept. *)

From S2P Require Import Prelude Unicode PyStr Regex Number Dict Data.

(** ** The patterns *)

Definition m_storage := u "Хранение товаров от".
Definition m_reception := u "Приемка товара на склад".
Definition m_shipment := u "Отгрузка FBO".

(** [[\d.]+], [[\d.,]+] and [\s+] *)
Definition RDates : regex := RPlus true (RSet false [CDigit; CLit dot]).
Definition RAmount : regex := RPlus true (RSet false [CDigit; CLit dot; CLit comma]).
Definition RSpaces : regex := RPlus true RSpace.
Definition RSp : regex := RStar true RSpace.

(** [r'Хранение товаров от\s*([\d.]+)\s*до\s*([\d.]+)\s*([\d.,]+)\s*м³\s*([\d.,]+)\s*₽\s*([\d.,]+)\s*₽'] *)
Definition storage_re : regex :=
  RCat [RStr m_storage; RSp; RGroup 1 RDates; RSp; RStr (u "до"); RSp; RGroup 2 RDates; RSp;
        RGroup 3 RAmount; RSp; RStr (u "м³"); RSp; RGroup 4 RAmount; RSp; RStr (u "₽"); RSp;
        RGroup 5 RAmount; RSp; RStr (u "₽")].

(** [r'Приемка товара на склад и размещение\s*(\d+)\s*шт\.\s*([\d.,]+)\s*₽\s*([\d.,]+)\s*₽'] *)
Definition reception_re : regex :=
  RCat [RStr (u "Приемка товара на склад и размещение"); RSp; RGroup 1 (RPlus true RDigit); RSp;
        RStr (u "шт."); RSp; RGroup 2 RAmount; RSp; RStr (u "₽"); RSp; RGroup 3 RAmount; RSp;
        RStr (u "₽")].

(** [r'Отгрузка FBO\s*(\d+)\s*от\s*([\d.]+)'] *)
Definition shipment_re : regex :=
  RCat [RStr m_shipment; RSp; RGroup 1 (RPlus true RDigit); RSp; RStr (u "от"); RSp; RGroup 2 RDates].

(** [r'Приемка\s+\d+\s+от'], used with [re.match] *)
Definition reception_op_start : regex :=
  RCat [RStr (u "Приемка"); RSpaces; RPlus true RDigit; RSpaces; RStr (u "от")].

(** [r'Приемка\s+(\d+)\s+от\s+([\d.]+)'] *)
Definition reception_op_re : regex :=
  RCat [RStr (u "Приемка"); RSpaces; RGroup 1 (RPlus true RDigit); RSpaces; RStr (u "от"); RSpaces;
        RGroup 2 RDates].

Definition reception_description := u "Приемка товара на склад и размещение".

(** [f"Хранение товаров от {g1} до {g2}"] *)
Definition storage_description (g1 g2 : pystr) : pystr :=
  u "Хранение товаров от " ++ g1 ++ u " до " ++ g2.

Section LineItems.
Context `{DB : UnicodeDB}.

(** [float(g.replace(',', '.'))], raising [ValueError] *)
Definition to_float {S} (g : pystr) : PyM S Q :=
  match py_float (replace_char comma dot g) with Some q => pret q | None => praise ValueError end.

(** [int(g)], raising [ValueError] *)
Definition to_int {S} (g : pystr) : PyM S Z :=
  match py_int g with Some z => pret z | None => praise ValueError end.

(** The groups [ns] of a search, all of which participate. *)
Definition search_groups (r : regex) (line : pystr) (ns : list nat) : option (list pystr) :=
  m ← re_search r line; mapM (group m) ns.

(** Lines 97-113 *)
Definition storage_step (line : pystr) : PyM invoice_data unit :=
  match search_groups storage_re line [1; 2; 3; 4; 5] with
  | Some [g1; g2; g3; g4; g5] =>
      q ← to_float g3; p ← to_float g4; t ← to_float g5;
      pmodify (append_item (Storage (storage_description g1 g2) g1 g2 q p t))
  | _ => pret tt
  end.

(** Lines 116-130 *)
Definition reception_step (line : pystr) : PyM invoice_data unit :=
  match search_groups reception_re line [1; 2; 3] with
  | Some [g1; g2; g3] =>
      n ← to_int g1; p ← to_float g2; t ← to_float g3;
      pmodify (append_item (Reception n p t))
  | _ => pret tt
  end.

(** Lines 133-143 *)
Definition shipment_step (line : pystr) : PyM invoice_data unit :=
  match search_groups shipment_re line [1; 2] with
  | Some [g1; g2] => pmodify (append_item (Shipment g1 g2))
  | _ => pret tt
  end.

(** Lines 146-156 *)
Definition reception_op_step (line : pystr) : PyM invoice_data unit :=
  match search_groups reception_op_re line [1; 2] with
  | Some [g1; g2] => pmodify (append_item (ReceptionOperation g1 g2))
  | _ => pret tt
  end.

(** Lines 94-156: the body of the loop on one line, after [line.strip()] *)
Definition line_item_step (line : pystr) : PyM invoice_data unit :=
  if contains m_storage line then storage_step line
  else if contains m_reception line then reception_step line
  else if contains m_shipment line then shipment_step line
  else if bool_decide (is_Some (re_match reception_op_start line)) then reception_op_step line
  else pret tt.

(** [_parse_line_items(text)] *)
Definition parse_line_items (text : pystr) : PyM invoice_data unit :=
  pfor (lines text) (fun line => line_item_step (strip line)).

(** ** Laws *)

Ltac step_unfold :=
  unfold line_item_step, storage_step, reception_step, shipment_step, reception_op_step,
    to_float, to_int; pym_unfold.

(** One line appends at most one item and changes nothing else. *)
Lemma line_item_step_grows line d : grows 1 d (line_item_step line d).2.
Proof. step_unfold. repeat case_match; simplify_eq/=; auto with pyparse. Qed.

(** The text scan appends no table item. *)
Lemma line_item_step_appends line d :
  appends (fun it => is_table_item it = false) d (line_item_step line d).2.
Proof. step_unfold. repeat case_match; simplify_eq/=; auto with pyparse. Qed.

(** The text scan does not read the items. *)
Lemma parse_line_items_frame text : frame (parse_line_items text).
Proof.
  apply frame_pfor. intros line.
  unfold line_item_step, storage_step, reception_step, shipment_step, reception_op_step, to_float, to_int.
  frame_tac.
Qed.

(** The groups of a search satisfy what the pattern guarantees. *)
Lemma search_groups_caps P r line ns gs :
  search_groups r line ns = Some gs -> groups_sat P r -> (forall w, P 0 w) -> Forall2 P ns gs.
Proof.
  unfold search_groups. destruct (re_search r line) as [m|] eqn:E; [|done]. cbn.
  intros Hm Hr H0. pose proof (re_search_caps P r line m E Hr H0) as Hc.
  apply mapM_Some in Hm. eapply Forall2_impl; [exact Hm|]. intros n w Hw. by apply Hc.
Qed.

(** A numbered group captures no minus sign. *)
Definition unsigned_group (n : nat) (w : pystr) : Prop := n <> 0 -> minus ∉ w.

Lemma amount_class_no_minus : Forall (fun i => citem_match i minus = false) [CDigit; CLit dot; CLit comma].
Proof.
  constructor; [apply digit_not_minus|].
  constructor; [by apply bool_decide_eq_false_2|]. constructor; [by apply bool_decide_eq_false_2|constructor].
Qed.

Lemma digit_class_no_minus : Forall (fun i => citem_match i minus = false) [CDigit].
Proof. constructor; [apply digit_not_minus|constructor]. Qed.

Ltac unsigned_groups :=
  apply groups_sat_RCat; repeat apply List.Forall_cons; try apply List.Forall_nil;
  first [ apply groups_sat_RStr
        | unfold RDates, RAmount, RDigit; apply groups_sat_class; intros w Hw _;
          eapply class_no_minus; [|exact Hw];
          first [apply number_class_no_minus | apply amount_class_no_minus | apply digit_class_no_minus]
        | simpl; tauto ].

Lemma storage_re_unsigned : groups_sat unsigned_group storage_re.
Proof. unfold storage_re. unsigned_groups. Qed.

Lemma reception_re_unsigned : groups_sat unsigned_group reception_re.
Proof. unfold reception_re. unsigned_groups. Qed.

(** Making the commas dots adds no minus sign. *)
Lemma replace_unsigned g : minus ∉ g -> minus ∉ replace_char comma dot g.
Proof.
  unfold replace_char. intros Hg Hin. apply list_elem_of_In, in_map_iff in Hin as (c & Hc & Hin).
  case_bool_decide; [by subst|]. subst. apply Hg. by apply list_elem_of_In.
Qed.

(** The groups of a search over a pattern whose numbered groups are
    unsigned. *)
Ltac search_unsigned :=
  match goal with
  | Hs : search_groups ?r _ _ = Some _ |- _ =>
      let Hr := fresh "Hr" in
      assert (Hr : groups_sat unsigned_group r)
        by (lazymatch r with storage_re => exact storage_re_unsigned
                           | reception_re => exact reception_re_unsigned end);
      apply (search_groups_caps unsigned_group) in Hs; [|exact Hr|by intros ? []];
      repeat match goal with H : Forall2 _ (_ :: _) (_ :: _) |- _ => inversion_clear H end
  end.

(** A loop over the lines of a text that has returned normally on the
    lines before [line] goes on with [line]. *)
Lemma pfor_lines_at {S} (body : pystr -> PyM S unit) text1 line text2 s s1 :
  pfor (lines text1) body s = (inr tt, s1) -> newline ∉ line ->
  pfor (lines (text1 ++ newline :: line ++ newline :: text2)) body s = (body line;; pfor (lines text2) body) s1.
Proof.
  intros H1 Hl. unfold lines in *.
  rewrite split_on_app_sep, split_on_app, (pfor_app _ _ _ s) by done.
  unfold mbind at 1, pym_bind at 1, pbind at 1. by rewrite H1.
Qed.

(** Every amount of the items is nonnegative. *)
Definition items_nonneg (d : invoice_data) : Prop :=
  Forall (fun it => (0 <= num_val (item_total it))%Q) (line_items d).

Lemma items_nonneg_append it d :
  items_nonneg d -> (0 <= num_val (item_total it))%Q -> items_nonneg (append_item it d).
Proof. intros Hd Hit. apply Forall_app. split; [done|]. by constructor. Qed.

Lemma line_item_step_nonneg line d : items_nonneg d -> items_nonneg (line_item_step line d).2.
Proof.
  intros Hd. step_unfold. repeat case_match; simplify_eq/=; try done;
    apply items_nonneg_append; try done; simpl; try (unfold Qle; simpl; lia).
  all: search_unsigned.
  all: match goal with Hf : py_float (replace_char comma dot ?g) = Some ?q |- (0 <= ?q)%Q =>
         eapply py_float_nonneg; [apply replace_unsigned|exact Hf];
         match goal with H : unsigned_group _ g |- _ => by apply H end end.
Qed.

Lemma m_reception_factor : exists a b, m_reception = a ++ u "Приемка" ++ b.
Proof. exists [], (u " товара на склад"). by vm_compute. Qed.

(** C5: append only.
    The text scan only appends to [line_items], at most one item per
    line of the text, and changes no other part of [self.data]; this
    holds also when it stops on a [ValueError]. *)
Theorem parse_line_items_grows text d :
  grows (length (lines text)) d (parse_line_items text d).2.
Proof.
  apply (pfor_graded grows); [apply grows_nil|apply grows_trans|apply grows_mono|].
  intros. apply line_item_step_grows.
Qed.

(** C18: nonnegative amounts.
    Every item in [line_items] keeps a nonnegative [total_amount] through
    the text scan.  [float()] reads a sign, but the storage and reception
    amounts it converts are captures of [[\d.,]+] with the commas made
    dots, which hold none; shipments and reception operations carry the
    literal [0]. *)
Theorem parse_line_items_nonneg text d :
  items_nonneg d -> items_nonneg (parse_line_items text d).2.
Proof. apply pfor_invariant. intros. by apply line_item_step_nonneg. Qed.

(** No marker, no item.
    A text that holds neither ['Хранение товаров от'] nor ['Отгрузка FBO']
    nor ['Приемка'] makes the text scan return normally with [self.data]
    unchanged. *)
Theorem parse_line_items_no_marker text d :
  contains m_storage text = false -> contains m_shipment text = false ->
  contains (u "Приемка") text = false -> parse_line_items text d = (inr tt, d).
Proof.
  intros H1 H2 H3. apply pfor_skip. intros l Hl. unfold line_item_step.
  destruct (contains m_storage (strip l)) eqn:E1; [by rewrite (contains_line _ _ _ Hl E1) in H1|].
  destruct (contains m_reception (strip l)) eqn:E2.
  { exfalso. assert (contains (u "Приемка") (strip l) = true) as E.
    { apply (contains_factor _ m_reception).
      - apply contains_spec. destruct m_reception_factor as (a & b & Hm). rewrite Hm. eauto.
      - by apply contains_spec. }
    by rewrite (contains_line _ _ _ Hl E) in H3. }
  destruct (contains m_shipment (strip l)) eqn:E3; [by rewrite (contains_line _ _ _ Hl E3) in H2|].
  case_bool_decide as Hm; [|done]. exfalso. destruct Hm as [m Hm].
  apply re_match_prefix in Hm as [t Ht].
  assert (contains (u "Приемка") (strip l) = true) as E.
  { apply contains_spec. exists [], t. done. }
  by rewrite (contains_line _ _ _ Hl E) in H3.
Qed.

(** C19: a failed conversion stops the scan.
    When the text scan reaches a storage line (after lines that return
    normally) whose quantity, price or total [float()] rejects, as the
    total ["1.234,56"] once its comma is a dot, the scan raises
    [ValueError]: the line adds no item, the items of the earlier lines
    stay, and the later lines are not read. *)
Theorem parse_line_items_raises text1 line text2 d d1 g1 g2 g3 g4 g5 :
  parse_line_items text1 d = (inr tt, d1) -> newline ∉ line ->
  contains m_storage (strip line) = true ->
  search_groups storage_re (strip line) [1; 2; 3; 4; 5] = Some [g1; g2; g3; g4; g5] ->
  py_float (replace_char comma dot g3) = None \/ py_float (replace_char comma dot g4) = None \/
  py_float (replace_char comma dot g5) = None ->
  parse_line_items (text1 ++ newline :: line ++ newline :: text2) d = (inl ValueError, d1).
Proof.
  intros H1 Hl Hm Hs Hf. unfold parse_line_items in *. rewrite (pfor_lines_at _ _ _ _ _ _ H1 Hl). cbv beta.
  unfold line_item_step. rewrite Hm. unfold storage_step. rewrite Hs. step_unfold.
  destruct Hf as [Hf|[Hf|Hf]]; rewrite Hf;
    repeat (case_match; simplify_eq/=); done.
Qed.

End LineItems.

(** ** Examples and witnesses *)

Lemma parse_line_items_nonneg_witness :
  items_nonneg (parse_line_items (u "Приемка товара на склад и размещение 2 шт. 10,00 ₽ 20,00 ₽")
                 (init_data (u "now"))).2.
Proof. apply parse_line_items_nonneg. constructor. Defined.

Lemma parse_line_items_no_marker_witness :
  parse_line_items (u "Итого к оплате: 100,00 ₽") (init_data (u "now")) = (inr tt, init_data (u "now")).
Proof. apply parse_line_items_no_marker; vm_compute; reflexivity. Defined.

Lemma parse_line_items_raises_witness :
  parse_line_items (u "" ++ newline :: u "Хранение товаров от 01.01.2024 до 31.01.2024 2,50 м³ 100,00 ₽ 1.234,56 ₽"
                      ++ newline :: u "Отгрузка FBO 7 от 02.02.2024") (init_data (u "now")) =
  (inl ValueError, init_data (u "now")).
Proof.
  apply (parse_line_items_raises _ _ _ _ _ (u "01.01.2024") (u "31.01.2024") (u "2,50") (u "100,00")
           (u "1.234,56")); try (vm_compute; reflexivity).
  - intros H. repeat match goal with H : _ ∈ _ |- _ => inversion H; clear H; subst end.
  - right. right. vm_compute. reflexivity.
Defined.
