(* ===== verification/Tables.v ===== *)
(** * [InvoiceParser._parse_tables]: line items from the tables

    [_parse_tables(tables)] ([src/pdf_parser.py], lines 184-215) walks the
    rows of every table.  A row with at least five cells whose first cell
    holds neither ['№'] nor ['Наименование'] and is a nonempty string of
    [isdigit()] characters becomes a [table_item]: [int()] of the first
    cell, the stripped second cell, [_parse_number] of the third, fifth
    and sixth cells (the sixth only when present, else [0]) and the
    stripped fourth cell.  The item is appended when its description is
    nonempty and its total is positive.  [int()] may raise [ValueError]
    on a cell that passes [isdigit()] (a superscript digit); the
    [except (ValueError, IndexError)] skips the row.

    Theorems: the table scan never raises and only appends table items;
    every table item it appends has a nonempty description and a
    positive total (an invariant of [line_items]); a row of exactly five
    cells never gives an item; at most one item per row. *)

From S2P Require Import Prelude Unicode PyStr Regex Number Dict Data LineItems.

Abbreviation row := (list cell).
Abbreviation table := (list row).

Section Tables.
Context `{DB : UnicodeDB}.

(** [row[i]], for an index the code has checked *)
Definition nth_cell (r : row) (i : nat) : cell := default None (r !! i).

(** [str(x or '')] *)
Definition cell_str (c : cell) : pystr := default [] c.

(** The truth value of a cell: [None] and [''] are false *)
Definition cell_truthy (c : cell) : bool := bool_decide (cell_str c <> []).

(** [x > 0] on a number *)
Definition num_positive (n : pynum) : bool := negb (Qle_bool (num_val n) 0).

(** [except (ValueError, IndexError)] *)
Definition value_or_index (e : exn) : bool :=
  match e with ValueError | IndexError => true | _ => false end.

Definition header_markers : list pystr := [u "№"; u "Наименование"].

(** Lines 198-213: the [try] block *)
Definition table_item_of_row (r : row) : PyM invoice_data unit :=
  n ← to_int (cell_str (nth_cell r 0));
  let description := strip (cell_str (nth_cell r 1)) in
  let quantity := if bool_decide (2 < length r) then parse_number (nth_cell r 2) else PyInt 0 in
  let unit := if bool_decide (3 < length r) then strip (cell_str (nth_cell r 3)) else [] in
  let price := if bool_decide (4 < length r) then parse_number (nth_cell r 4) else PyInt 0 in
  let total := if bool_decide (5 < length r) then parse_number (nth_cell r 5) else PyInt 0 in
  if bool_decide (description <> []) && num_positive total
  then pmodify (append_item (TableItem n description quantity unit price total))
  else pret tt.

(** Lines 190-215: the body of the loop on one row *)
Definition table_row_step (r : row) : PyM invoice_data unit :=
  if bool_decide (r <> [] /\ 5 <= length r) then
    let c0 := nth_cell r 0 in
    if existsb (fun h => contains h (cell_str c0)) header_markers then pret tt
    else if cell_truthy c0 && isdigit (cell_str c0) then
      ptry value_or_index (table_item_of_row r) (fun _ => pret tt)
    else pret tt
  else pret tt.

(** [_parse_tables(tables)] *)
Definition parse_tables (tables : list table) : PyM invoice_data unit :=
  pfor tables (fun t => pfor t table_row_step).

(** ** Laws *)

Ltac row_unfold :=
  unfold table_row_step, table_item_of_row, ptry, to_int; pym_unfold.

Lemma table_row_step_no_raise r d : (table_row_step r d).1 = inr tt.
Proof. row_unfold. repeat case_match; simplify_eq/=; done. Qed.

Lemma table_row_step_grows r d : grows 1 d (table_row_step r d).2.
Proof. row_unfold. repeat case_match; simplify_eq/=; auto with pyparse. Qed.

Lemma table_row_step_appends r d : appends (fun it => is_table_item it = true) d (table_row_step r d).2.
Proof. row_unfold. repeat case_match; simplify_eq/=; auto with pyparse. Qed.

(** The table scan does not read the items. *)
Lemma parse_tables_frame tables : frame (parse_tables tables).
Proof.
  apply frame_pfor. intros t. apply frame_pfor. intros r.
  unfold table_row_step, table_item_of_row, to_int. frame_tac.
Qed.

(** The table items of [line_items] have a description and a positive
    total. *)
Definition table_item_ok (it : line_item) : Prop :=
  match it with
  | TableItem _ description _ _ _ total => description <> [] /\ num_positive total = true
  | _ => True
  end.

Definition table_items_ok (d : invoice_data) : Prop := Forall table_item_ok (line_items d).

Lemma table_items_ok_append it d :
  table_items_ok d -> table_item_ok it -> table_items_ok (append_item it d).
Proof. intros Hd Hit. apply Forall_app. split; [done|]. by constructor. Qed.

Lemma table_row_step_items_ok r d : table_items_ok d -> table_items_ok (table_row_step r d).2.
Proof.
  intros Hd. row_unfold. repeat case_match; simplify_eq/=; try done;
    apply table_items_ok_append; try done; simpl;
    match goal with H : (bool_decide _ && _) = true |- _ =>
      rewrite andb_true_iff, bool_decide_eq_true in H end; done.
Qed.

(** The table scan never raises. *)
Lemma parse_tables_no_raise tables d : (parse_tables tables d).1 = inr tt.
Proof.
  apply pfor_no_raise. intros t s. apply pfor_no_raise. intros. apply table_row_step_no_raise.
Qed.

(** C21: the table scan is safe.
    [_parse_tables] returns normally on every list of tables, whatever
    their cells: [int()] of the first cell is the only call that can
    raise, and its [ValueError] is caught; the scan only appends table
    items to [line_items] and changes nothing else. *)
Theorem parse_tables_safe tables d :
  (parse_tables tables d).1 = inr tt /\
  appends (fun it => is_table_item it = true) d (parse_tables tables d).2.
Proof.
  split; [apply parse_tables_no_raise|].
  apply pfor_appends. intros t s. apply pfor_appends. intros r s'. apply table_row_step_appends.
Qed.

(** C6: table items are substantive.
    The table scan keeps the invariant that every table item of
    [line_items] has a nonempty description and a positive total. *)
Theorem parse_tables_items_ok tables d :
  table_items_ok d -> table_items_ok (parse_tables tables d).2.
Proof.
  apply pfor_invariant. intros t s Hs. apply pfor_invariant; [|done].
  intros. by apply table_row_step_items_ok.
Qed.

(** C20: five-cell rows are dropped.
    A row of exactly five cells (number, name, quantity, unit, price)
    never gives an item and leaves [self.data] unchanged: its total
    defaults to [0], which is not positive. *)
Theorem table_row_five_cells r d : length r = 5 -> table_row_step r d = (inr tt, d).
Proof.
  intros Hr. row_unfold. rewrite (bool_decide_eq_false_2 (5 < length r)) by lia.
  repeat case_match; simplify_eq/=; try done;
    match goal with H : (_ && _) = true |- _ => apply andb_prop in H as [_ H]; by vm_compute in H end.
Qed.

End Tables.

(** ** Examples and witnesses *)

Lemma parse_tables_items_ok_witness :
  table_items_ok (parse_tables [[[Some (u "1"); Some (u "Погрузка"); Some (u "3"); Some (u "шт.");
                                  Some (u "50,00"); Some (u "150,00")]]] (init_data (u "now"))).2.
Proof. apply parse_tables_items_ok. constructor. Defined.

Lemma table_row_five_cells_witness :
  table_row_step [Some (u "1"); Some (u "Погрузка"); Some (u "3"); Some (u "шт."); Some (u "50,00")]
    (init_data (u "now")) = (inr tt, init_data (u "now")).
Proof. apply table_row_five_cells. reflexivity. Defined.
