(* ===== verification/Totals.v ===== *)
(** * [InvoiceParser._parse_totals]: the totals of the invoice

    [_parse_totals(text)] ([src/pdf_parser.py], lines 158-182) scans the
    stripped lines.  A line is tested for three markers in a fixed
    precedence ([if]/[elif]): ['Итого к оплате:'], ['В том числе НДС:'] and
    ['Всего наименований'].  A successful search stores a value in
    [self.data['totals']]: [total_amount] and [vat_amount] as
    [float(g.replace(',', '.'))], and for the item count first
    [total_items = int(g1)], then [total_sum] as the float of [g2].
    [float()] is not inside a [try].

    Theorems: the scan changes nothing but [totals], also when it raises;
    when it returns, every key holds the value of the last line that sets
    it ([line_totals] says which line sets which key); a text without the
    markers changes nothing; on an item-count line whose sum [float()]
    rejects, the count is stored before the scan raises and stops. *)

From S2P Require Import Prelude Unicode PyStr Regex Number Dict Data LineItems.

Definition m_total := u "Итого к оплате:".
Definition m_vat := u "В том числе НДС:".
Definition m_items := u "Всего наименований".

(** [r'Итого к оплате:\s*([\d.,]+)\s*₽'] *)
Definition total_re : regex := RCat [RStr m_total; RSp; RGroup 1 RAmount; RSp; RStr (u "₽")].

(** [r'В том числе НДС:\s*([\d.,]+)\s*₽'] *)
Definition vat_re : regex := RCat [RStr m_vat; RSp; RGroup 1 RAmount; RSp; RStr (u "₽")].

(** [r'Всего наименований\s*(\d+)\s*на сумму\s*([\d.,]+)\s*₽'] *)
Definition items_re : regex :=
  RCat [RStr m_items; RSp; RGroup 1 (RPlus true RDigit); RSp; RStr (u "на сумму"); RSp;
        RGroup 2 RAmount; RSp; RStr (u "₽")].

Section Totals.
Context `{DB : UnicodeDB}.

(** [self.data['totals'][k] = v] *)
Definition set_total (k : pystr) (v : pynum) : PyM invoice_data unit :=
  pmodify (set_totals (dict_set k v)).

(** Lines 167-170 and 173-176: one amount *)
Definition amount_step (r : regex) (k : pystr) (line : pystr) : PyM invoice_data unit :=
  match search_groups r line [1] with
  | Some [g] => t ← to_float g; set_total k (PyFloat t)
  | _ => pret tt
  end.

(** Lines 179-182: the count, stored before the sum is read *)
Definition items_step (line : pystr) : PyM invoice_data unit :=
  match search_groups items_re line [1; 2] with
  | Some [g1; g2] =>
      n ← to_int g1; set_total k_total_items (PyInt n);;
      t ← to_float g2; set_total k_total_sum (PyFloat t)
  | _ => pret tt
  end.

(** Lines 163-182: the body of the loop on one line, after [line.strip()] *)
Definition totals_step (line : pystr) : PyM invoice_data unit :=
  if contains m_total line then amount_step total_re k_total_amount line
  else if contains m_vat line then amount_step vat_re k_vat_amount line
  else if contains m_items line then items_step line
  else pret tt.

(** [_parse_totals(text)] *)
Definition parse_totals (text : pystr) : PyM invoice_data unit :=
  pfor (lines text) (fun line => totals_step (strip line)).

End Totals.

(** The text of the witnesses: the total is stated twice. *)
Definition two_totals := u "Итого к оплате: 1500,00 ₽
Итого к оплате: 1600,00 ₽".

(** ** Laws *)

Section TotalsLaws.
Context `{DB : UnicodeDB}.

Ltac totals_unfold :=
  unfold totals_step, amount_step, items_step, set_total, to_float, to_int; pym_unfold.

(** The totals scan does not read the items. *)
Lemma parse_totals_frame text : frame (parse_totals text).
Proof.
  apply frame_pfor. intros line.
  unfold totals_step, amount_step, items_step, set_total, to_float, to_int. frame_tac.
Qed.

Lemma set_totals_set_totals f g d : set_totals f (set_totals g d) = set_totals (f ∘ g) d.
Proof. done. Qed.

Lemma set_totals_id d : d = set_totals id d.
Proof. by destruct d. Qed.

(** One line changes the totals only. *)
Lemma totals_step_only line s : exists f, (totals_step line s).2 = set_totals f s.
Proof.
  totals_unfold. repeat case_match; simplify_eq/=;
    first [exists id; apply set_totals_id | eexists; rewrite ?set_totals_set_totals; reflexivity].
Qed.

(** What one stripped line stores in [totals] when its conversions
    succeed: the key of the first marker the line holds with the value of
    its match; nothing for a line without a marker or a match. *)
Definition line_totals (line : pystr) : pydict pynum :=
  let amount r k :=
    match search_groups r line [1] with
    | Some [g] => from_option (fun q => [(k, PyFloat q)]) [] (py_float (replace_char comma dot g))
    | _ => []
    end in
  if contains m_total line then amount total_re k_total_amount
  else if contains m_vat line then amount vat_re k_vat_amount
  else if contains m_items line then
    match search_groups items_re line [1; 2] with
    | Some [g1; g2] =>
        match py_int g1, py_float (replace_char comma dot g2) with
        | Some n, Some q => [(k_total_items, PyInt n); (k_total_sum, PyFloat q)]
        | _, _ => []
        end
    | _ => []
    end
  else [].

Lemma k_items_sum : k_total_items <> k_total_sum.
Proof. by vm_compute. Qed.

(** A line that returns normally stores exactly what [line_totals] says. *)
Lemma totals_step_get line s s' k :
  totals_step line s = (inr tt, s') ->
  dict_get (totals s') k = match dict_get (line_totals line) k with Some v => Some v | None => dict_get (totals s) k end.
Proof.
  unfold line_totals. totals_unfold. repeat case_match; simplify_eq/=; intros; simplify_eq/=;
    rewrite ?dict_get_set; repeat case_bool_decide; simplify_eq/=; try done.
  all: by destruct k_items_sum.
Qed.

(** The totals scan touches only the totals.
    Whatever the text, and also when it stops on a [ValueError], the
    totals scan leaves the header, the line items and the timestamp of
    [self.data] as they were. *)
Theorem parse_totals_only text d : exists t, (parse_totals text d).2 = set_totals (fun _ => t) d.
Proof.
  apply (pfor_invariant (fun s => exists t, s = set_totals (fun _ => t) d)).
  - intros x s [t ->]. destruct (totals_step_only (strip x) (set_totals (fun _ => t) d)) as [f ->].
    by exists (f t).
  - exists (totals d). apply set_totals_id.
Qed.

(** C7: last assignment wins, key by key.
    When the totals scan returns normally, each key of
    [self.data['totals']] holds the value stored by the last line that
    sets it -- ['total_amount'] by a line with ['Итого к оплате:'],
    ['vat_amount'] by one with ['В том числе НДС:'] and no total marker,
    ['total_items'] and ['total_sum'] by an item-count line -- and keeps
    its previous value when no line sets it. *)
Theorem parse_totals_last text d d' k :
  parse_totals text d = (inr tt, d') ->
  dict_get (totals d') k =
  match last (omap (fun l => dict_get (line_totals (strip l)) k) (lines text)) with
  | Some v => Some v
  | None => dict_get (totals d) k
  end.
Proof.
  apply (pfor_last _ _ (fun s => dict_get (totals s) k) Some). intros x s s1. apply totals_step_get.
Qed.

(** No marker, no totals.
    A text holding none of ['Итого к оплате:'], ['В том числе НДС:'] and
    ['Всего наименований'] makes the totals scan return normally with
    [self.data] unchanged. *)
Theorem parse_totals_no_marker text d :
  contains m_total text = false -> contains m_vat text = false ->
  contains m_items text = false -> parse_totals text d = (inr tt, d).
Proof.
  intros H1 H2 H3. apply pfor_skip. intros l Hl. unfold totals_step.
  destruct (contains m_total (strip l)) eqn:E1; [by rewrite (contains_line _ _ _ Hl E1) in H1|].
  destruct (contains m_vat (strip l)) eqn:E2; [by rewrite (contains_line _ _ _ Hl E2) in H2|].
  destruct (contains m_items (strip l)) eqn:E3; [by rewrite (contains_line _ _ _ Hl E3) in H3|].
  done.
Qed.

(** C23: the count is stored before the sum fails.
    When the scan reaches an item-count line (after lines that return
    normally) whose count [int()] reads but whose sum [float()] rejects,
    as in ["Всего наименований 3 на сумму 1.234,56 ₽"], the scan raises
    [ValueError] with [total_items] already stored and the later lines
    not read: [int(g1)] is assigned before [float(g2)] is evaluated. *)
Theorem parse_totals_count_before_sum text1 line text2 d d1 g1 g2 n :
  parse_totals text1 d = (inr tt, d1) -> newline ∉ line ->
  contains m_total (strip line) = false -> contains m_vat (strip line) = false ->
  contains m_items (strip line) = true ->
  search_groups items_re (strip line) [1; 2] = Some [g1; g2] ->
  py_int g1 = Some n -> py_float (replace_char comma dot g2) = None ->
  parse_totals (text1 ++ newline :: line ++ newline :: text2) d =
  (inl ValueError, set_totals (dict_set k_total_items (PyInt n)) d1).
Proof.
  intros H1 Hl Ht Hv Hi Hs Hn Hf. unfold parse_totals in *. rewrite (pfor_lines_at _ _ _ _ _ _ H1 Hl). cbv beta.
  unfold totals_step. rewrite Ht, Hv, Hi. unfold items_step. rewrite Hs. unfold set_total, to_float, to_int.
  pym_unfold. rewrite Hn, Hf. done.
Qed.

End TotalsLaws.

(** ** Examples and witnesses *)

Lemma parse_totals_last_witness :
  parse_totals two_totals (init_data (u "now")) = (inr tt, (parse_totals two_totals (init_data (u "now"))).2) /\
  dict_get (totals (parse_totals two_totals (init_data (u "now"))).2) k_total_amount =
  match last (omap (fun l => dict_get (line_totals (strip l)) k_total_amount) (lines two_totals)) with
  | Some v => Some v
  | None => dict_get (totals (init_data (u "now"))) k_total_amount
  end.
Proof.
  assert (H : parse_totals two_totals (init_data (u "now")) =
              (inr tt, (parse_totals two_totals (init_data (u "now"))).2)) by (vm_compute; reflexivity).
  split; [exact H|]. exact (parse_totals_last _ _ _ _ H).
Defined.

Lemma parse_totals_count_before_sum_witness :
  parse_totals (u "" ++ newline :: u "Всего наименований 3 на сумму 1.234,56 ₽" ++ newline ::
                u "Итого к оплате: 100,00 ₽") (init_data (u "now")) =
  (inl ValueError, set_totals (dict_set k_total_items (PyInt 3)) (init_data (u "now"))).
Proof.
  apply (parse_totals_count_before_sum _ _ _ _ _ (u "3") (u "1.234,56")); vm_compute; try reflexivity.
  intros H. inversion H; subst.
  repeat match goal with H : _ ∈ _ |- _ => inversion H; clear H; subst end.
Defined.

Lemma parse_totals_no_marker_witness :
  parse_totals (u "Хранение товаров") (init_data (u "now")) = (inr tt, init_data (u "now")).
Proof. apply parse_totals_no_marker; vm_compute; reflexivity. Defined.
