(* ===== verification/Parser.v ===== *)
(** * [InvoiceParser.parse]: the pipeline

    [parse()] ([src/pdf_parser.py], lines 24-53) opens the document, and
    for every page in order appends the page's text and a newline to
    [full_text] when the text is nonempty, and runs [_parse_tables] on the
    page's tables when there are any.  After the page loop it runs the
    header, line-item and totals scans on [full_text] and returns
    [self.data].  The document is the black box of the specification: a
    list of pages, each with an optional text and a list of tables of
    optional cells; a document that cannot be opened raises.

    Theorems: the table items come before the text items in
    [line_items]; a document without markers and tables gives the empty
    result; [line_items] is exactly the items of the table scans
    followed by those of the text scan, none merged or dropped; a
    second [parse()] on the same parser appends the items again; a failure
    is an unreadable document or a [ValueError] of a text amount. *)

From S2P Require Import Prelude Unicode PyStr Regex Number Dict Data Header LineItems Tables Totals.

(** A page of [pdf.pages]: [page.extract_text()] and
    [page.extract_tables()]. *)
Record page := { page_text : option pystr; page_tables : list table }.

(** [pdfplumber.open(self.pdf_path)]: the pages, or [None] when the
    document cannot be opened. *)
Abbreviation document := (option (list page)).

Section Parser.
Context `{DB : UnicodeDB}.

(** Lines 34-36: [if page_text: full_text += page_text + "\n"] *)
Definition add_page_text (full_text : pystr) (p : page) : pystr :=
  match page_text p with
  | Some t => if bool_decide (t <> []) then full_text ++ t ++ [newline] else full_text
  | None => full_text
  end.

(** Lines 39-42: [if tables: self._parse_tables(tables)] *)
Definition page_tables_step (p : page) : PyM invoice_data unit :=
  if bool_decide (page_tables p <> []) then parse_tables (page_tables p) else pret tt.

(** Lines 32-42: the body of the page loop; [full_text] is the
    accumulator. *)
Definition page_step (full_text : pystr) (p : page) : PyM invoice_data pystr :=
  let full_text' := add_page_text full_text p in
  page_tables_step p;;
  pret full_text'.

(** Lines 24-53 *)
Definition parse (doc : document) : PyM invoice_data invoice_data :=
  match doc with
  | None => praise DocumentError
  | Some pages =>
      full_text ← pfold page_step pages [];
      parse_header_info full_text;;
      parse_line_items full_text;;
      parse_totals full_text;;
      pget
  end.

(** [InvoiceParser(pdf_path).parse()], with the clock read by
    [__init__]. *)
Definition run_parser (now : pystr) (doc : document) : (exn + invoice_data) * invoice_data :=
  parse doc (init_data now).

(** The text the scans read: the nonempty page texts, each followed by a
    newline. *)
Definition full_text (pages : list page) : pystr := fold_left add_page_text pages [].

(** [self.data] after the page loop. *)
Definition tables_state (pages : list page) (d : invoice_data) : invoice_data :=
  fold_left (fun d p => (page_tables_step p d).2) pages d.

End Parser.

(** ** Laws *)

Section ParserLaws.
Context `{DB : UnicodeDB}.

Lemma page_tables_step_no_raise p d : (page_tables_step p d).1 = inr tt.
Proof. unfold page_tables_step. case_bool_decide; [apply parse_tables_no_raise|done]. Qed.

(** The page loop never raises: it computes the full text and runs the
    table scans. *)
Lemma page_loop pages d :
  pfold page_step pages [] d = (inr (full_text pages), tables_state pages d).
Proof.
  apply pfold_split. intros acc p s. unfold page_step. pym_unfold.
  pose proof (page_tables_step_no_raise p s) as H. by destruct (page_tables_step p s) as [[e|[]] s'].
Qed.

Definition table_item_p (it : line_item) : Prop := is_table_item it = true.
Definition text_item_p (it : line_item) : Prop := is_table_item it = false.

Lemma parse_tables_appends tables d : appends table_item_p d (parse_tables tables d).2.
Proof.
  apply pfor_appends. intros t s. apply pfor_appends. intros r s'. apply table_row_step_appends.
Qed.

Lemma tables_state_appends pages d : appends table_item_p d (tables_state pages d).
Proof.
  unfold tables_state. apply (fold_left_ind (appends table_item_p d)); [apply appends_refl|].
  intros s p _ Hs. eapply appends_trans; [exact Hs|]. unfold page_tables_step.
  case_bool_decide; [apply parse_tables_appends|apply appends_refl].
Qed.

Lemma parse_line_items_appends text d : appends text_item_p d (parse_line_items text d).2.
Proof. apply pfor_appends. intros. apply line_item_step_appends. Qed.

(** [line_items] is a run of table items followed by a run of text
    items. *)
Definition items_ordered (d : invoice_data) : Prop :=
  exists tbl txt, line_items d = tbl ++ txt /\ Forall table_item_p tbl /\ Forall text_item_p txt.

Definition all_table_items (d : invoice_data) : Prop := Forall table_item_p (line_items d).

Lemma all_table_items_ordered d : all_table_items d -> items_ordered d.
Proof. intros H. exists (line_items d), []. by rewrite app_nil_r. Qed.

Lemma appends_ordered d d' : items_ordered d -> appends text_item_p d d' -> items_ordered d'.
Proof.
  intros (tbl & txt & Hd & H1 & H2) (new & -> & Hn). exists tbl, (txt ++ new). simpl.
  rewrite Hd, app_assoc. split_and!; [done|done|by apply Forall_app].
Qed.

Lemma appends_all_table d d' : all_table_items d -> appends table_item_p d d' -> all_table_items d'.
Proof. intros H (new & -> & Hn). by apply Forall_app. Qed.

Lemma same_items_ordered d d' : line_items d' = line_items d -> items_ordered d -> items_ordered d'.
Proof. unfold items_ordered. by intros ->. Qed.

End ParserLaws.

Section ParserTheorems.
Context `{DB : UnicodeDB}.

Lemma parse_frame_items doc : frame_items (parse doc).
Proof.
  destruct doc as [pages|].
  - apply frame_items_bind; [apply frame_pfold; intros; unfold page_step, page_tables_step|intros text].
    + apply frame_bind; [case_match; [apply parse_tables_frame|apply frame_ret]|intros; apply frame_ret].
    + apply frame_items_bind; [apply parse_header_info_frame|intros _].
      apply frame_items_bind; [apply parse_line_items_frame|intros _].
      apply frame_items_bind; [apply parse_totals_frame|intros _]. apply frame_items_pget.
  - exists []. intros d. by rewrite app_nil_r.
Qed.

(** The markers of the three text scans. *)
Definition markers : list pystr :=
  [m_invoice; m_company; m_customer; m_storage; m_shipment; u "Приемка"; m_total; m_vat; m_items].

Lemma tables_state_no_tables pages d :
  Forall (fun p => page_tables p = []) pages -> tables_state pages d = d.
Proof.
  intros Hp. unfold tables_state. apply fold_left_id. intros p Hin.
  rewrite Forall_forall in Hp. unfold page_tables_step. by rewrite (Hp p Hin).
Qed.

(** C1: table items first.
    Whatever the document, and also when [parse()] raises, [line_items]
    is a run of table items followed by a run of text items: the tables
    are scanned inside the page loop, before the text scans. *)
Theorem run_parser_items_ordered now doc : items_ordered (run_parser now doc).2.
Proof.
  destruct doc as [pages|]; [|by exists [], []]. unfold run_parser, parse.
  apply (pbind_post all_table_items); [|intros text s Hs|exact all_table_items_ordered].
  { rewrite page_loop. eapply appends_all_table, tables_state_appends. constructor. }
  apply (pbind_post all_table_items); [|intros _ s1 Hs1|exact all_table_items_ordered].
  { unfold all_table_items. by rewrite (proj1 (proj2 (parse_header_info_items text s))). }
  apply (pbind_post items_ordered); [|intros _ s2 Hs2|done].
  { eapply appends_ordered, parse_line_items_appends. by apply all_table_items_ordered. }
  apply (pbind_post items_ordered); [|done|done].
  destruct (parse_totals_only text s2) as [t ->]. done.
Qed.

(** The scans of an opened document raise nothing but [ValueError]. *)
Lemma parse_raises pages : raises_in (fun e => e = ValueError) (parse (Some pages)).
Proof.
  unfold parse, page_step, page_tables_step, parse_tables, table_row_step, table_item_of_row,
    parse_header_info, parse_line_items, line_item_step, storage_step, reception_step,
    shipment_step, reception_op_step, parse_totals, totals_step, amount_step, items_step,
    set_total, to_float, to_int.
  raises_tac.
Qed.

(** C2: what [parse()] raises.
    [parse()] raises the document error exactly when the document cannot
    be opened; on an opened document the only exception that escapes is
    the [ValueError] of a [float()] or [int()] in the text scans (the
    table scan catches its own). *)
Theorem run_parser_raises now doc :
  match (run_parser now doc).1 with
  | inl e => (doc = None /\ e = DocumentError) \/ (doc <> None /\ e = ValueError)
  | inr _ => doc <> None
  end.
Proof.
  destruct doc as [pages|]; [|by left].
  pose proof (parse_raises pages (init_data now)) as H. unfold run_parser.
  destruct (parse (Some pages) (init_data now)).1; [by right|done].
Qed.

(** C12: a second parse repeats the items.
    [parse()] does not reset [self.data]: called a second time on the same
    parser with the same document it appends the items of the first call
    again, so [line_items] holds them twice. *)
Theorem parse_twice now doc :
  line_items (parse doc (run_parser now doc).2).2 =
  line_items (run_parser now doc).2 ++ line_items (run_parser now doc).2.
Proof.
  destruct (parse_frame_items doc) as [new Hnew]. unfold run_parser.
  rewrite (Hnew (parse doc (init_data now)).2), (Hnew (init_data now)). done.
Qed.

(** C11: no marker, empty result.
    A document that opens, has no tables, and whose text holds none of
    the markers of the header, line-item and totals scans makes [parse()]
    return normally the [self.data] of [__init__]: no header, no items,
    no totals. *)
Theorem run_parser_no_marker now pages :
  Forall (fun p => page_tables p = []) pages ->
  Forall (fun m => contains m (full_text pages) = false) markers ->
  run_parser now (Some pages) = (inr (init_data now), init_data now).
Proof.
  intros Ht Hm. unfold markers in Hm. repeat rewrite Forall_cons in Hm.
  destruct Hm as (H1 & H2 & H3 & H4 & H5 & H6 & H7 & H8 & H9 & _).
  unfold run_parser, parse. erewrite pbind_inr; [|rewrite page_loop; reflexivity].
  rewrite tables_state_no_tables by done.
  rewrite (pbind_inr (parse_header_info (full_text pages)) _ _ tt (init_data now)).
  2:{ rewrite parse_header_info_fold. unfold pmodify. by rewrite (scan_header_no_marker _ _ H1 H2 H3). }
  rewrite (pbind_inr (parse_line_items (full_text pages)) _ _ tt (init_data now))
    by exact (parse_line_items_no_marker _ _ H4 H5 H6).
  rewrite (pbind_inr (parse_totals (full_text pages)) _ _ tt (init_data now))
    by exact (parse_totals_no_marker _ _ H7 H8 H9).
  reflexivity.
Qed.

(** C13: both sources are kept.
    Whatever the document, and also when a scan raises, [line_items] is
    exactly the items the table scans of the page loop produce, in page
    order, followed by exactly the items the text scan produces from the
    joined page texts: no item of one source replaces, merges with or
    removes an item of the other, so a charge found both in the text and
    in a table gives two items. *)
Theorem run_parser_items now pages :
  line_items (run_parser now (Some pages)).2 =
  line_items (tables_state pages (init_data now)) ++
  line_items (parse_line_items (full_text pages) (init_data now)).2.
Proof.
  unfold run_parser, parse. erewrite pbind_inr; [|rewrite page_loop; reflexivity].
  set (text := full_text pages). set (s := tables_state pages (init_data now)).
  destruct (parse_header_info_items text s) as (Hh & Hhi & _).
  rewrite (pbind_inr _ _ _ tt (parse_header_info text s).2) by (rewrite <- Hh; by destruct (parse_header_info text s)).
  destruct (parse_line_items_frame text) as (r & new & Hf).
  rewrite (proj2 (Hf (init_data now))). simpl.
  destruct (Hf (parse_header_info text s).2) as [Hr Hi]. unfold mbind, pym_bind, pbind.
  destruct (parse_line_items text (parse_header_info text s).2) as [[e|[]] s2] eqn:E;
    simpl in *; [by rewrite Hhi in Hi|].
  destruct (parse_totals_only text s2) as [t Ht].
  destruct (parse_totals text s2) as [[e|[]] s3]; simpl in *; subst; by rewrite Hhi in Hi.
Qed.

End ParserTheorems.

Section FullText.
Context `{DB : UnicodeDB}.

(** The nonempty page texts, in page order. *)
Definition page_texts (pages : list page) : list pystr :=
  omap (fun p => match page_text p with
                 | Some t => if bool_decide (t <> []) then Some t else None
                 | None => None
                 end) pages.

Lemma fold_add_page_text pages acc :
  fold_left add_page_text pages acc = acc ++ concat (map (fun t => t ++ [newline]) (page_texts pages)).
Proof.
  revert acc. induction pages as [|p pages IH]; intros acc; simpl; [by rewrite app_nil_r|].
  rewrite IH. unfold add_page_text.
  destruct (page_text p) as [t|]; [case_bool_decide|]; simpl; by rewrite ?app_assoc.
Qed.

(** C14: page boundaries are line boundaries.
    The lines the three text scans read are, in order, the lines of each
    nonempty page text, followed by one empty line: a line never spans two
    pages, and a page without text adds no line. *)
Theorem full_text_lines pages :
  lines (full_text pages) = concat (map lines (page_texts pages)) ++ [[]].
Proof.
  unfold full_text. rewrite fold_add_page_text. simpl.
  induction (page_texts pages) as [|t ts IH]; [done|]. simpl.
  unfold lines in *. rewrite <- app_assoc. cbn [app]. by rewrite split_on_app_sep, IH, app_assoc.
Qed.

End FullText.

(** ** Examples and witnesses *)

Definition storage_page : page := {|
  page_text := Some (u "Хранение товаров от 01.01.2024 до 31.01.2024 2,50 м³ 100,00 ₽ 250,00 ₽");
  page_tables := [[[Some (u "1"); Some (u "Хранение товаров"); Some (u "2,50"); Some (u "м³");
                    Some (u "100,00"); Some (u "250,00")]]] |}.

Lemma run_parser_no_marker_witness :
  run_parser (u "2024-01-01T00:00:00")
    (Some [{| page_text := Some (u "Счет на оплату"); page_tables := [] |}]) =
  (inr (init_data (u "2024-01-01T00:00:00")), init_data (u "2024-01-01T00:00:00")).
Proof.
  apply run_parser_no_marker.
  - repeat constructor.
  - repeat (constructor; [vm_compute; reflexivity|]). constructor.
Defined.
