(* ===== verification/App.v ===== *)
(** * The upload endpoint [POST /api/v1/parse] of [src/app.py]

    [parse_pdf] ([src/app.py], lines 63-134) checks the request, saves
    the upload under a fresh name in the temporary directory, runs
    [InvoiceParser(file_path).parse()] on it and answers with a JSON
    envelope and a status code; a [finally] clause removes the saved file
    whatever the parser did.  [allowed_file] (lines 31-34) accepts a name
    whose text after the last dot is ['pdf'] in any case.

    The file system is a finite map from paths to contents ([gmap]).
    Werkzeug's [secure_filename], [uuid.uuid4().hex], the clock,
    [os.path.getsize], the message of an exception and pdfplumber's
    reading of a file are parameters of the section: they are libraries
    the handler calls.

    Theorems: the file system after a request is the one before it with
    the saved upload removed, on every path; the status code of every
    outcome; the parser is run on exactly the uploaded bytes; the
    specification of [allowed_file]. *)

From S2P Require Import Prelude Unicode PyStr Regex Dict Data Parser.

(** ** [allowed_file] *)

(** [s.lower()] *)
Definition lower `{UnicodeDB} (s : pystr) : pystr := concat (map to_lower s).

Definition ALLOWED_EXTENSIONS : list pystr := [u "pdf"].

(** lines 31-34: [ '.' in filename and filename.rsplit('.', 1)[1].lower()
    in ALLOWED_EXTENSIONS]; [rsplit('.', 1)[1]] is the text after the
    last dot, the last piece of the split on dots. *)
Definition allowed_file `{UnicodeDB} (filename : pystr) : bool :=
  contains [dot] filename &&
  bool_decide (lower (default [] (last (split_on dot filename))) ∈ ALLOWED_EXTENSIONS).

(** C10: the extension check.
    [allowed_file] accepts exactly the names with a dot whose text after
    the last dot lowercases to ['pdf']. *)
Theorem allowed_file_spec `{UnicodeDB} (filename : pystr) :
  allowed_file filename = true <->
  exists base ext, filename = base ++ dot :: ext /\ dot ∉ ext /\ lower ext = u "pdf".
Proof.
  unfold allowed_file. rewrite andb_true_iff, contains_char, bool_decide_eq_true. split.
  - intros [(base & ext & -> & Hext)%last_sep Hl]. rewrite last_split_on in Hl by done.
    apply list_elem_of_singleton in Hl. eauto.
  - intros (base & ext & -> & Hext & Hl). rewrite last_split_on by done. simpl. rewrite Hl.
    split; [apply elem_of_app; right; left|left].
Qed.

(** ** Requests, responses and the file system *)

(** [MAX_CONTENT_LENGTH], line 27 *)
Definition MAX_CONTENT_LENGTH : Z := 16 * 1024 * 1024.

Section App.
Context `{DB : UnicodeDB}.
(** The contents of a file. *)
Context {blob : Type}.
(** [werkzeug.utils.secure_filename] *)
Context (secure_filename : pystr -> pystr).
(** [uuid.uuid4().hex] for this request *)
Context (uuid_hex : pystr).
(** [tempfile.gettempdir()] *)
Context (UPLOAD_FOLDER : pystr).
(** [datetime.now().isoformat()] during this request *)
Context (now : pystr).
(** [os.path.getsize] *)
Context (getsize : blob -> Z).
(** pdfplumber's reading of a file: its pages, or [None] when the file
    is not a readable PDF *)
Context (pdf_pages : blob -> document).
(** [str(e)] of an exception of the parser *)
Context (exn_message : exn -> pystr).

(** [request.files['file']]: its [filename] and its bytes. *)
Record upload := { up_filename : pystr; up_data : blob }.

(** A request: its [Content-Length] and the [file] field, if any. *)
Record request := { content_length : Z; file_field : option upload }.

Abbreviation fs := (gmap pystr blob).

(** The JSON envelopes of [create_error_response] and
    [create_success_response]. *)
Inductive body :=
| ErrorBody (message timestamp : pystr)
| SuccessBody (message : pystr) (original_filename : pystr) (file_size_bytes : Z)
    (parsed_at : pystr) (invoice_data : invoice_data) (timestamp : pystr).

Record response := { status : nat; resp_body : body }.

(** lines 36-42 *)
Definition create_error_response (message : pystr) (status_code : nat) : response :=
  {| status := status_code; resp_body := ErrorBody message now |}.

(** [os.path.join(UPLOAD_FOLDER, name)] on POSIX *)
Definition path_join (dir name : pystr) : pystr :=
  if bool_decide (last dir = Some (ch "/")) then dir ++ name else dir ++ [ch "/"] ++ name.

(** lines 89-91: the path the upload is saved to *)
Definition upload_path (filename : pystr) : pystr :=
  path_join UPLOAD_FOLDER (uuid_hex ++ u "_" ++ secure_filename filename).

(** [InvoiceParser(file_path).parse()] on the file system: pdfplumber
    reads the file at the path. *)
Definition parse_file (fsys : fs) (path : pystr) : (exn + invoice_data) * invoice_data :=
  run_parser now (match fsys !! path with Some b => pdf_pages b | None => None end).

(** lines 97-128: the inner [try] with its [finally] *)
Definition parse_saved (filename : pystr) (path : pystr) (fsys : fs) : response * fs :=
  let resp :=
    match (parse_file fsys path).1 with
    | inr parsed_data =>
        let size := match fsys !! path with Some b => getsize b | None => 0%Z end in
        {| status := 200;
           resp_body := SuccessBody (u "PDF parsed successfully") filename size now parsed_data now |}
    | inl e => create_error_response (u "Error parsing PDF: " ++ exn_message e) 500
    end in
  (resp, delete path fsys).

(** lines 63-134 *)
Definition parse_pdf (req : request) (fsys : fs) : response * fs :=
  if bool_decide (MAX_CONTENT_LENGTH < content_length req)%Z then
    (create_error_response (u "File too large. Maximum size is 16MB") 413, fsys)
  else match file_field req with
  | None => (create_error_response (u "No file provided") 400, fsys)
  | Some file =>
      if bool_decide (up_filename file = []) then
        (create_error_response (u "No file selected") 400, fsys)
      else if negb (allowed_file (up_filename file)) then
        (create_error_response (u "Invalid file type. Only PDF files are allowed") 400, fsys)
      else
        let filename := secure_filename (up_filename file) in
        let file_path := upload_path (up_filename file) in
        parse_saved filename file_path (<[file_path := up_data file]> fsys)
  end.

(** ** Laws *)

(** On every path the handler removes the file it saved and touches no
    other file. *)
Lemma parse_pdf_fs req fsys :
  (parse_pdf req fsys).2 = fsys \/
  exists file, file_field req = Some file /\
    (parse_pdf req fsys).2 = delete (upload_path (up_filename file)) fsys.
Proof.
  unfold parse_pdf, parse_saved. case_bool_decide; [by left|].
  destruct (file_field req) as [file|]; [|by left]. case_bool_decide; [by left|].
  destruct (allowed_file (up_filename file)); simpl; [|by left].
  right. exists file. split; [done|]. apply delete_insert_eq.
Qed.

(** C8: no file is left behind.
    When the temporary name of the upload is fresh, the file system after
    the request is exactly the one before it, whatever the checks and the
    parser did: the [finally] clause removes the saved upload also when
    parsing raised. *)
Theorem parse_pdf_fresh req fsys :
  (forall file, file_field req = Some file -> fsys !! upload_path (up_filename file) = None) ->
  (parse_pdf req fsys).2 = fsys.
Proof.
  intros Hfresh. destruct (parse_pdf_fs req fsys) as [|(file & Hf & ->)]; [done|].
  apply delete_id. by apply Hfresh.
Qed.

(** C9: the parser reads the upload.
    A request that passes the checks is answered from
    [InvoiceParser(...).parse()] run on exactly the uploaded bytes: 200
    with the parsed [self.data] and the size of the upload when the
    parser returns, 500 with the exception's message when it raises. *)
Theorem parse_pdf_parsed req fsys file :
  (content_length req <= MAX_CONTENT_LENGTH)%Z -> file_field req = Some file ->
  up_filename file <> [] -> allowed_file (up_filename file) = true ->
  (parse_pdf req fsys).1 =
  match (run_parser now (pdf_pages (up_data file))).1 with
  | inr d => {| status := 200;
                resp_body := SuccessBody (u "PDF parsed successfully") (secure_filename (up_filename file))
                               (getsize (up_data file)) now d now |}
  | inl e => create_error_response (u "Error parsing PDF: " ++ exn_message e) 500
  end.
Proof.
  intros Hlen Hf Hname Hok. unfold parse_pdf. rewrite bool_decide_eq_false_2 by lia.
  rewrite Hf, bool_decide_eq_false_2 by done. rewrite Hok. simpl.
  unfold parse_saved, parse_file. by rewrite lookup_insert_eq.
Qed.

End App.

(** ** Examples and witnesses *)

Definition example_request : request (blob:=pystr) :=
  {| content_length := 1000; file_field := Some {| up_filename := u "invoice.pdf"; up_data := u "%PDF" |} |}.

Lemma parse_pdf_fresh_witness :
  (parse_pdf (blob:=pystr) id (u "0f3a") (u "/tmp") (u "now") (fun b => Z.of_nat (length b))
     (fun _ => None) (fun _ => u "cannot open") example_request ∅).2 = ∅.
Proof.
  apply parse_pdf_fresh. intros file Hf. injection Hf as <-. vm_compute. reflexivity.
Defined.

Lemma parse_pdf_parsed_witness :
  (parse_pdf (blob:=pystr) id (u "0f3a") (u "/tmp") (u "now") (fun b => Z.of_nat (length b))
     (fun _ => None) (fun _ => u "cannot open") example_request ∅).1 =
  create_error_response (u "now") (u "Error parsing PDF: " ++ u "cannot open") 500.
Proof.
  rewrite (parse_pdf_parsed _ _ _ _ _ _ _ _ _ {| up_filename := u "invoice.pdf"; up_data := u "%PDF" |});
    [vm_compute; reflexivity|vm_compute; discriminate|reflexivity|vm_compute; discriminate|vm_compute; reflexivity].
Defined.
