(* ===== verification/Output.v ===== *)
(** * The command line: [save_to_json], [print_summary] and [main]

    [InvoiceParser.save_to_json] ([src/pdf_parser.py], lines 241-245)
    opens the output path for writing in UTF-8 and calls [json.dump(
    self.data, f, ensure_ascii=False, indent=2)]; [print_summary] (lines
    247-278) prints the header fields, the first five line items and the
    totals; [main] (lines 280-303) parses ["invoice-act.pdf"], prints the
    summary, saves ["parsed_invoice.json"] and returns the data, or prints
    the exception and returns [None].

    The JSON value of [self.data] is [data_to_json]: the keys of every
    dict in the order the source inserts them (the dict literal of
    [__init__], the dict literals of the line items, ['type'] last for a
    table item since it is added after the literal), floats as the exact
    decimal they hold ([q_decimal]).  The console is a record of the files
    the program writes (paths to bytes) and of the text on standard
    output.  Four things are parameters of the section, as libraries the
    code calls: whether [open(path, 'w')] succeeds, the bytes a failed
    write leaves in the file, the [:.2f] formatting of a number and the
    text of an exception.

    Theorems: the UTF-8 file [save_to_json] writes is read back by the
    reference JSON reader [json_loads] of [Json.v] as the JSON value of
    the data; [main] returns the data exactly when parsing and saving
    succeed, and then the file holds it; a failed save is reported as a
    parse error; a parser error is printed and nothing is written. *)

From S2P Require Import Prelude Unicode PyStr Number Dict Data Json Parser.

(** ** The JSON value of [self.data] *)

(** The exact decimal of a float: [Qnum q * 10^k / Qden q] with [k]
    the binary size of the denominator, in lowest terms. *)
Definition q_decimal (q : Q) : Z * Z :=
  let k := Z.of_nat (Pos.size_nat (Qden q)) in
  canon (Qnum q * 10 ^ k / Z.pos (Qden q)) (- k).

(** A float of the model is a finite decimal: its denominator divides
    [10^k]. *)
Definition finite_decimal (q : Q) : bool :=
  ((10 ^ Z.of_nat (Pos.size_nat (Qden q))) mod Z.pos (Qden q) =? 0)%Z.

Definition q_to_json (q : Q) : json := let '(m, e) := q_decimal q in JFloat m e.

Definition num_to_json (n : pynum) : json :=
  match n with PyInt z => JInt z | PyFloat q => q_to_json q end.

Definition str_dict_json (d : pydict pystr) : json := JObj (map (fun kv => (kv.1, JStr kv.2)) d).

Definition num_dict_json (d : pydict pynum) : json := JObj (map (fun kv => (kv.1, num_to_json kv.2)) d).

Definition k_type := u "type".
Definition k_description := u "description".
Definition k_quantity := u "quantity".
Definition k_unit := u "unit".
Definition k_price_per_unit := u "price_per_unit".

(** ['description'] of an item, as the source builds it. *)
Definition item_description (it : line_item) : pystr :=
  match it with
  | Storage desc _ _ _ _ _ => desc
  | Reception _ _ _ => u "Приемка товара на склад и размещение"
  | Shipment fbo _ => u "Отгрузка FBO " ++ fbo
  | ReceptionOperation n _ => u "Приемка " ++ n
  | TableItem _ desc _ _ _ _ => desc
  end.

(** The dict of a line item with its keys in the order of the source's
    dict literal. *)
Definition item_to_json (it : line_item) : json :=
  match it with
  | Storage desc f t q p tot =>
      JObj [(k_type, JStr (u "storage")); (k_description, JStr desc); (u "from_date", JStr f);
            (u "to_date", JStr t); (k_quantity, q_to_json q); (k_unit, JStr (u "м³"));
            (k_price_per_unit, q_to_json p); (k_total_amount, q_to_json tot)]
  | Reception q p tot =>
      JObj [(k_type, JStr (u "reception")); (k_description, JStr (item_description it));
            (k_quantity, JInt q); (k_unit, JStr (u "шт."));
            (k_price_per_unit, q_to_json p); (k_total_amount, q_to_json tot)]
  | Shipment fbo date =>
      JObj [(k_type, JStr (u "shipment")); (k_description, JStr (item_description it));
            (u "fbo_number", JStr fbo); (k_date, JStr date); (k_total_amount, JInt 0)]
  | ReceptionOperation n date =>
      JObj [(k_type, JStr (u "reception_operation")); (k_description, JStr (item_description it));
            (u "reception_number", JStr n); (k_date, JStr date); (k_total_amount, JInt 0)]
  | TableItem rn desc q un p tot =>
      JObj [(u "row_number", JInt rn); (k_description, JStr desc); (k_quantity, num_to_json q);
            (k_unit, JStr un); (k_price_per_unit, num_to_json p); (k_total_amount, num_to_json tot);
            (k_type, JStr (u "table_item"))]
  end.

(** [self.data] with the keys of the literal of [__init__]. *)
Definition data_to_json (d : invoice_data) : json :=
  JObj [(u "invoice_info", str_dict_json (invoice_info d));
        (u "company_info", str_dict_json (company_info d));
        (u "customer_info", str_dict_json (customer_info d));
        (u "line_items", JArr (map item_to_json (line_items d)));
        (u "totals", num_dict_json (totals d));
        (u "parsed_at", JStr (parsed_at d))].

(** ** The console: files and standard output *)

Record console := { files : gmap pystr (list N); stdout : pystr }.

(** [print(s)] *)
Definition print (s : pystr) (c : console) : console :=
  {| files := files c; stdout := stdout c ++ s ++ [newline] |}.

Definition write_file (path : pystr) (bytes : list N) (c : console) : console :=
  {| files := <[path := bytes]> (files c); stdout := stdout c |}.

(** [str.encode('utf-8')] in the default strict mode: a lone surrogate
    raises [UnicodeEncodeError]. *)
Definition is_surrogate (c : uchar) : bool := (55296 <=? c)%N && (c <=? 57343)%N.

Definition utf8_encode_strict (s : pystr) : option (list N) :=
  if existsb is_surrogate s then None else Some (utf8_encode s).

(** [str(x)] of a number of the data: [int.__repr__] or
    [float.__repr__]. *)
Definition py_str_num (n : pynum) : pystr :=
  match n with PyInt z => int_repr z | PyFloat q => let '(m, e) := q_decimal q in float_repr m e end.

(** [d.get(k, default)] *)
Definition dict_get_or {V} (d : pydict V) (k : pystr) (default_v : V) : V := default default_v (dict_get d k).

Section Output.
Context `{DB : UnicodeDB}.
(** Whether [open(path, 'w', encoding='utf-8')] succeeds on these files. *)
Context (can_open : gmap pystr (list N) -> pystr -> bool).
(** The bytes in the file when [json.dump] raises while writing this
    text: what the buffered writer flushed before the failing chunk. *)
Context (flushed : pystr -> list N).
(** [f"{x:.2f}"] *)
Context (format_2f : pynum -> pystr).
(** [str(e)] *)
Context (exn_message : exn -> pystr).

(** lines 241-245 *)
Definition save_to_json (output_path : pystr) (d : invoice_data) (c : console) : (exn + unit) * console :=
  if negb (can_open (files c) output_path) then (inl OSError, c)
  else
    let text := json_dumps (data_to_json d) in
    match utf8_encode_strict text with
    | Some bytes => (inr tt, print (u "Data saved to: " ++ output_path) (write_file output_path bytes c))
    | None => (inl UnicodeEncodeError, write_file output_path (flushed text) c)
    end.

(** line 269: one line of the first five items, numbered from [i]. *)
Definition item_line (i : nat) (it : line_item) : pystr :=
  u "  " ++ int_repr (Z.of_nat i) ++ u ". " ++ take 50 (item_description it) ++ u "... - " ++
  format_2f (item_total it) ++ u " ₽".

(** The lines [print_summary] prints, lines 247-278. *)
Definition summary_lines (d : invoice_data) : list pystr :=
  [newline :: u "=== INVOICE PARSING SUMMARY ==="] ++
  (if bool_decide (invoice_info d = []) then []
   else [u "Invoice Number: " ++ dict_get_or (invoice_info d) k_number (u "N/A");
         u "Invoice Date: " ++ dict_get_or (invoice_info d) k_date (u "N/A")]) ++
  (if bool_decide (company_info d = []) then []
   else [u "Company: " ++ dict_get_or (company_info d) k_name (u "N/A");
         u "Company INN: " ++ dict_get_or (company_info d) k_inn (u "N/A")]) ++
  (if bool_decide (customer_info d = []) then []
   else [u "Customer: " ++ dict_get_or (customer_info d) k_name (u "N/A");
         u "Customer INN: " ++ dict_get_or (customer_info d) k_inn (u "N/A")]) ++
  [newline :: u "Line Items: " ++ int_repr (Z.of_nat (length (line_items d)))] ++
  imap (fun i it => item_line (S i) it) (take 5 (line_items d)) ++
  (if (5 <? length (line_items d))%nat
   then [u "  ... and " ++ int_repr (Z.of_nat (length (line_items d) - 5)) ++ u " more items"] else []) ++
  (if bool_decide (totals d = []) then []
   else [newline :: u "Total Amount: " ++ format_2f (dict_get_or (totals d) k_total_amount (PyInt 0)) ++ u " ₽";
         u "VAT Amount: " ++ format_2f (dict_get_or (totals d) k_vat_amount (PyInt 0)) ++ u " ₽";
         u "Total Items: " ++ py_str_num (dict_get_or (totals d) k_total_items (PyInt 0))]).

Definition print_summary (d : invoice_data) (c : console) : console :=
  foldl (fun c s => print s c) c (summary_lines d).

Definition output_json := u "parsed_invoice.json".

(** lines 280-303: [doc] is pdfplumber's reading of ["invoice-act.pdf"]
    and [now] the clock when the parser is built. *)
Definition main (now : pystr) (doc : document) (c : console) : option invoice_data * console :=
  match run_parser now doc with
  | (inl e, _) => (None, print (u "❌ Error parsing PDF: " ++ exn_message e) c)
  | (inr data, d) =>
      let c1 := print_summary d c in
      match save_to_json output_json d c1 with
      | (inl e, c2) => (None, print (u "❌ Error parsing PDF: " ++ exn_message e) c2)
      | (inr _, c2) =>
          (Some data, print (u "📁 Parsed data saved to: parsed_invoice.json")
                        (print (newline :: u "✅ PDF parsing completed successfully!") c2))
      end
  end.

End Output.

(** ** Laws *)

Arguments q_to_json : simpl never.
Arguments num_to_json : simpl never.

Lemma q_to_json_ok q : json_okb (q_to_json q) = true /\ json_strs_ok (q_to_json q) = true.
Proof.
  unfold q_to_json, q_decimal. pose proof (canon_float_ok (Qnum q * 10 ^ Z.of_nat (Pos.size_nat (Qden q))
    / Z.pos (Qden q)) (- Z.of_nat (Pos.size_nat (Qden q)))) as H.
  destruct (canon _ _). split; [|done]. by apply bool_decide_eq_true.
Qed.

Lemma num_to_json_ok n : json_okb (num_to_json n) = true /\ json_strs_ok (num_to_json n) = true.
Proof. destruct n; [done|apply q_to_json_ok]. Qed.

(** The strings of a line item. *)
Definition item_strings (it : line_item) : list pystr :=
  match it with
  | Storage desc f t _ _ _ => [desc; f; t]
  | Reception _ _ _ => []
  | Shipment fbo date => [fbo; date]
  | ReceptionOperation n date => [n; date]
  | TableItem _ desc _ un _ _ => [desc; un]
  end.

(** Every string of [self.data] is a Python [str]. *)
Definition data_text_ok (d : invoice_data) : Prop :=
  Forall (fun kv => py_text kv.1 /\ py_text kv.2) (invoice_info d ++ company_info d ++ customer_info d) /\
  Forall (fun it => Forall py_text (item_strings it)) (line_items d) /\
  Forall (fun kv => py_text kv.1) (totals d) /\ py_text (parsed_at d).

Lemma json_strs_ok_obj kvs :
  json_strs_ok (JObj kvs) = true <-> Forall (fun kv => py_text kv.1 /\ json_strs_ok kv.2 = true) kvs.
Proof.
  change (forallb (fun kv => bool_decide (py_text kv.1) && json_strs_ok kv.2) kvs = true <->
          Forall (fun kv => py_text kv.1 /\ json_strs_ok kv.2 = true) kvs).
  rewrite forallb_Forall. apply Forall_iff. intros kv. by rewrite andb_true_iff, bool_decide_eq_true.
Qed.

Lemma json_strs_ok_str s : json_strs_ok (JStr s) = true <-> py_text s.
Proof. apply bool_decide_eq_true. Qed.

(** Discharge the well-formedness of a printed dict, one member at a
    time: constant strings by evaluation, the others from hypotheses. *)
Ltac json_ok_tac :=
  repeat match goal with
  | H : ?P |- ?P => exact H
  | |- Forall _ (_ :: _) => constructor
  | |- Forall _ [] => constructor
  | |- _ /\ _ => split
  | |- (fun _ => _) _ => cbv beta
  | |- context [(_, _).1] => cbn [fst]
  | |- context [(_, _).2] => cbn [snd]
  | |- json_okb (q_to_json _) = true => apply q_to_json_ok
  | |- json_strs_ok (q_to_json _) = true => apply q_to_json_ok
  | |- json_okb (num_to_json _) = true => apply num_to_json_ok
  | |- json_strs_ok (num_to_json _) = true => apply num_to_json_ok
  | |- json_okb (JStr _) = true => reflexivity
  | |- json_okb (JInt _) = true => reflexivity
  | |- json_strs_ok (JInt _) = true => reflexivity
  | |- json_strs_ok (JStr _) = true => apply json_strs_ok_str
  | H : py_text ?s |- py_text ?s => exact H
  | |- py_text (_ ++ _) => apply py_text_app
  | |- py_text _ => apply py_text_ascii; vm_compute; reflexivity
  end.

Lemma item_to_json_ok it :
  Forall py_text (item_strings it) -> json_okb (item_to_json it) = true /\ json_strs_ok (item_to_json it) = true.
Proof.
  intros Hs. destruct it; simpl in Hs; repeat match goal with H : Forall _ (_ :: _) |- _ => inversion_clear H end;
    (split; [apply json_okb_obj|apply json_strs_ok_obj]); cbn [item_description]; json_ok_tac.
Qed.

Lemma Forall_map_iff {A B} (f : A -> B) (P : B -> Prop) l : Forall P (map f l) <-> Forall (fun x => P (f x)) l.
Proof. induction l as [|x l IH]; simpl; [split; constructor|]. by rewrite !Forall_cons, IH. Qed.

Lemma str_dict_json_ok d :
  Forall (fun kv => py_text kv.1 /\ py_text kv.2) d ->
  json_okb (str_dict_json d) = true /\ json_strs_ok (str_dict_json d) = true.
Proof.
  intros Hd. split; [apply json_okb_obj|apply json_strs_ok_obj]; apply Forall_map_iff;
    (eapply Forall_impl; [exact Hd|]); intros [k v] [Hk Hv]; cbn [fst snd]; [done|].
  split; [done|]. by apply json_strs_ok_str.
Qed.

Lemma num_dict_json_ok d :
  Forall (fun kv => py_text kv.1) d -> json_okb (num_dict_json d) = true /\ json_strs_ok (num_dict_json d) = true.
Proof.
  intros Hd. split; [apply json_okb_obj|apply json_strs_ok_obj]; apply Forall_map_iff;
    (eapply Forall_impl; [exact Hd|]); intros [k v] Hk; cbn [fst snd]; [apply num_to_json_ok|].
  split; [done|apply num_to_json_ok].
Qed.

Lemma items_json_ok items :
  Forall (fun it => Forall py_text (item_strings it)) items ->
  json_okb (JArr (map item_to_json items)) = true /\ json_strs_ok (JArr (map item_to_json items)) = true.
Proof.
  intros Hi. split; [apply json_okb_arr|change (forallb json_strs_ok (map item_to_json items) = true);
    apply forallb_Forall]; apply Forall_map_iff; (eapply Forall_impl; [exact Hi|]); intros it Hit;
    apply (item_to_json_ok it Hit).
Qed.

(** The JSON value of data whose strings are Python strings has floats
    in lowest terms and Python strings only. *)
Lemma data_to_json_ok d : data_text_ok d -> json_okb (data_to_json d) = true /\ json_strs_ok (data_to_json d) = true.
Proof.
  intros (Hinfo & Hitems & Htot & Hp). apply Forall_app in Hinfo as [Hi Hinfo].
  apply Forall_app in Hinfo as [Hco Hcu].
  destruct (str_dict_json_ok _ Hi), (str_dict_json_ok _ Hco), (str_dict_json_ok _ Hcu),
    (items_json_ok _ Hitems), (num_dict_json_ok _ Htot).
  split; [apply json_okb_obj|apply json_strs_ok_obj]; json_ok_tac.
Qed.

(** The bytes of the text of [data_to_json d] are read back as it. *)
Lemma saved_bytes_read_back d :
  data_text_ok d -> json_loads (utf8_decode (utf8_encode (json_dumps (data_to_json d)))) = Some (data_to_json d).
Proof.
  intros Hd. destruct (data_to_json_ok d Hd) as [Hok Hs].
  rewrite utf8_decode_encode by (by apply dump_py_text). by apply json_loads_dumps.
Qed.

Lemma parse_result_state `{UnicodeDB} doc d x : (parse doc d).1 = inr x -> (parse doc d).2 = x.
Proof.
  destruct doc as [pages|]; [|done]. unfold parse. pym_unfold. unfold pget.
  repeat case_match; simplify_eq/=; congruence.
Qed.

Section OutputLaws.
Context `{DB : UnicodeDB}.
Context (can_open : gmap pystr (list N) -> pystr -> bool) (flushed : pystr -> list N).
Context (format_2f : pynum -> pystr) (exn_message : exn -> pystr).

Lemma save_to_json_file path d c :
  (save_to_json can_open flushed path d c).1 = inr tt ->
  files (save_to_json can_open flushed path d c).2 !! path = Some (utf8_encode (json_dumps (data_to_json d))).
Proof.
  unfold save_to_json, utf8_encode_strict. destruct (can_open _ _); [|done].
  destruct (existsb _ _); [done|]. intros _. simpl. apply lookup_insert_eq.
Qed.

(** C24: the saved file reads back.
    When [save_to_json] returns, the file at the output path holds bytes
    that decode as UTF-8 to a text that the reference reader [json_loads]
    (the JSON grammar, standing for [json.loads]) reads as exactly the
    JSON value of [self.data]: every key, string, integer and float is
    written so that it is read back, in the order of the dicts. *)
Theorem save_to_json_roundtrip path d c :
  data_text_ok d -> (save_to_json can_open flushed path d c).1 = inr tt ->
  exists bytes, files (save_to_json can_open flushed path d c).2 !! path = Some bytes /\
                json_loads (utf8_decode bytes) = Some (data_to_json d).
Proof.
  intros Hd. unfold save_to_json, utf8_encode_strict. destruct (can_open _ _); [|done].
  destruct (existsb _ _); [done|]. intros _. eexists. split; [apply lookup_insert_eq|].
  by apply saved_bytes_read_back.
Qed.

(** C25: what [main] returns is what it saved.
    When [main()] returns data, the parser returned that data without
    raising, and the file ["parsed_invoice.json"] holds its JSON text,
    which [json.loads] reads back as the JSON value of the data. *)
Theorem main_saves now doc c data :
  (main can_open flushed format_2f exn_message now doc c).1 = Some data -> data_text_ok data ->
  run_parser now doc = (inr data, data) /\
  exists bytes, files (main can_open flushed format_2f exn_message now doc c).2 !! output_json = Some bytes /\
                json_loads (utf8_decode bytes) = Some (data_to_json data).
Proof.
  unfold main. destruct (run_parser now doc) as [[e|x] d] eqn:Hr; [done|].
  pose proof (parse_result_state doc (init_data now) x) as Hx. unfold run_parser in Hr.
  rewrite Hr in Hx. cbn in Hx. specialize (Hx eq_refl). subst d.
  destruct (save_to_json _ _ output_json x _) as [[e|[]] c2] eqn:Hs; [done|]. intros [= <-] Hd.
  split; [done|]. eexists. split; [|by apply saved_bytes_read_back]. cbn [files print].
  pose proof (save_to_json_file output_json x (print_summary format_2f x c)) as Hf.
  rewrite Hs in Hf. by apply Hf.
Qed.

(** C27: a parser error is reported, nothing is saved.
    When [parse()] raises, [main()] returns [None] after printing the
    exception's message, and writes no file. *)
Theorem main_parse_error now doc c e :
  (run_parser now doc).1 = inl e ->
  main can_open flushed format_2f exn_message now doc c =
  (None, print (u "❌ Error parsing PDF: " ++ exn_message e) c).
Proof. intros He. unfold main. destruct (run_parser now doc) as [[e'|x] d]; simpl in He; by simplify_eq. Qed.

(** C26: a failed save is reported as a parse error.
    When the parser returns but ["parsed_invoice.json"] cannot be opened,
    [main()] prints the summary, then ["❌ Error parsing PDF: "] with the
    [OSError], and returns [None]: the parsed data is discarded and the
    message blames parsing for a failure to write. *)
Theorem main_save_error now doc c data :
  run_parser now doc = (inr data, data) ->
  can_open (files (print_summary format_2f data c)) output_json = false ->
  main can_open flushed format_2f exn_message now doc c =
  (None, print (u "❌ Error parsing PDF: " ++ exn_message OSError) (print_summary format_2f data c)).
Proof. intros Hr Ho. unfold main. rewrite Hr. unfold save_to_json. by rewrite Ho. Qed.

End OutputLaws.

(** exact decimals.
    The JSON float written for a finite decimal [q] has [q]'s value:
    [m * 10^e = Qnum q / Qden q] for [(m, e) = q_decimal q], both sides
    multiplied by [10^K] and by the denominator. *)
Theorem q_decimal_value q :
  finite_decimal q = true ->
  (- Z.of_nat (Pos.size_nat (Qden q)) <= (q_decimal q).2)%Z /\
  ((q_decimal q).1 * 10 ^ ((q_decimal q).2 + Z.of_nat (Pos.size_nat (Qden q))) * Z.pos (Qden q) =
   Qnum q * 10 ^ Z.of_nat (Pos.size_nat (Qden q)))%Z.
Proof.
  unfold finite_decimal, q_decimal. set (K := Z.of_nat (Pos.size_nat (Qden q))). intros Hf%Z.eqb_eq.
  assert (HK : (0 <= K)%Z) by lia.
  assert (Hm : ((Qnum q * 10 ^ K) mod Z.pos (Qden q) = 0)%Z) by (by rewrite Z.mul_mod, Hf, Z.mul_0_r).
  assert (Hd : Z.pos (Qden q) <> 0%Z) by (pose proof (Pos2Z.pos_is_pos (Qden q)); lia).
  apply (Z.div_exact _ _ Hd) in Hm. set (n := (Qnum q * 10 ^ K / Z.pos (Qden q))%Z) in *.
  destruct (Z.eq_dec n 0%Z) as [Hn|Hn].
  - rewrite Hn in Hm |- *. unfold canon. simpl. lia.
  - destruct (canon_spec n (- K) Hn) as (m' & k & -> & Hv & _). cbn [fst snd]. split; [lia|].
    replace (- K + Z.of_nat k + K)%Z with (Z.of_nat k) by lia. lia.
Qed.

#[global] Instance data_text_ok_dec d : Decision (data_text_ok d).
Proof. unfold data_text_ok, py_text. apply _. Defined.

(** ** Examples and witnesses *)

Definition example_now := u "2024-01-01T00:00:00".
Definition example_data := (run_parser example_now (Some [storage_page])).2.
Definition empty_console : console := {| files := ∅; stdout := [] |}.
Definition always_open : gmap pystr (list N) -> pystr -> bool := fun _ _ => true.
Definition no_bytes : pystr -> list N := fun _ => [].

Lemma example_data_text_ok : data_text_ok example_data.
Proof. apply (bool_decide_unpack _). vm_compute. reflexivity. Qed.

Lemma save_to_json_roundtrip_witness :
  (save_to_json always_open no_bytes output_json example_data empty_console).1 = inr tt /\
  exists bytes, files (save_to_json always_open no_bytes output_json example_data empty_console).2 !! output_json
                = Some bytes /\ json_loads (utf8_decode bytes) = Some (data_to_json example_data).
Proof.
  assert (Hs : (save_to_json always_open no_bytes output_json example_data empty_console).1 = inr tt)
    by (vm_compute; reflexivity).
  split; [exact Hs|]. exact (save_to_json_roundtrip always_open no_bytes output_json example_data
                               empty_console example_data_text_ok Hs).
Defined.

Lemma main_saves_witness :
  (main always_open no_bytes (fun _ => []) (fun _ => []) example_now (Some [storage_page]) empty_console).1
    = Some example_data /\
  run_parser example_now (Some [storage_page]) = (inr example_data, example_data).
Proof.
  assert (Hm : (main always_open no_bytes (fun _ => []) (fun _ => []) example_now (Some [storage_page])
                 empty_console).1 = Some example_data) by (vm_compute; reflexivity).
  split; [exact Hm|]. exact (proj1 (main_saves always_open no_bytes (fun _ => []) (fun _ => []) example_now
                                      (Some [storage_page]) empty_console example_data Hm example_data_text_ok)).
Defined.

Lemma main_parse_error_witness :
  (run_parser example_now None).1 = inl DocumentError /\
  main always_open no_bytes (fun _ => []) (fun _ => []) example_now None empty_console =
  (None, print (u "❌ Error parsing PDF: ") empty_console).
Proof.
  assert (He : (run_parser example_now None).1 = inl DocumentError) by reflexivity.
  split; [exact He|]. exact (main_parse_error always_open no_bytes (fun _ => []) (fun _ => []) example_now None
                              empty_console DocumentError He).
Defined.

Lemma main_save_error_witness :
  run_parser example_now (Some [storage_page]) = (inr example_data, example_data) /\
  main (fun _ _ => false) no_bytes (fun _ => []) (fun _ => []) example_now (Some [storage_page]) empty_console =
  (None, print (u "❌ Error parsing PDF: ") (print_summary (fun _ => []) example_data empty_console)).
Proof.
  assert (Hr : run_parser example_now (Some [storage_page]) = (inr example_data, example_data))
    by (vm_compute; reflexivity).
  split; [exact Hr|]. exact (main_save_error (fun _ _ => false) no_bytes (fun _ => []) (fun _ => []) example_now
                              (Some [storage_page]) empty_console example_data Hr eq_refl).
Defined.
