(* ===== verification/Wsgi.v ===== *)
(** * Deployment entry point: [src/wsgi.py]

    [wsgi.py] imports [app] from [src/app.py], whose import has already
    run [logging.basicConfig(level=logging.INFO)] (a stream handler on
    standard error attached to the root logger, root level [INFO]) and set
    [app.config['MAX_CONTENT_LENGTH']] and [app.config['UPLOAD_FOLDER']]
    (lines 20, 27-28 of [app.py]).  [create_application] (lines 56-70)
    copies the upper-case attributes of [ProductionConfig] (lines 19-25)
    into [app.config], runs [setup_logging] (lines 27-54), which creates
    the log directory and one rotating file handler and attaches that same
    handler both to [app.logger] and to the root logger, and logs three
    startup messages on [app.logger].

    The part of Python's [logging] the code relies on is modelled after
    CPython's [Logger]: a record is emitted when its level is at least
    the logger's effective level (its own level, else its parent's);
    [callHandlers] then gives it to every handler of the logger whose
    level it reaches and, while [propagate] is true, to those of the
    parent.  [app.logger] is Flask's [logging.getLogger(app.name)] with
    [app.name = 'app'], the logger [app.py] also gets as
    [logging.getLogger(__name__)]; its parent is the root logger.  Only
    these two loggers occur, so the hierarchy of dotted names is not
    modelled.  Log lines are recorded in emission order with their
    destination; the time stamp [asctime] is a parameter, and the
    rotation of [RotatingFileHandler] (which only renames files) is not
    modelled.

    Theorems: after [create_application], every record of level [INFO]
    or more on [app.logger] is written twice to the log file, and
    records below [INFO] are dropped on every logger. *)

From S2P Require Import Prelude Unicode PyStr Dict Json App.

(** ** The part of [logging] the code uses *)

Definition NOTSET : N := 0.
Definition DEBUG_LEVEL : N := 10.
Definition INFO : N := 20.
Definition WARNING : N := 30.

(** [logging.getLevelName] of the levels used *)
Definition level_name (lvl : N) : pystr :=
  if (lvl =? 10)%N then u "DEBUG" else if (lvl =? 20)%N then u "INFO"
  else if (lvl =? 30)%N then u "WARNING" else if (lvl =? 40)%N then u "ERROR"
  else if (lvl =? 50)%N then u "CRITICAL" else u "Level " ++ int_repr (Z.of_N lvl).

(** Where a handler writes. *)
Inductive target := Stderr | LogFile (path : pystr).

#[global] Instance target_eq_dec : EqDecision target.
Proof. solve_decision. Defined.

(** [Formatter.format] with the format strings of the program:
    [logging.BASIC_FORMAT], the one of [setup_logging] (wsgi.py, lines
    41-43), the default handler of Flask and the last-resort handler of
    [logging].  [module] is the module that made the call. *)
Inductive log_format := BasicFormat | ProductionFormat | FlaskFormat | MessageFormat.

Definition format_line (asctime module : pystr) (f : log_format) (name : pystr) (lvl : N) (msg : pystr)
    : pystr :=
  match f with
  | BasicFormat => level_name lvl ++ u ":" ++ name ++ u ":" ++ msg
  | ProductionFormat => asctime ++ u " " ++ level_name lvl ++ u " [" ++ name ++ u "] " ++ msg
  | FlaskFormat => u "[" ++ asctime ++ u "] " ++ level_name lvl ++ u " in " ++ module ++ u ": " ++ msg
  | MessageFormat => msg
  end.

Record handler := { h_level : N; h_target : target; h_format : log_format }.

Record logger := { lg_level : N; lg_handlers : list nat; lg_propagate : bool }.

(** The loggers by name, the handler objects (a handler is shared by
    every logger it was added to: loggers hold indices), the directories
    that exist and the lines written so far. *)
Record log_state := {
  loggers : gmap pystr logger;
  handlers : list handler;
  dirs : list pystr;
  emitted : list (target * pystr)
}.

Definition root_name := u "root".
Definition new_logger : logger := {| lg_level := NOTSET; lg_handlers := []; lg_propagate := true |}.

(** [logging.getLogger(name)] *)
Definition get_logger (st : log_state) (name : pystr) : logger := default new_logger (loggers st !! name).

Definition put_logger (name : pystr) (l : logger) (st : log_state) : log_state :=
  {| loggers := <[name := l]> (loggers st); handlers := handlers st; dirs := dirs st; emitted := emitted st |}.

(** The loggers a record of [name] passes through: the logger, then the
    root while [propagate] is true. *)
Definition logger_chain (st : log_state) (name : pystr) : list logger :=
  if bool_decide (name = root_name) then [get_logger st root_name]
  else let l := get_logger st name in
       if lg_propagate l then [l; get_logger st root_name] else [l].

(** [Logger.getEffectiveLevel] *)
Definition effective_level (st : log_state) (name : pystr) : N :=
  default NOTSET (head (filter (fun lvl => lvl <> NOTSET) (map lg_level (logger_chain st name)))).

(** The handlers a record of [name] reaches, in the order
    [Logger.callHandlers] visits them. *)
Definition chain_handlers (st : log_state) (name : pystr) : list handler :=
  l ← logger_chain st name; hi ← lg_handlers l; from_option (fun h => [h]) [] (handlers st !! hi).

(** [logging.lastResort]: a stream handler on standard error at level
    [WARNING] that prints the bare message. *)
Definition last_resort : handler := {| h_level := WARNING; h_target := Stderr; h_format := MessageFormat |}.

(** [Logger.callHandlers]: the lines written for one record; when no
    handler is found on the way, the last-resort handler is used. *)
Definition call_handlers (asctime module : pystr) (st : log_state) (name : pystr) (lvl : N) (msg : pystr)
    : list (target * pystr) :=
  let hs := match chain_handlers st name with [] => [last_resort] | hs => hs end in
  h ← hs;
  if (h_level h <=? lvl)%N then [(h_target h, format_line asctime module (h_format h) name lvl msg)] else [].

(** [logger.log(lvl, msg)]: [isEnabledFor], then [handle]. *)
Definition log (asctime module : pystr) (name : pystr) (lvl : N) (msg : pystr) (st : log_state) : log_state :=
  if (effective_level st name <=? lvl)%N then
    {| loggers := loggers st; handlers := handlers st; dirs := dirs st;
       emitted := emitted st ++ call_handlers asctime module st name lvl msg |}
  else st.

(** [Logger.addHandler]: a handler already present is not added again. *)
Definition add_handler (name : pystr) (hi : nat) (st : log_state) : log_state :=
  let l := get_logger st name in
  if bool_decide (hi ∈ lg_handlers l) then st
  else put_logger name {| lg_level := lg_level l; lg_handlers := lg_handlers l ++ [hi];
                          lg_propagate := lg_propagate l |} st.

(** [Logger.setLevel] *)
Definition set_level (name : pystr) (lvl : N) (st : log_state) : log_state :=
  let l := get_logger st name in
  put_logger name {| lg_level := lvl; lg_handlers := lg_handlers l; lg_propagate := lg_propagate l |} st.

(** A new handler object; its index. *)
Definition new_handler (h : handler) (st : log_state) : nat * log_state :=
  (length (handlers st),
   {| loggers := loggers st; handlers := handlers st ++ [h]; dirs := dirs st; emitted := emitted st |}).

(** [os.makedirs(d, exist_ok=True)]; permissions are not modelled. *)
Definition makedirs (d : pystr) (st : log_state) : log_state :=
  if bool_decide (d ∈ dirs st) then st
  else {| loggers := loggers st; handlers := handlers st; dirs := dirs st ++ [d]; emitted := emitted st |}.

(** The state of [logging] when the program starts: the root logger at
    level [WARNING] without handlers. *)
Definition fresh_logging : log_state :=
  {| loggers := {[ root_name := {| lg_level := WARNING; lg_handlers := []; lg_propagate := true |} ]};
     handlers := []; dirs := []; emitted := [] |}.

(** [logging.basicConfig(level=lvl)]: only when the root logger has no
    handler, a stream handler on standard error with [BASIC_FORMAT]. *)
Definition basic_config (lvl : N) (st : log_state) : log_state :=
  if bool_decide (lg_handlers (get_logger st root_name) = []) then
    let '(hi, st1) := new_handler {| h_level := NOTSET; h_target := Stderr; h_format := BasicFormat |} st in
    set_level root_name lvl (add_handler root_name hi st1)
  else st.

(** [flask.logging.has_level_handler]: some handler on the way of a
    record of the logger's effective level handles it. *)
Definition has_level_handler (st : log_state) (name : pystr) : bool :=
  existsb (fun h => (h_level h <=? effective_level st name)%N) (chain_handlers st name).

(** [flask.logging.default_handler] *)
Definition flask_default_handler : handler :=
  {| h_level := NOTSET; h_target := Stderr; h_format := FlaskFormat |}.

(** [flask.logging.create_logger], run at the first use of
    [app.logger] (a cached property): [logging.getLogger(app.name)],
    [DEBUG] level in debug mode, and Flask's default handler when no
    handler would print the logger's records. *)
Definition create_logger (app_name : pystr) (debug : bool) (st : log_state) : log_state :=
  let st1 := if debug && bool_decide (lg_level (get_logger st app_name) = NOTSET)
             then set_level app_name DEBUG_LEVEL st else st in
  if has_level_handler st1 app_name then st1
  else let '(hi, st2) := new_handler flask_default_handler st1 in add_handler app_name hi st2.

(** ** [app.config] *)

(** The values the configuration holds. *)
Inductive cfg_value := CNone | CBool (b : bool) | CInt (z : Z) | CStr (s : pystr).

(** [str.isupper] on ASCII names: a cased character and no lower-case one. *)
Definition is_upper (s : pystr) : bool :=
  existsb (fun c => (65 <=? c)%N && (c <=? 90)%N) s && negb (existsb (fun c => (97 <=? c)%N && (c <=? 122)%N) s).

(** [Config.from_object(obj)]: every upper-case attribute of [dir(obj)],
    in that order, is copied into the configuration. *)
Definition from_object (attrs : pydict cfg_value) (cfg : pydict cfg_value) : pydict cfg_value :=
  foldl (fun c kv => if is_upper kv.1 then dict_set kv.1 kv.2 c else c) cfg attrs.

(** [ProductionConfig] (wsgi.py, lines 19-25) as [dir] lists its own
    attributes: sorted, upper-case names before [__doc__] and [__module__]. *)
Definition LOG_FILE : pystr := u "/var/log/pdf-parser/app.log".
Definition LOG_LEVEL : N := INFO.
Definition ProductionConfig_MAX_CONTENT_LENGTH : Z := 16 * 1024 * 1024.

Definition ProductionConfig : pydict cfg_value :=
  [(u "DEBUG", CBool false); (u "LOG_FILE", CStr LOG_FILE); (u "LOG_LEVEL", CInt (Z.of_N LOG_LEVEL));
   (u "MAX_CONTENT_LENGTH", CInt ProductionConfig_MAX_CONTENT_LENGTH); (u "TESTING", CBool false);
   (u "__doc__", CStr (u "Production configuration settings")); (u "__module__", CStr (u "wsgi"))].

Fixpoint drop_while (P : N -> bool) (l : pystr) : pystr :=
  match l with [] => [] | c :: l' => if P c then drop_while P l' else l end.

(** [posixpath.dirname]: [p[:p.rfind('/') + 1]], with its trailing
    slashes removed unless it is made only of slashes; worked on the
    reversed string. *)
Definition dirname (p : pystr) : pystr :=
  let head_rev := drop_while (fun c => negb (c =? 47)%N) (reverse p) in
  if forallb (fun c => (c =? 47)%N) head_rev then reverse head_rev
  else reverse (drop_while (fun c => (c =? 47)%N) head_rev).

(** ** The application object and [wsgi.py] *)

(** [app.name]: [Flask(__name__)] in the module [app]; also the name of
    [logging.getLogger(__name__)] there. *)
Definition app_logger_name := u "app".

(** The state of the [app] object that [wsgi.py] changes: the logging
    state, [app.config], and whether the cached [app.logger] was created. *)
Record wsgi_state := { log_st : log_state; config : pydict cfg_value; app_logger_ready : bool }.

Definition with_log (f : log_state -> log_state) (w : wsgi_state) : wsgi_state :=
  {| log_st := f (log_st w); config := config w; app_logger_ready := app_logger_ready w |}.

(** The keys of Flask's [default_config] the program reads or sets;
    [DEBUG] is [False] when [FLASK_DEBUG] is unset. *)
Definition flask_default_config : pydict cfg_value :=
  [(u "DEBUG", CBool false); (u "TESTING", CBool false); (u "MAX_CONTENT_LENGTH", CNone)].

(** [import app] (app.py, lines 20-28): [basicConfig(level=INFO)],
    [Flask(__name__)] and the two configuration keys. *)
Definition app_imported (upload_folder : pystr) : wsgi_state :=
  {| log_st := basic_config INFO fresh_logging;
     config := dict_set (u "UPLOAD_FOLDER") (CStr upload_folder)
                 (dict_set (u "MAX_CONTENT_LENGTH") (CInt MAX_CONTENT_LENGTH) flask_default_config);
     app_logger_ready := false |}.

(** [app.debug] *)
Definition app_debug (w : wsgi_state) : bool :=
  match dict_get (config w) (u "DEBUG") with Some (CBool b) => b | _ => false end.

(** A use of [app.logger]: [create_logger] the first time. *)
Definition use_app_logger (w : wsgi_state) : wsgi_state :=
  if app_logger_ready w then w
  else {| log_st := create_logger app_logger_name (app_debug w) (log_st w); config := config w;
          app_logger_ready := true |}.

(** [app.logger.log(lvl, msg)] called from [module] *)
Definition app_log (asctime module : pystr) (lvl : N) (msg : pystr) (w : wsgi_state) : wsgi_state :=
  with_log (log asctime module app_logger_name lvl msg) (use_app_logger w).

(** The handler [setup_logging] builds (lines 34-45). *)
Definition production_file_handler : handler :=
  {| h_level := LOG_LEVEL; h_target := LogFile LOG_FILE; h_format := ProductionFormat |}.

(** [setup_logging] (wsgi.py, lines 27-54) *)
Definition setup_logging (w : wsgi_state) : wsgi_state :=
  let w1 := with_log (makedirs (dirname LOG_FILE)) w in
  let '(hi, ls) := new_handler production_file_handler (log_st w1) in
  let w2 := use_app_logger {| log_st := ls; config := config w1; app_logger_ready := app_logger_ready w1 |} in
  with_log (fun st => set_level root_name LOG_LEVEL (add_handler root_name hi
                        (set_level app_logger_name LOG_LEVEL (add_handler app_logger_name hi st)))) w2.

(** The three startup messages (lines 66-68). *)
Definition startup_messages : list pystr :=
  [u "PDF Invoice Parser Web Service starting in production mode";
   u "Log file: " ++ LOG_FILE;
   u "Max upload size: " ++ int_repr ProductionConfig_MAX_CONTENT_LENGTH ++ u " bytes"].

(** [create_application] (wsgi.py, lines 56-70); [asctime] is the time
    stamp the formatter prints. *)
Definition create_application (asctime : pystr) (w : wsgi_state) : wsgi_state :=
  let w1 := {| log_st := log_st w; config := from_object ProductionConfig (config w);
               app_logger_ready := app_logger_ready w |} in
  foldl (fun w' msg => app_log asctime (u "wsgi") INFO msg w') (setup_logging w1) startup_messages.

(** [application = create_application()] after [from app import app]. *)
Definition application (asctime upload_folder : pystr) : wsgi_state :=
  create_application asctime (app_imported upload_folder).

(** The loggers and handlers [setup_logging] leaves when it starts from
    the state of [import app] (no debug mode). *)
Definition production_logging : log_state :=
  log_st (setup_logging {| log_st := basic_config INFO fresh_logging; config := []; app_logger_ready := false |}).




(** ** Laws of the [logging] model *)

(** What [log] writes. *)
Lemma log_emitted a m n lvl msg st :
  emitted (log a m n lvl msg st) =
  emitted st ++ (if (effective_level st n <=? lvl)%N then call_handlers a m st n lvl msg else []).
Proof. unfold log. case_match; simpl; [done | by rewrite app_nil_r]. Qed.

Lemma log_loggers a m n lvl msg st : loggers (log a m n lvl msg st) = loggers st.
Proof. unfold log. by case_match. Qed.

Lemma log_handlers a m n lvl msg st : handlers (log a m n lvl msg st) = handlers st.
Proof. unfold log. by case_match. Qed.

(** Only the loggers and handlers decide what a record does. *)
Lemma effective_level_cfg st st' n :
  loggers st = loggers st' -> effective_level st n = effective_level st' n.
Proof. destruct st, st'; simpl; intros ->; reflexivity. Qed.

Lemma call_handlers_cfg a m st st' n lvl msg :
  loggers st = loggers st' -> handlers st = handlers st' ->
  call_handlers a m st n lvl msg = call_handlers a m st' n lvl msg.
Proof. destruct st, st'; simpl; intros -> ->; reflexivity. Qed.

Lemma setup_logging_cfg w w' :
  log_st w = log_st w' -> app_logger_ready w = app_logger_ready w' -> app_debug w = app_debug w' ->
  log_st (setup_logging w) = log_st (setup_logging w') /\ app_logger_ready (setup_logging w) = true.
Proof.
  destruct w as [l c r], w' as [l' c' r']; simpl; intros -> -> Hd.
  unfold setup_logging, with_log, use_app_logger, app_debug in *; simpl in *.
  destruct (new_handler production_file_handler l'); simpl. destruct r'; simpl; [done|]. by rewrite Hd.
Qed.

(** ** [Config.from_object] *)

(** A key that is not an attribute keeps its value. *)
Lemma from_object_get_other attrs cfg k :
  k ∉ dict_keys attrs -> dict_get (from_object attrs cfg) k = dict_get cfg k.
Proof.
  unfold from_object. revert cfg.
  induction attrs as [|[k' v'] attrs IH]; intros cfg Hk; simpl in *; [done|].
  apply not_elem_of_cons in Hk as [Hk Hks]. rewrite IH by done.
  case_match; [by rewrite dict_get_set_ne|done].
Qed.

(** An upper-case attribute is copied. *)
Lemma from_object_get attrs cfg k v :
  NoDup (dict_keys attrs) -> dict_get attrs k = Some v -> is_upper k = true ->
  dict_get (from_object attrs cfg) k = Some v.
Proof.
  unfold from_object. revert cfg.
  induction attrs as [|[k' v'] attrs IH]; intros cfg Hnd Hg Hu; simpl in *; [done|].
  apply NoDup_cons in Hnd as [Hk' Hnd]. case_bool_decide; [simplify_eq|by apply IH].
  rewrite Hu. fold (from_object attrs (dict_set k v cfg)).
  rewrite from_object_get_other by done. apply dict_get_set_eq.
Qed.

(** ** The state [create_application] leaves *)

Lemma setup_logging_config w : config (setup_logging w) = config w.
Proof.
  unfold setup_logging, with_log, use_app_logger. destruct (new_handler _ _); simpl. by case_match.
Qed.

Lemma app_log_state a m lvl msg w :
  app_logger_ready w = true ->
  log_st (app_log a m lvl msg w) = log a m app_logger_name lvl msg (log_st w) /\
  config (app_log a m lvl msg w) = config w /\ app_logger_ready (app_log a m lvl msg w) = true.
Proof. intros Hr. unfold app_log, use_app_logger. by rewrite Hr. Qed.

Lemma app_log_fold a m msgs w :
  app_logger_ready w = true ->
  let w' := foldl (fun w' msg => app_log a m INFO msg w') w msgs in
  loggers (log_st w') = loggers (log_st w) /\ handlers (log_st w') = handlers (log_st w) /\
  config w' = config w /\ app_logger_ready w' = true.
Proof.
  revert w. induction msgs as [|msg msgs IH]; intros w Hr; simpl; [done|].
  destruct (app_log_state a m INFO msg w Hr) as (Hl & Hc & Hr').
  destruct (IH _ Hr') as (H1 & H2 & H3 & H4).
  by rewrite H1, H2, H3, Hl, log_loggers, log_handlers.
Qed.

Lemma production_config_nodup : NoDup (dict_keys ProductionConfig).
Proof. apply (bool_decide_unpack _). by vm_compute. Qed.

Lemma application_debug f : app_debug {| log_st := basic_config INFO fresh_logging;
    config := from_object ProductionConfig (config (app_imported f)); app_logger_ready := false |} = false.
Proof.
  unfold app_debug; cbn [config]. rewrite (from_object_get _ _ _ (CBool false)); [done|apply production_config_nodup| |];
  by vm_compute.
Qed.

Lemma application_state a f :
  loggers (log_st (application a f)) = loggers production_logging /\
  handlers (log_st (application a f)) = handlers production_logging /\
  config (application a f) = from_object ProductionConfig (config (app_imported f)) /\
  app_logger_ready (application a f) = true.
Proof.
  unfold application, create_application. cbv zeta.
  match goal with |- context [setup_logging ?w] =>
    destruct (setup_logging_cfg w {| log_st := basic_config INFO fresh_logging; config := [];
                                     app_logger_ready := false |}) as [Hs Hr];
    [done|done|apply application_debug|];
    pose proof (setup_logging_config w) as Hc end.
  destruct (app_log_fold a (u "wsgi") startup_messages _ Hr) as (H1 & H2 & H3 & H4).
  rewrite H1, H2, H3, Hs, Hc. split; [reflexivity|]. split; [reflexivity|]. split; [reflexivity|exact H4].
Qed.

Lemma production_chain : chain_handlers production_logging app_logger_name =
  [production_file_handler; {| h_level := NOTSET; h_target := Stderr; h_format := BasicFormat |};
   production_file_handler].
Proof. vm_compute. reflexivity. Qed.

Lemma production_loggers : loggers production_logging =
  <[app_logger_name := {| lg_level := INFO; lg_handlers := [1]; lg_propagate := true |}]>
  {[ root_name := {| lg_level := INFO; lg_handlers := [0; 1]; lg_propagate := true |} ]}.
Proof. vm_compute. reflexivity. Qed.

Lemma production_effective_level name : effective_level production_logging name = INFO.
Proof.
  unfold effective_level, logger_chain, get_logger. rewrite production_loggers.
  case_bool_decide; [subst; vm_compute; reflexivity|].
  destruct (decide (name = app_logger_name)); [subst; by vm_compute|].
  rewrite lookup_insert_ne, lookup_singleton_ne by done. by vm_compute.
Qed.

(** C28: after [create_application], a record of level [INFO] or more
    logged on [app.logger] is written three times: by the file handler
    that [setup_logging] attached to [app.logger], by the stream handler
    of [basicConfig] on the root logger, and a second time to the same
    log file by the same file handler, which [setup_logging] also
    attached to the root logger the record propagates to. *)
Theorem app_log_written_twice a f m lvl msg :
  (INFO <= lvl)%N ->
  emitted (log_st (app_log a m lvl msg (application a f))) =
  emitted (log_st (application a f)) ++
  [(LogFile LOG_FILE, format_line a m ProductionFormat app_logger_name lvl msg);
   (Stderr, format_line a m BasicFormat app_logger_name lvl msg);
   (LogFile LOG_FILE, format_line a m ProductionFormat app_logger_name lvl msg)].
Proof.
  intros Hl. destruct (application_state a f) as (H1 & H2 & _ & Hr).
  rewrite (proj1 (app_log_state a m lvl msg _ Hr)), log_emitted.
  rewrite (effective_level_cfg _ production_logging _ H1), production_effective_level.
  erewrite (call_handlers_cfg _ _ _ production_logging); [|exact H1|exact H2].
  unfold call_handlers. rewrite production_chain.
  apply N.leb_le in Hl. cbn [mbind list_bind h_level h_target h_format production_file_handler].
  unfold LOG_LEVEL. rewrite Hl. replace (NOTSET <=? lvl)%N with true by (symmetry; apply N.leb_le; unfold NOTSET; lia).
  reflexivity.
Qed.

(** C29: after [create_application], a record below [INFO] on any
    logger changes nothing: the effective level of every logger is
    [INFO]. *)
Theorem below_info_dropped a f m name lvl msg :
  (lvl < INFO)%N -> log a m name lvl msg (log_st (application a f)) = log_st (application a f).
Proof.
  intros Hl. destruct (application_state a f) as (H1 & _).
  unfold log. rewrite (effective_level_cfg _ production_logging _ H1), production_effective_level.
  case_match; [apply N.leb_le in H; lia|reflexivity].
Qed.

Lemma app_log_written_twice_witness :
  (INFO <= WARNING)%N /\
  emitted (log_st (app_log (u "T") (u "wsgi") WARNING (u "x") (application (u "T") (u "/tmp")))) =
  emitted (log_st (application (u "T") (u "/tmp"))) ++
  [(LogFile LOG_FILE, format_line (u "T") (u "wsgi") ProductionFormat app_logger_name WARNING (u "x"));
   (Stderr, format_line (u "T") (u "wsgi") BasicFormat app_logger_name WARNING (u "x"));
   (LogFile LOG_FILE, format_line (u "T") (u "wsgi") ProductionFormat app_logger_name WARNING (u "x"))].
Proof.
  assert (Hl : (INFO <= WARNING)%N) by (unfold INFO, WARNING; lia).
  split; [exact Hl|]. exact (app_log_written_twice (u "T") (u "/tmp") (u "wsgi") WARNING (u "x") Hl).
Defined.

Lemma below_info_dropped_witness :
  (DEBUG_LEVEL < INFO)%N /\
  log (u "T") (u "werkzeug") (u "werkzeug") DEBUG_LEVEL (u "x") (log_st (application (u "T") (u "/tmp"))) =
  log_st (application (u "T") (u "/tmp")).
Proof.
  assert (Hl : (DEBUG_LEVEL < INFO)%N) by (unfold DEBUG_LEVEL, INFO; lia).
  split; [exact Hl|]. exact (below_info_dropped (u "T") (u "/tmp") (u "werkzeug") (u "werkzeug") DEBUG_LEVEL (u "x") Hl).
Defined.
