(* ===== verification/Gunicorn.v ===== *)
(** * Server settings: [src/gunicorn.conf.py]

    The configuration file Gunicorn executes as a Python module: its
    module-level settings, with [workers] computed from the number of
    processors, and four hooks that log one line each on the arbiter's
    logger [server.log].  The settings are a record whose fields carry the
    names of the source; a hook is a function on the list of lines the
    arbiter's logger has written, as (level, message) pairs.

    Lemmas: the worker count, the requests after which Gunicorn restarts a
    worker ([max_requests] plus a jitter of at most
    [max_requests_jitter]), and the log files, which lie in the directory
    [setup_logging] of [wsgi.py] creates. *)

From S2P Require Import Prelude Unicode PyStr Dict Json App Wsgi.

Record gunicorn_config := {
  bind : pystr; backlog : Z;
  workers : Z; worker_class : pystr; worker_connections : Z; timeout : Z; keepalive : Z;
  max_requests : Z; max_requests_jitter : Z;
  accesslog : pystr; errorlog : pystr; loglevel : pystr; access_log_format : pystr;
  proc_name : pystr; daemon : bool; user : pystr; group : pystr;
  limit_request_line : Z; limit_request_fields : Z; limit_request_field_size : Z;
  preload_app : bool; enable_stdio_inheritance : bool
}.

(** The double quote, code point 34. *)
Definition dq : pystr := [34%N].

(** The module [gunicorn.conf.py] (lines 8-45) on a machine where
    [multiprocessing.cpu_count()] is [cpus]. *)
Definition gunicorn_conf (cpus : Z) : gunicorn_config := {|
  bind := u "127.0.0.1:5000"; backlog := 2048;
  workers := cpus * 2 + 1; worker_class := u "sync"; worker_connections := 1000; timeout := 30;
  keepalive := 2;
  max_requests := 1000; max_requests_jitter := 50;
  accesslog := u "/var/log/pdf-parser/access.log"; errorlog := u "/var/log/pdf-parser/error.log";
  loglevel := u "info";
  access_log_format := u "%(h)s %(l)s %(u)s %(t)s " ++ dq ++ u "%(r)s" ++ dq ++ u " %(s)s %(b)s " ++ dq ++
    u "%(f)s" ++ dq ++ u " " ++ dq ++ u "%(a)s" ++ dq ++ u " %(D)s";
  proc_name := u "pdf-parser-api"; daemon := false; user := u "www-data"; group := u "www-data";
  limit_request_line := 4094; limit_request_fields := 100; limit_request_field_size := 8190;
  preload_app := true; enable_stdio_inheritance := true |}.

(** The lines [server.log] has written. *)
Abbreviation server_log := (list (N * pystr)).

(** [server.log.info(msg)]: Gunicorn's error log at level [info]
    prints records of level [INFO] and above. *)
Definition server_info (msg : pystr) (log : server_log) : server_log := log ++ [(INFO, msg)].

(** The hooks, lines 52-66. *)
Definition on_starting (log : server_log) : server_log := server_info (u "PDF Invoice Parser starting...") log.
Definition on_reload (log : server_log) : server_log := server_info (u "PDF Invoice Parser reloading...") log.
Definition when_ready (log : server_log) : server_log :=
  server_info (u "PDF Invoice Parser ready to serve requests") log.
Definition on_exit (log : server_log) : server_log := server_info (u "PDF Invoice Parser shutting down...") log.

(** A Gunicorn worker restarts after [max_requests + randint(0,
    max_requests_jitter)] requests when [max_requests] is positive, and
    never otherwise ([None]); [jitter] is the drawn value. *)
Definition worker_max_requests (c : gunicorn_config) (jitter : Z) : option Z :=
  if Z.ltb 0 (max_requests c) then Some (max_requests c + jitter)%Z else None.

(** ** Laws *)

(** The access and error logs are written in the directory that
    [setup_logging] creates for the application log. *)
Lemma gunicorn_log_dir cpus :
  dirname (accesslog (gunicorn_conf cpus)) = dirname LOG_FILE /\
  dirname (errorlog (gunicorn_conf cpus)) = dirname LOG_FILE.
Proof. cbn [accesslog errorlog gunicorn_conf]. split; vm_compute; reflexivity. Qed.

(** On a machine with at least one processor there are at least three
    workers, always an odd number. *)
Lemma gunicorn_workers cpus :
  (1 <= cpus)%Z -> (3 <= workers (gunicorn_conf cpus))%Z /\ Z.odd (workers (gunicorn_conf cpus)) = true.
Proof.
  intros H. cbn [workers gunicorn_conf]. split; [lia|].
  rewrite Z.odd_add, Z.odd_mul. by destruct (Z.odd cpus).
Qed.

(** Every worker is restarted after 1000 to 1050 requests. *)
Lemma gunicorn_restart_bounds cpus jitter :
  (0 <= jitter <= max_requests_jitter (gunicorn_conf cpus))%Z ->
  exists n, worker_max_requests (gunicorn_conf cpus) jitter = Some n /\ (1000 <= n <= 1050)%Z.
Proof.
  cbn [max_requests_jitter gunicorn_conf]. intros H.
  exists (1000 + jitter)%Z. split; [reflexivity|lia].
Qed.
